(** * Policy rule transformation and validation (cdp.policies)

    A shallow embedding of
      - [python/cdp/policies/types.py]: the user-facing criterion, rule and
        policy models and their construction-time validators,
      - [python/cdp/policies/request_transformer.py]: user-facing rules to the
        wire format,
      - [python/cdp/policies/response_transformer.py]: wire format back to
        user-facing rules,
    followed by the properties the specification states about them.

    Python values are modelled as follows: a [str] is its sequence of Unicode
    code points, a [dict] is a finite map, a list is a list, an exception is a
    value of [exn] carried by the [result] monad, and an attribute that an
    object may or may not have ([hasattr]) is an [option]. *)

From Stdlib Require Import NArith Strings.Byte.
From stdpp Require Import gmap.

(** ** Python strings *)

(** A Python [str]: the list of its code points. *)
Inductive str := Str (codepoints : list N).

Definition codepoints (s : str) : list N := match s with Str l => l end.

Global Instance str_eq_dec : EqDecision str.
Proof. solve_decision. Defined.

Global Instance str_countable : Countable str.
Proof. exact (inj_countable' codepoints Str (λ s, match s with Str _ => eq_refl end)). Defined.

(** String literals of this file are read as UTF-8, so that a literal denotes
    the code points a Python source literal denotes. *)
Fixpoint utf8_decode (fuel : nat) (bs : list Byte.byte) : option (list N) :=
  match fuel with
  | O => None
  | S fuel =>
    match bs with
    | [] => Some []
    | b0 :: r =>
      let n0 := Byte.to_N b0 in
      if (n0 <? 0x80)%N then cons n0 <$> utf8_decode fuel r
      else if (n0 <? 0xE0)%N then
        match r with
        | b1 :: r =>
          cons ((n0 - 0xC0) * 64 + (Byte.to_N b1 - 0x80))%N <$> utf8_decode fuel r
        | _ => None
        end
      else if (n0 <? 0xF0)%N then
        match r with
        | b1 :: b2 :: r =>
          cons ((n0 - 0xE0) * 4096 + (Byte.to_N b1 - 0x80) * 64
                + (Byte.to_N b2 - 0x80))%N <$> utf8_decode fuel r
        | _ => None
        end
      else
        match r with
        | b1 :: b2 :: b3 :: r =>
          cons ((n0 - 0xF0) * 262144 + (Byte.to_N b1 - 0x80) * 4096
                + (Byte.to_N b2 - 0x80) * 64 + (Byte.to_N b3 - 0x80))%N
            <$> utf8_decode fuel r
        | _ => None
        end
    end
  end.

Definition str_of_utf8 (bs : list Byte.byte) : option str :=
  Str <$> utf8_decode (S (length bs)) bs.

Definition byte_of_N (n : N) : Byte.byte := default Byte.x00 (Byte.of_N n).

Definition utf8_encode_char (c : N) : list Byte.byte :=
  if (c <? 0x80)%N then [byte_of_N c]
  else if (c <? 0x800)%N then
    [byte_of_N (0xC0 + c / 64); byte_of_N (0x80 + c mod 64)]
  else if (c <? 0x10000)%N then
    [byte_of_N (0xE0 + c / 4096); byte_of_N (0x80 + (c / 64) mod 64);
     byte_of_N (0x80 + c mod 64)]
  else
    [byte_of_N (0xF0 + c / 262144); byte_of_N (0x80 + (c / 4096) mod 64);
     byte_of_N (0x80 + (c / 64) mod 64); byte_of_N (0x80 + c mod 64)].

Definition utf8_of_str (s : str) : list Byte.byte :=
  concat (map utf8_encode_char (codepoints s)).

Declare Scope str_scope.
Delimit Scope str_scope with str.
Bind Scope str_scope with str.
String Notation str str_of_utf8 utf8_of_str : str_scope.
Local Open Scope str_scope.

(** [s + t] on strings, as used by the f-strings of the error messages. *)
Definition str_app (s t : str) : str := Str (codepoints s ++ codepoints t).
Infix "+++" := str_app (at level 60, right associativity) : str_scope.

(** [len(s)] *)
Definition len (s : str) : nat := length (codepoints s).

(** ** Exceptions *)

(** The exceptions the modelled code raises.  [ValueError] is what both
    transformers raise for an unknown tag; [ValidationError] is what
    construction of a model raises (the validators' [UserInputValidationError]
    and the model library's own type errors), with the offending field and a
    reason; [AttributeError] is a read of a missing attribute and [KeyError]
    a subscript with a missing key. *)
Inductive exn :=
| ValueError (msg : str)
| ValidationError (field reason : str)
| AttributeError (attr : str)
| KeyError (key : str).

Global Instance exn_eq_dec : EqDecision exn.
Proof. solve_decision. Defined.

Inductive result (A : Type) :=
| Ok (a : A)
| Raise (e : exn).
Global Arguments Ok {A} a.
Global Arguments Raise {A} e.

Global Instance result_ret : MRet result := λ A a, Ok a.
Global Instance result_bind : MBind result := λ A B f m,
  match m with Ok a => f a | Raise e => Raise e end.
Global Instance result_fmap : FMap result := λ A B f m,
  match m with Ok a => Ok (f a) | Raise e => Raise e end.

Definition raises {A} (m : result A) : Prop := ∃ e, m = Raise e.
Definition returns {A} (m : result A) : Prop := ∃ a, m = Ok a.

(** A comprehension over the values of a [dict] whose body may raise. *)
Definition dict_mapM {A B} (f : A → result B) (d : gmap str A)
  : result (gmap str B) :=
  list_to_map <$> mapM (λ kv, v ← f kv.2; mret (kv.1, v)) (map_to_list d).

(** ** Builtins *)

Module Py.

Definition in_range (lo hi c : N) : bool := ((lo <=? c) && (c <=? hi))%N.

(** Code points with Unicode property Numeric_Type=Digit or
    Numeric_Type=Decimal (Unicode 14.0, as inclusive ranges): the characters
    [str.isdigit] accepts. *)
Definition digit_ranges : list (N * N) := [
  (0x30, 0x39); (0xB2, 0xB3); (0xB9, 0xB9); (0x660, 0x669); (0x6F0, 0x6F9);
  (0x7C0, 0x7C9); (0x966, 0x96F); (0x9E6, 0x9EF); (0xA66, 0xA6F);
  (0xAE6, 0xAEF); (0xB66, 0xB6F); (0xBE6, 0xBEF); (0xC66, 0xC6F);
  (0xCE6, 0xCEF); (0xD66, 0xD6F); (0xDE6, 0xDEF); (0xE50, 0xE59);
  (0xED0, 0xED9); (0xF20, 0xF29); (0x1040, 0x1049); (0x1090, 0x1099);
  (0x1369, 0x1371); (0x17E0, 0x17E9); (0x1810, 0x1819); (0x1946, 0x194F);
  (0x19D0, 0x19DA); (0x1A80, 0x1A89); (0x1A90, 0x1A99); (0x1B50, 0x1B59);
  (0x1BB0, 0x1BB9); (0x1C40, 0x1C49); (0x1C50, 0x1C59); (0x2070, 0x2070);
  (0x2074, 0x2079); (0x2080, 0x2089); (0x2460, 0x2468); (0x2474, 0x247C);
  (0x2488, 0x2490); (0x24EA, 0x24EA); (0x24F5, 0x24FD); (0x24FF, 0x24FF);
  (0x2776, 0x277E); (0x2780, 0x2788); (0x278A, 0x2792); (0xA620, 0xA629);
  (0xA8D0, 0xA8D9); (0xA900, 0xA909); (0xA9D0, 0xA9D9); (0xA9F0, 0xA9F9);
  (0xAA50, 0xAA59); (0xABF0, 0xABF9); (0xFF10, 0xFF19); (0x104A0, 0x104A9);
  (0x10A40, 0x10A43); (0x10D30, 0x10D39); (0x10E60, 0x10E68);
  (0x11052, 0x1105A); (0x11066, 0x1106F); (0x110F0, 0x110F9);
  (0x11136, 0x1113F); (0x111D0, 0x111D9); (0x112F0, 0x112F9);
  (0x11450, 0x11459); (0x114D0, 0x114D9); (0x11650, 0x11659);
  (0x116C0, 0x116C9); (0x11730, 0x11739); (0x118E0, 0x118E9);
  (0x11950, 0x11959); (0x11C50, 0x11C59); (0x11D50, 0x11D59);
  (0x11DA0, 0x11DA9); (0x16A60, 0x16A69); (0x16AC0, 0x16AC9);
  (0x16B50, 0x16B59); (0x1D7CE, 0x1D7FF); (0x1E140, 0x1E149);
  (0x1E2F0, 0x1E2F9); (0x1E950, 0x1E959); (0x1F100, 0x1F10A);
  (0x1FBF0, 0x1FBF9) ]%N.

Definition is_digit_char (c : N) : bool :=
  existsb (λ r, in_range r.1 r.2 c) digit_ranges.

(** [s.isdigit()]: every character is a digit and there is at least one. *)
Definition isdigit (s : str) : bool :=
  match codepoints s with
  | [] => false
  | cs => forallb is_digit_char cs
  end.

(** The ASCII decimal digits [0-9]. *)
Definition is_ascii_digit (c : N) : bool := in_range 0x30 0x39 c.

(** The character class [[0-9a-fA-F]]. *)
Definition is_hex_char (c : N) : bool :=
  in_range 0x30 0x39 c || in_range 0x61 0x66 c || in_range 0x41 0x46 c.

(** The character class [[1-9A-HJ-NP-Za-km-z]]. *)
Definition is_base58_char (c : N) : bool :=
  in_range 0x31 0x39 c || in_range 0x41 0x48 c || in_range 0x4A 0x4E c
  || in_range 0x50 0x5A c || in_range 0x61 0x6B c || in_range 0x6D 0x7A c.

(** The anchor [$] of a pattern compiled without flags: the end of the
    string, or just before a newline that ends the string. *)
Definition at_dollar (rest : list N) : bool :=
  match rest with
  | [] => true
  | [c] => (c =? 0xA)%N
  | _ => false
  end.

(** [re.match(r"^0x[0-9a-fA-F]{40}$", s) is not None] *)
Definition match_evm_address (s : str) : bool :=
  match codepoints s with
  | c0 :: c1 :: body =>
      (c0 =? 0x30)%N && (c1 =? 0x78)%N
      && bool_decide (length (take 40 body) = 40)
      && forallb is_hex_char (take 40 body)
      && at_dollar (drop 40 body)
  | _ => false
  end.

(** The greedy, backtracking [[1-9A-HJ-NP-Za-km-z]{32,44}$] on [s]: some
    count [n] of 32 to 44 leading class characters is followed by [$]. *)
Definition match_sol_address (s : str) : bool :=
  existsb (λ n, bool_decide (length (take n (codepoints s)) = n)
                && forallb is_base58_char (take n (codepoints s))
                && at_dollar (drop n (codepoints s)))
          (seq 32 13).

(** Truth value of a [None | list] value: [None] and [[]] are false. *)
Definition truthy {A} (o : option (list A)) : bool :=
  match o with
  | Some (_ :: _) => true
  | _ => false
  end.

End Py.

(** ** The user-facing models: [cdp/policies/types.py] *)

Module Types.

(** A value of [KnownAbiType | AbiInner], the type of the [abi] field.

    Modelled from the spec: the classes [KnownAbiType] and [AbiInner] of
    [cdp.openapi_client.models] are not among the sources; the data model
    describes the field as a known-type tag or an explicit ABI fragment.
    [KnownAbiType] is a string enumeration (an instance is a [str]), and a
    fragment is kept as an opaque payload. *)
Inductive Abi :=
| KnownAbiType (value : str)
| AbiInner (fragment : str).

(** [EvmDataParameterCondition | EvmDataParameterConditionList]: the first has
    the attribute [value], the second the attribute [values]. *)
Inductive ParamCondition :=
| EvmDataParameterCondition (name operator value : str)
| EvmDataParameterConditionList (name operator : str) (values : list str).

Record EvmDataCondition := mkEvmDataCondition {
  function : str;
  params : option (list ParamCondition)
}.

(** [EvmTypedAddressCondition | EvmTypedNumericalCondition |
    EvmTypedStringCondition] *)
Inductive TypedCondition :=
| EvmTypedAddressCondition (addresses : list str) (operator path : str)
| EvmTypedNumericalCondition (value operator path : str)
| EvmTypedStringCondition (match_ path : str).

Record SignEvmTypedDataTypes := mkSignEvmTypedDataTypes {
  types : gmap str (list (gmap str str));
  primaryType : str
}.

(** The criterion classes.  The [type] field of each class is a literal with
    a default, so an object's tag is fixed by its class. *)
Inductive Criterion :=
| EthValueCriterion (ethValue operator : str)
| EvmAddressCriterion (addresses : list str) (operator : str)
| EvmNetworkCriterion (networks : list str) (operator : str)
| EvmDataCriterion (abi : Abi) (conditions : list EvmDataCondition)
| EvmMessageCriterion (match_ : str)
| SignEvmTypedDataFieldCriterion (types : SignEvmTypedDataTypes)
    (conditions : list TypedCondition)
| SignEvmTypedDataVerifyingContractCriterion (addresses : list str)
    (operator : str)
| SolanaAddressCriterion (addresses : list str) (operator : str).

Definition type (c : Criterion) : str :=
  match c with
  | EthValueCriterion _ _ => "ethValue"
  | EvmAddressCriterion _ _ => "evmAddress"
  | EvmNetworkCriterion _ _ => "evmNetwork"
  | EvmDataCriterion _ _ => "evmData"
  | EvmMessageCriterion _ => "evmMessage"
  | SignEvmTypedDataFieldCriterion _ _ => "evmTypedDataField"
  | SignEvmTypedDataVerifyingContractCriterion _ _ =>
      "evmTypedDataVerifyingContract"
  | SolanaAddressCriterion _ _ => "solAddress"
  end.

(** A rule object as the transformers read it: its [action], its [operation]
    and, when the object has the attribute, its [criteria].  The six rule
    classes are the objects built by the [*Rule_init] functions below; any
    other object with these attributes (an unknown operation, say) is a rule
    of this type too. *)
Record Rule := mkRule {
  action : str;
  operation : str;
  criteria : option (list Criterion)
}.

Global Instance Abi_eq_dec : EqDecision Abi.
Proof. solve_decision. Defined.
Global Instance ParamCondition_eq_dec : EqDecision ParamCondition.
Proof. solve_decision. Defined.
Global Instance EvmDataCondition_eq_dec : EqDecision EvmDataCondition.
Proof. solve_decision. Defined.
Global Instance TypedCondition_eq_dec : EqDecision TypedCondition.
Proof. solve_decision. Defined.
Global Instance SignEvmTypedDataTypes_eq_dec : EqDecision SignEvmTypedDataTypes.
Proof. solve_decision. Defined.
Global Instance Criterion_eq_dec : EqDecision Criterion.
Proof. solve_decision. Defined.
Global Instance Rule_eq_dec : EqDecision Rule.
Proof. solve_decision. Defined.

(** *** Field validation *)

(** A field annotated [Literal[...]]: the value must be one of the literals. *)
Definition literal (field : str) (allowed : list str) (v : str) : result str :=
  if bool_decide (v ∈ allowed) then Ok v
  else Raise (ValidationError field "literal_error").

Definition Action : list str := ["reject"; "accept"].

(** [EthValueCriterion.validate_eth_value] *)
Definition validate_eth_value (v : str) : result str :=
  if negb (Py.isdigit v) then
    Raise (ValidationError "ethValue" "ethValue must contain only digits")
  else Ok v.

(** [validate_addresses_length], the same in [EvmAddressCriterion],
    [EvmTypedAddressCondition] and
    [SignEvmTypedDataVerifyingContractCriterion]. *)
Definition validate_addresses_length (v : list str) : result (list str) :=
  if bool_decide (300 < length v) then
    Raise (ValidationError "addresses" "Maximum of 300 addresses allowed")
  else Ok v.

(** [validate_addresses_format], the same in the three classes: the loop
    raises at the first address that does not match. *)
Fixpoint validate_addresses_format_loop (v : list str) : result unit :=
  match v with
  | [] => Ok ()
  | addr :: v' =>
      if negb (Py.match_evm_address addr) then
        Raise (ValidationError "addresses"
          "must validate the regular expression /^0x[0-9a-fA-F]{40}$/")
      else validate_addresses_format_loop v'
  end.

Definition validate_addresses_format (v : list str) : result (list str) :=
  _ ← validate_addresses_format_loop v; mret v.

(** [EvmDataParameterCondition.validate_operator_enum] *)
Definition validate_operator_enum (value : str) : result str :=
  if bool_decide (value ∉ [">"; ">="; "<"; "<="; "=="]) then
    Raise (ValidationError "operator"
      "must be one of enum values ('>', '>=', '<', '<=', '==')")
  else Ok value.

(** [EvmDataParameterConditionList.validate_operator_enum] *)
Definition validate_operator_enum_list (value : str) : result str :=
  if bool_decide (value ∉ ["in"; "not in"]) then
    Raise (ValidationError "operator"
      "must be one of enum values ('in', 'not in')")
  else Ok value.

(** [EvmTypedNumericalCondition.validate_value] *)
Definition validate_value (v : str) : result str :=
  if negb (Py.isdigit v) then
    Raise (ValidationError "value" "value must contain only digits")
  else Ok v.

(** [SolanaAddressCriterion.validate_address_format] *)
Fixpoint validate_address_format_loop (v : list str) : result unit :=
  match v with
  | [] => Ok ()
  | address :: v' =>
      if negb (Py.match_sol_address address) then
        Raise (ValidationError "addresses"
                 ("Invalid address format: " +++ address))
      else validate_address_format_loop v'
  end.

Definition validate_address_format (v : list str) : result (list str) :=
  _ ← validate_address_format_loop v; mret v.

(** The elements of a field annotated [list[Literal[...]]]. *)
Fixpoint literal_list (field : str) (allowed : list str) (v : list str)
  : result (list str) :=
  match v with
  | [] => Ok []
  | x :: v' =>
      x' ← literal field allowed x;
      r ← literal_list field allowed v';
      mret (x' :: r)
  end.

(** *** Construction

    [X_init] is the call [X(...)]: the fields are validated in their order
    of declaration, each first against its annotation and then by its
    validators in their order of definition, and the object is built when
    none raises.  Classes with neither a validator nor a literal field
    ([EvmDataCondition], [EvmDataCriterion], [EvmMessageCriterion],
    [EvmTypedStringCondition], [SignEvmTypedDataFieldCriterion]) accept
    every well-typed argument, and their construction is the constructor of
    the type above; so does [SignEvmTypedDataTypes], whose call by the
    response transformer, with values that may be [None], is
    [SignEvmTypedDataTypes_init]. *)

Definition EthValueCriterion_init (ethValue operator : str) : result Criterion :=
  v ← validate_eth_value ethValue;
  op ← literal "operator" [">"; "<"; ">="; "<="; "=="; "!="] operator;
  mret (EthValueCriterion v op).

Definition EvmAddressCriterion_init (addresses : list str) (operator : str)
  : result Criterion :=
  v ← validate_addresses_length addresses;
  v ← validate_addresses_format v;
  op ← literal "operator" ["in"; "not in"] operator;
  mret (EvmAddressCriterion v op).

Definition EvmNetworkCriterion_init (networks : list str) (operator : str)
  : result Criterion :=
  ns ← literal_list "networks" ["base-sepolia"; "base"] networks;
  op ← literal "operator" ["in"; "not in"] operator;
  mret (EvmNetworkCriterion ns op).

Definition EvmDataParameterCondition_init (name operator value : str)
  : result ParamCondition :=
  op ← validate_operator_enum operator;
  mret (EvmDataParameterCondition name op value).

Definition EvmDataParameterConditionList_init (name operator : str)
  (values : list str) : result ParamCondition :=
  op ← validate_operator_enum_list operator;
  mret (EvmDataParameterConditionList name op values).

Definition EvmTypedAddressCondition_init (addresses : list str)
  (operator path : str) : result TypedCondition :=
  v ← validate_addresses_length addresses;
  v ← validate_addresses_format v;
  op ← literal "operator" ["in"; "not in"] operator;
  mret (EvmTypedAddressCondition v op path).

Definition EvmTypedNumericalCondition_init (value operator path : str)
  : result TypedCondition :=
  v ← validate_value value;
  op ← literal "operator" [">"; "<"; ">="; "<="; "=="] operator;
  mret (EvmTypedNumericalCondition v op path).

Definition SignEvmTypedDataVerifyingContractCriterion_init
  (addresses : list str) (operator : str) : result Criterion :=
  v ← validate_addresses_length addresses;
  v ← validate_addresses_format v;
  op ← literal "operator" ["in"; "not in"] operator;
  mret (SignEvmTypedDataVerifyingContractCriterion v op).

Definition SolanaAddressCriterion_init (addresses : list str) (operator : str)
  : result Criterion :=
  v ← validate_address_format addresses;
  op ← literal "operator" ["in"; "not in"] operator;
  mret (SolanaAddressCriterion v op).

(** A value annotated [str]: [None] is none. *)
Definition str_type (field : str) (v : option str) : result str :=
  match v with
  | Some s => Ok s
  | None => Raise (ValidationError field "string_type")
  end.

(** [SignEvmTypedDataTypes(types=..., primaryType=...)], called by the
    response transformer with dicts whose values are attributes of wire
    objects, which may be [None]: [types] is annotated
    [dict[str, list[dict[str, str]]]]. *)
Definition SignEvmTypedDataTypes_init
  (types : gmap str (list (gmap str (option str)))) (primaryType : str)
  : result SignEvmTypedDataTypes :=
  tys ← dict_mapM (mapM (dict_mapM (str_type "types"))) types;
  mret (mkSignEvmTypedDataTypes tys primaryType).

(** The element types of the [criteria] annotation of each rule class. *)
Definition SendEvmTransactionRule_criterion (c : Criterion) : bool :=
  match c with
  | EthValueCriterion _ _ | EvmAddressCriterion _ _
  | EvmNetworkCriterion _ _ | EvmDataCriterion _ _ => true
  | _ => false
  end.

Definition SignEvmTransactionRule_criterion (c : Criterion) : bool :=
  match c with
  | EthValueCriterion _ _ | EvmAddressCriterion _ _
  | EvmDataCriterion _ _ => true
  | _ => false
  end.

Definition SignEvmMessageRule_criterion (c : Criterion) : bool :=
  match c with
  | EvmMessageCriterion _ => true
  | _ => false
  end.

Definition SignEvmTypedDataRule_criterion (c : Criterion) : bool :=
  match c with
  | SignEvmTypedDataFieldCriterion _ _
  | SignEvmTypedDataVerifyingContractCriterion _ _ => true
  | _ => false
  end.

Definition SignSolanaTransactionRule_criterion (c : Criterion) : bool :=
  match c with
  | SolanaAddressCriterion _ _ => true
  | _ => false
  end.

(** A rule class with a [criteria] field, called with the keywords [action]
    and, when given, [criteria]. *)
Definition rule_with_criteria_init (op : str) (allowed : Criterion → bool)
  (action : str) (criteria : option (list Criterion)) : result Rule :=
  a ← literal "action" Action action;
  match criteria with
  | None => Raise (ValidationError "criteria" "missing")
  | Some cs =>
      if forallb allowed cs then Ok (mkRule a op (Some cs))
      else Raise (ValidationError "criteria" "model_type")
  end.

Definition SendEvmTransactionRule_init :=
  rule_with_criteria_init "sendEvmTransaction" SendEvmTransactionRule_criterion.
Definition SignEvmTransactionRule_init :=
  rule_with_criteria_init "signEvmTransaction" SignEvmTransactionRule_criterion.
Definition SignEvmMessageRule_init :=
  rule_with_criteria_init "signEvmMessage" SignEvmMessageRule_criterion.
Definition SignEvmTypedDataRule_init :=
  rule_with_criteria_init "signEvmTypedData" SignEvmTypedDataRule_criterion.
Definition SignSolanaTransactionRule_init :=
  rule_with_criteria_init "signSolTransaction" SignSolanaTransactionRule_criterion.

(** [SignEvmHashRule] has no [criteria] field: a [criteria] keyword is an
    extra one, which the model ignores. *)
Definition SignEvmHashRule_init (action : str)
  (criteria : option (list Criterion)) : result Rule :=
  a ← literal "action" Action action;
  mret (mkRule a "signEvmHash" None).

(** *** Valid objects: what the annotations and validators admit *)

Definition addresses_valid (v : list str) : bool :=
  bool_decide (length v ≤ 300) && forallb Py.match_evm_address v.

Definition ParamCondition_valid (p : ParamCondition) : bool :=
  match p with
  | EvmDataParameterCondition _ op _ =>
      bool_decide (op ∈ [">"; ">="; "<"; "<="; "=="])
  | EvmDataParameterConditionList _ op _ =>
      bool_decide (op ∈ ["in"; "not in"])
  end.

Definition EvmDataCondition_valid (c : EvmDataCondition) : bool :=
  match params c with
  | None => true
  | Some ps => forallb ParamCondition_valid ps
  end.

Definition TypedCondition_valid (c : TypedCondition) : bool :=
  match c with
  | EvmTypedAddressCondition addrs op _ =>
      addresses_valid addrs && bool_decide (op ∈ ["in"; "not in"])
  | EvmTypedNumericalCondition v op _ =>
      Py.isdigit v && bool_decide (op ∈ [">"; "<"; ">="; "<="; "=="])
  | EvmTypedStringCondition _ _ => true
  end.

Definition Criterion_valid (c : Criterion) : bool :=
  match c with
  | EthValueCriterion v op =>
      Py.isdigit v && bool_decide (op ∈ [">"; "<"; ">="; "<="; "=="; "!="])
  | EvmAddressCriterion addrs op =>
      addresses_valid addrs && bool_decide (op ∈ ["in"; "not in"])
  | EvmNetworkCriterion ns op =>
      forallb (λ n, bool_decide (n ∈ ["base-sepolia"; "base"])) ns
      && bool_decide (op ∈ ["in"; "not in"])
  | EvmDataCriterion _ conds => forallb EvmDataCondition_valid conds
  | EvmMessageCriterion _ => true
  | SignEvmTypedDataFieldCriterion _ conds => forallb TypedCondition_valid conds
  | SignEvmTypedDataVerifyingContractCriterion addrs op =>
      addresses_valid addrs && bool_decide (op ∈ ["in"; "not in"])
  | SolanaAddressCriterion addrs op =>
      forallb Py.match_sol_address addrs && bool_decide (op ∈ ["in"; "not in"])
  end.

(** The rule classes with a [criteria] field: operation literal and element
    types. *)
Definition rule_classes : list (str * (Criterion → bool)) :=
  [ ("sendEvmTransaction", SendEvmTransactionRule_criterion);
    ("signEvmTransaction", SignEvmTransactionRule_criterion);
    ("signEvmMessage", SignEvmMessageRule_criterion);
    ("signEvmTypedData", SignEvmTypedDataRule_criterion);
    ("signSolTransaction", SignSolanaTransactionRule_criterion) ].

(** [r] is a valid instance of one of the six rule classes. *)
Definition Rule_valid (r : Rule) : bool :=
  bool_decide (action r ∈ Action)
  && match criteria r with
     | None => bool_decide (operation r = "signEvmHash")
     | Some cs =>
         existsb (λ k, bool_decide (operation r = k.1) && forallb k.2 cs)
                 rule_classes
         && forallb Criterion_valid cs
     end.

End Types.

(** ** The wire models: [cdp.openapi_client.models] *)

Module OpenApi.

(** Modelled from the spec: the code-generated classes of
    [cdp.openapi_client.models] are not among the sources.  The specification
    treats them as a fixed, given wire schema with the same fields as the
    user-facing schema under the service's casing, wrapped in
    discriminated-union envelopes.  Each class is modelled by the keywords
    the request transformer builds it from, which are the attributes the
    response transformer reads back; an envelope is a value with one
    attribute, [actual_instance].  The checks that the generated classes run
    (that a required field is given; on field values: patterns,
    enumerations, the members of a union) are not modelled: where the
    request transformer of the code returns, the one below returns the same
    wire rules, and it returns as well on rules that a generated class
    refuses. *)
Class ActualInstance (W A : Type) := actual_instance : W → A.
Global Hint Mode ActualInstance ! - : typeclass_instances.

(** [EvmDataCriterionAbi]: the envelope of [KnownAbiType | AbiInner]. *)
Inductive EvmDataCriterionAbi :=
| mkEvmDataCriterionAbi (actual_instance : Types.Abi).

(** [EvmDataParameterCondition] and [EvmDataParameterConditionList] *)
Inductive ParamCondition :=
| EvmDataParameterCondition (name operator value : str)
| EvmDataParameterConditionList (name operator : str) (values : list str).

Inductive EvmDataConditionParamsInner :=
| mkEvmDataConditionParamsInner (actual_instance : ParamCondition).

Record EvmDataCondition := mkEvmDataCondition {
  function : str;
  params : option (list EvmDataConditionParamsInner)
}.

(** [EvmTypedAddressCondition], [EvmTypedNumericalCondition] and
    [EvmTypedStringCondition]: these carry no tag. *)
Inductive TypedCondition :=
| EvmTypedAddressCondition (addresses : list str) (operator path : str)
| EvmTypedNumericalCondition (value operator path : str)
| EvmTypedStringCondition (match_ path : str).

Inductive SignEvmTypedDataFieldCriterionConditionsInner :=
| mkSignEvmTypedDataFieldCriterionConditionsInner
    (actual_instance : TypedCondition).

(** One field definition of an EIP-712 type: an object with the attributes
    [name] and [type], both optional: each is a string or [None]. *)
Record TypeField := mkTypeField {
  field_name : option str;
  field_type : option str
}.

Record SignEvmTypedDataFieldCriterionTypes :=
  mkSignEvmTypedDataFieldCriterionTypes {
  types : gmap str (list TypeField);
  primary_type : str
}.

(** The criterion classes; on the wire the tag [type] is a field. *)
Inductive Criterion :=
| EthValueCriterion (eth_value operator type : str)
| EvmAddressCriterion (addresses : list str) (operator type : str)
| EvmNetworkCriterion (networks : list str) (operator type : str)
| EvmDataCriterion (type : str) (abi : EvmDataCriterionAbi)
    (conditions : list EvmDataCondition)
| EvmMessageCriterion (match_ type : str)
| SignEvmTypedDataFieldCriterion (type : str)
    (types : SignEvmTypedDataFieldCriterionTypes)
    (conditions : list SignEvmTypedDataFieldCriterionConditionsInner)
| SignEvmTypedDataVerifyingContractCriterion (type : str)
    (addresses : list str) (operator : str)
| SolAddressCriterion (addresses : list str) (operator type : str).

Definition type (c : Criterion) : str :=
  match c with
  | EthValueCriterion _ _ t | EvmAddressCriterion _ _ t
  | EvmNetworkCriterion _ _ t | EvmDataCriterion t _ _
  | EvmMessageCriterion _ t | SignEvmTypedDataFieldCriterion t _ _
  | SignEvmTypedDataVerifyingContractCriterion t _ _
  | SolAddressCriterion _ _ t => t
  end.

(** The envelopes of a rule's criteria, one per operation. *)
Inductive CriteriaInner :=
| SendEvmTransactionCriteriaInner (actual_instance : Criterion)
| SignEvmTransactionCriteriaInner (actual_instance : Criterion)
| SignEvmMessageCriteriaInner (actual_instance : Criterion)
| SignEvmTypedDataCriteriaInner (actual_instance : Criterion)
| SignSolTransactionCriteriaInner (actual_instance : Criterion).

(** The rule classes. *)
Inductive RuleClass :=
| SendEvmTransactionRule
| SignEvmTransactionRule
| SignEvmHashRule
| SignEvmMessageRule
| SignEvmTypedDataRule
| SignSolTransactionRule.

(** An object of a rule class: [criteria] is [None] when the object lacks
    the attribute, as one built without that keyword does. *)
Record RuleInstance := mkRuleInstance {
  rule_cls : RuleClass;
  action : str;
  operation : str;
  criteria : option (list CriteriaInner)
}.

(** [Rule]: the envelope of a rule object. *)
Inductive Rule :=
| mkRule (actual_instance : RuleInstance).

Global Instance abi_actual_instance
  : ActualInstance EvmDataCriterionAbi Types.Abi :=
  λ w, match w with mkEvmDataCriterionAbi a => a end.
Global Instance params_inner_actual_instance
  : ActualInstance EvmDataConditionParamsInner ParamCondition :=
  λ w, match w with mkEvmDataConditionParamsInner a => a end.
Global Instance conditions_inner_actual_instance
  : ActualInstance SignEvmTypedDataFieldCriterionConditionsInner TypedCondition :=
  λ w, match w with mkSignEvmTypedDataFieldCriterionConditionsInner a => a end.
Global Instance criteria_inner_actual_instance
  : ActualInstance CriteriaInner Criterion :=
  λ w, match w with
       | SendEvmTransactionCriteriaInner a | SignEvmTransactionCriteriaInner a
       | SignEvmMessageCriteriaInner a | SignEvmTypedDataCriteriaInner a
       | SignSolTransactionCriteriaInner a => a
       end.
Global Instance rule_actual_instance : ActualInstance Rule RuleInstance :=
  λ w, match w with mkRule a => a end.

(** A [dict] given for a field definition is read by its keys [name] and
    [type]: other keys are dropped, and a missing one leaves the attribute
    [None]. *)
Definition TypeField_of_dict (d : gmap str str) : TypeField :=
  mkTypeField (d !! "name") (d !! "type").

(** The call [rule_cls(action=..., operation=..., criteria=...)] of a rule
    class.  A signEvmHash rule carries no criteria: the class
    [SignEvmHashRule] has no field [criteria], and a keyword that names no
    field is dropped. *)
Definition rule_cls_init (rule_cls : RuleClass) (action operation : str)
  (criteria : option (list CriteriaInner)) : RuleInstance :=
  mkRuleInstance rule_cls action operation
    match rule_cls with
    | SignEvmHashRule => None
    | _ => criteria
    end.

End OpenApi.

(** ** [cdp/policies/request_transformer.py] *)

Module RequestTransformer.
Import OpenApi.

(** The parameter of an [evmData] condition: a list condition when the object
    has the attribute [values], a single-value condition otherwise. *)
Definition param_to_openapi (param : Types.ParamCondition)
  : EvmDataConditionParamsInner :=
  mkEvmDataConditionParamsInner
    match param with
    | Types.EvmDataParameterConditionList name operator values =>
        EvmDataParameterConditionList name operator values
    | Types.EvmDataParameterCondition name operator value =>
        EvmDataParameterCondition name operator value
    end.

(** [params=[...] if cond.params else None] *)
Definition condition_to_openapi (cond : Types.EvmDataCondition)
  : EvmDataCondition :=
  mkEvmDataCondition (Types.function cond)
    (if Py.truthy (Types.params cond)
     then Some (map param_to_openapi (default [] (Types.params cond)))
     else None).

(** [KnownAbiType(c.abi) if isinstance(c.abi, str) else c.abi]: the enum
    called on one of its members returns that member.  Which values the
    envelope [EvmDataCriterionAbi] accepts is not modelled. *)
Definition abi_to_openapi (abi : Types.Abi) : EvmDataCriterionAbi :=
  mkEvmDataCriterionAbi
    match abi with
    | Types.KnownAbiType v => Types.KnownAbiType v
    | Types.AbiInner a => Types.AbiInner a
    end.

(** A typed-data condition: by [hasattr(cond, "addresses")], then
    [hasattr(cond, "value")]. *)
Definition typed_condition_to_openapi (cond : Types.TypedCondition)
  : SignEvmTypedDataFieldCriterionConditionsInner :=
  mkSignEvmTypedDataFieldCriterionConditionsInner
    match cond with
    | Types.EvmTypedAddressCondition addresses operator path =>
        EvmTypedAddressCondition addresses operator path
    | Types.EvmTypedNumericalCondition value operator path =>
        EvmTypedNumericalCondition value operator path
    | Types.EvmTypedStringCondition match_ path =>
        EvmTypedStringCondition match_ path
    end.

(** The constructors of the table.  A constructor reads attributes of its
    argument; on an object without them the read fails.  The constructors of
    [ethValue], [evmAddress] and [evmData] are written twice in the source,
    once per envelope. *)
Abbreviation builder := (Types.Criterion → result CriteriaInner).

(** The attributes [addresses] and [operator], which three of the criterion
    classes have. *)
Definition addresses_operator (c : Types.Criterion) : result (list str * str) :=
  match c with
  | Types.EvmAddressCriterion addresses operator
  | Types.SignEvmTypedDataVerifyingContractCriterion addresses operator
  | Types.SolanaAddressCriterion addresses operator => Ok (addresses, operator)
  | _ => Raise (AttributeError "addresses")
  end.

(** [EthValueCriterion(eth_value=c.ethValue, operator=c.operator,
    type="ethValue")] in its envelope; what the wire class checks of the
    value and the operator is not modelled. *)
Definition ethValue_builder (envelope : Criterion → CriteriaInner) : builder :=
  λ c, match c with
       | Types.EthValueCriterion ethValue operator =>
           Ok (envelope (EthValueCriterion ethValue operator "ethValue"))
       | _ => Raise (AttributeError "ethValue")
       end.

Definition evmAddress_builder (envelope : Criterion → CriteriaInner) : builder :=
  λ c, ao ← addresses_operator c;
       mret (envelope (EvmAddressCriterion ao.1 ao.2 "evmAddress")).

Definition evmNetwork_builder : builder :=
  λ c, match c with
       | Types.EvmNetworkCriterion networks operator =>
           Ok (SendEvmTransactionCriteriaInner
                 (EvmNetworkCriterion networks operator "evmNetwork"))
       | _ => Raise (AttributeError "networks")
       end.

Definition evmData_builder (envelope : Criterion → CriteriaInner) : builder :=
  λ c, match c with
       | Types.EvmDataCriterion abi conditions =>
           Ok (envelope (EvmDataCriterion "evmData" (abi_to_openapi abi)
                           (map condition_to_openapi conditions)))
       | _ => Raise (AttributeError "abi")
       end.

Definition evmMessage_builder : builder :=
  λ c, match c with
       | Types.EvmMessageCriterion match_ =>
           Ok (SignEvmMessageCriteriaInner (EvmMessageCriterion match_ "evmMessage"))
       | _ => Raise (AttributeError "match")
       end.

Definition evmTypedDataField_builder : builder :=
  λ c, match c with
       | Types.SignEvmTypedDataFieldCriterion types conditions =>
           Ok (SignEvmTypedDataCriteriaInner
                 (SignEvmTypedDataFieldCriterion "evmTypedDataField"
                    (mkSignEvmTypedDataFieldCriterionTypes
                       (map TypeField_of_dict <$> Types.types types)
                       (Types.primaryType types))
                    (map typed_condition_to_openapi conditions)))
       | _ => Raise (AttributeError "types")
       end.

Definition evmTypedDataVerifyingContract_builder : builder :=
  λ c, ao ← addresses_operator c;
       mret (SignEvmTypedDataCriteriaInner
               (SignEvmTypedDataVerifyingContractCriterion
                  "evmTypedDataVerifyingContract" ao.1 ao.2)).

Definition solAddress_builder : builder :=
  λ c, ao ← addresses_operator c;
       mret (SignSolTransactionCriteriaInner
               (SolAddressCriterion ao.1 ao.2 "solAddress")).

(** OpenAPI criterion constructor mapping per operation *)
Definition openapi_criterion_mapping : gmap str (gmap str builder) :=
  {[ "sendEvmTransaction" :=
       {[ "ethValue" := ethValue_builder SendEvmTransactionCriteriaInner;
          "evmAddress" := evmAddress_builder SendEvmTransactionCriteriaInner;
          "evmNetwork" := evmNetwork_builder;
          "evmData" := evmData_builder SendEvmTransactionCriteriaInner ]};
     "signEvmTransaction" :=
       {[ "ethValue" := ethValue_builder SignEvmTransactionCriteriaInner;
          "evmAddress" := evmAddress_builder SignEvmTransactionCriteriaInner;
          "evmData" := evmData_builder SignEvmTransactionCriteriaInner ]};
     "signEvmHash" := ∅;
     "signEvmMessage" := {[ "evmMessage" := evmMessage_builder ]};
     "signEvmTypedData" :=
       {[ "evmTypedDataField" := evmTypedDataField_builder;
          "evmTypedDataVerifyingContract" :=
            evmTypedDataVerifyingContract_builder ]};
     "signSolTransaction" := {[ "solAddress" := solAddress_builder ]} ]}.

(** OpenAPI rule constructor mapping *)
Definition openapi_rule_mapping : gmap str RuleClass :=
  {[ "sendEvmTransaction" := SendEvmTransactionRule;
     "signEvmTransaction" := SignEvmTransactionRule;
     "signEvmHash" := SignEvmHashRule;
     "signEvmMessage" := SignEvmMessageRule;
     "signEvmTypedData" := SignEvmTypedDataRule;
     "signSolTransaction" := SignSolTransactionRule ]}.

Definition unknown_operation (operation : str) : exn :=
  ValueError ("Unknown operation " +++ operation).

Definition unknown_criterion_type (type operation : str) : exn :=
  ValueError ("Unknown criterion type " +++ type +++ " for operation "
              +++ operation).

(** [for criterion in rule.criteria: ...], with [criteria] the list built so
    far. *)
Fixpoint criteria_loop (criteria_builders : gmap str builder) (operation : str)
  (todo : list Types.Criterion) (criteria : list CriteriaInner)
  : result (list CriteriaInner) :=
  match todo with
  | [] => Ok criteria
  | criterion :: todo' =>
      match criteria_builders !! Types.type criterion with
      | None =>
          Raise (unknown_criterion_type (Types.type criterion) operation)
      | Some build =>
          built ← build criterion;
          criteria_loop criteria_builders operation todo' (criteria ++ [built])
      end
  end.

(** [for rule in request_rules: ...], with [rules] the list built so far. *)
Fixpoint rules_loop (todo : list Types.Rule) (rules : list Rule)
  : result (list Rule) :=
  match todo with
  | [] => Ok rules
  | rule :: todo' =>
      match openapi_criterion_mapping !! Types.operation rule with
      | None => Raise (unknown_operation (Types.operation rule))
      | Some criteria_builders =>
          match openapi_rule_mapping !! Types.operation rule with
          | None => Raise (KeyError (Types.operation rule))
          | Some rule_cls =>
              match Types.criteria rule with
              | None =>
                  rules_loop todo'
                    (rules ++ [mkRule (rule_cls_init rule_cls
                                 (Types.action rule) (Types.operation rule)
                                 None)])
              | Some rule_criteria =>
                  criteria ← criteria_loop criteria_builders
                               (Types.operation rule) rule_criteria [];
                  rules_loop todo'
                    (rules ++ [mkRule (rule_cls_init rule_cls
                                 (Types.action rule) (Types.operation rule)
                                 (Some criteria))])
              end
          end
      end
  end.

Definition map_request_rules_to_openapi_format (request_rules : list Types.Rule)
  : result (list Rule) :=
  rules_loop request_rules [].

End RequestTransformer.

(** ** [cdp/policies/response_transformer.py] *)

Module ResponseTransformer.
Import OpenApi.

(** By [hasattr(param.actual_instance, "values")]. *)
Definition param_to_response (param : EvmDataConditionParamsInner)
  : result Types.ParamCondition :=
  match actual_instance param with
  | EvmDataParameterConditionList name operator values =>
      Types.EvmDataParameterConditionList_init name operator values
  | EvmDataParameterCondition name operator value =>
      Types.EvmDataParameterCondition_init name operator value
  end.

(** [params=([...] if cond.params else None)] *)
Definition condition_to_response (cond : EvmDataCondition)
  : result Types.EvmDataCondition :=
  ps ← (if Py.truthy (params cond)
        then Some <$> mapM param_to_response (default [] (params cond))
        else Ok None);
  mret (Types.mkEvmDataCondition (function cond) ps).

(** By [hasattr(cond.actual_instance, "addresses")], then
    [hasattr(cond.actual_instance, "value")]. *)
Definition typed_condition_to_response
  (cond : SignEvmTypedDataFieldCriterionConditionsInner)
  : result Types.TypedCondition :=
  match actual_instance cond with
  | EvmTypedAddressCondition addresses operator path =>
      Types.EvmTypedAddressCondition_init addresses operator path
  | EvmTypedNumericalCondition value operator path =>
      Types.EvmTypedNumericalCondition_init value operator path
  | EvmTypedStringCondition match_ path =>
      Ok (Types.EvmTypedStringCondition match_ path)
  end.

(** [{"name": item.name, "type": item.type}] *)
Definition dict_of_TypeField (item : TypeField) : gmap str (option str) :=
  {[ "name" := field_name item; "type" := field_type item ]}.

(** The attributes [addresses] and [operator], which three of the wire
    classes have. *)
Definition addresses_operator (c : Criterion) : result (list str * str) :=
  match c with
  | EvmAddressCriterion addresses operator _
  | SignEvmTypedDataVerifyingContractCriterion _ addresses operator
  | SolAddressCriterion addresses operator _ => Ok (addresses, operator)
  | _ => Raise (AttributeError "addresses")
  end.

Abbreviation constructor := (Criterion → result Types.Criterion).

Definition ethValue_constructor : constructor :=
  λ c, match c with
       | EthValueCriterion eth_value operator _ =>
           Types.EthValueCriterion_init eth_value operator
       | _ => Raise (AttributeError "eth_value")
       end.

Definition evmAddress_constructor : constructor :=
  λ c, ao ← addresses_operator c; Types.EvmAddressCriterion_init ao.1 ao.2.

Definition evmNetwork_constructor : constructor :=
  λ c, match c with
       | EvmNetworkCriterion networks operator _ =>
           Types.EvmNetworkCriterion_init networks operator
       | _ => Raise (AttributeError "networks")
       end.

Definition evmData_constructor : constructor :=
  λ c, match c with
       | EvmDataCriterion _ abi conditions =>
           conds ← mapM condition_to_response conditions;
           mret (Types.EvmDataCriterion (actual_instance abi) conds)
       | _ => Raise (AttributeError "abi")
       end.

Definition evmMessage_constructor : constructor :=
  λ c, match c with
       | EvmMessageCriterion match_ _ => Ok (Types.EvmMessageCriterion match_)
       | _ => Raise (AttributeError "match")
       end.

Definition evmTypedDataField_constructor : constructor :=
  λ c, match c with
       | SignEvmTypedDataFieldCriterion _ tys conditions =>
           types_model ←
             Types.SignEvmTypedDataTypes_init
               (map dict_of_TypeField <$> types tys) (primary_type tys);
           conds ← mapM typed_condition_to_response conditions;
           mret (Types.SignEvmTypedDataFieldCriterion types_model conds)
       | _ => Raise (AttributeError "types")
       end.

Definition evmTypedDataVerifyingContract_constructor : constructor :=
  λ c, ao ← addresses_operator c;
       Types.SignEvmTypedDataVerifyingContractCriterion_init ao.1 ao.2.

Definition solAddress_constructor : constructor :=
  λ c, ao ← addresses_operator c; Types.SolanaAddressCriterion_init ao.1 ao.2.

(** Response criterion mapping per operation *)
Definition response_criterion_mapping : gmap str (gmap str constructor) :=
  {[ "sendEvmTransaction" :=
       {[ "ethValue" := ethValue_constructor;
          "evmAddress" := evmAddress_constructor;
          "evmNetwork" := evmNetwork_constructor;
          "evmData" := evmData_constructor ]};
     "signEvmTransaction" :=
       {[ "ethValue" := ethValue_constructor;
          "evmAddress" := evmAddress_constructor;
          "evmData" := evmData_constructor ]};
     "signEvmHash" := ∅;
     "signEvmMessage" := {[ "evmMessage" := evmMessage_constructor ]};
     "signEvmTypedData" :=
       {[ "evmTypedDataField" := evmTypedDataField_constructor;
          "evmTypedDataVerifyingContract" :=
            evmTypedDataVerifyingContract_constructor ]};
     "signSolTransaction" := {[ "solAddress" := solAddress_constructor ]} ]}.

(** Response rule class mapping *)
Definition response_rule_mapping
  : gmap str (str → option (list Types.Criterion) → result Types.Rule) :=
  {[ "sendEvmTransaction" := Types.SendEvmTransactionRule_init;
     "signEvmTransaction" := Types.SignEvmTransactionRule_init;
     "signEvmHash" := Types.SignEvmHashRule_init;
     "signEvmMessage" := Types.SignEvmMessageRule_init;
     "signEvmTypedData" := Types.SignEvmTypedDataRule_init;
     "signSolTransaction" := Types.SignSolanaTransactionRule_init ]}.

Definition unknown_operation (operation : str) : exn :=
  ValueError ("Unknown operation " +++ operation).

Definition unknown_criterion_type (type : str) : exn :=
  ValueError ("Unknown criterion type " +++ type).

(** [for criterion_wrapper in instance.criteria: ...] *)
Fixpoint criteria_loop (criteria_constructors : gmap str constructor)
  (todo : list CriteriaInner) (criteria : list Types.Criterion)
  : result (list Types.Criterion) :=
  match todo with
  | [] => Ok criteria
  | criterion_wrapper :: todo' =>
      let criterion := actual_instance criterion_wrapper in
      match criteria_constructors !! type criterion with
      | None => Raise (unknown_criterion_type (type criterion))
      | Some construct =>
          built ← construct criterion;
          criteria_loop criteria_constructors todo' (criteria ++ [built])
      end
  end.

(** [for rule in openapi_rules: ...] *)
Fixpoint rules_loop (todo : list Rule) (response_rules : list Types.Rule)
  : result (list Types.Rule) :=
  match todo with
  | [] => Ok response_rules
  | rule :: todo' =>
      let instance := actual_instance rule in
      let operation := operation instance in
      match response_criterion_mapping !! operation with
      | None => Raise (unknown_operation operation)
      | Some criteria_constructors =>
          match response_rule_mapping !! operation with
          | None => Raise (KeyError operation)
          | Some rule_class =>
              match OpenApi.criteria instance with
              | None =>
                  r ← rule_class (action instance) None;
                  rules_loop todo' (response_rules ++ [r])
              | Some wrappers =>
                  criteria ← criteria_loop criteria_constructors wrappers [];
                  r ← rule_class (action instance) (Some criteria);
                  rules_loop todo' (response_rules ++ [r])
              end
          end
      end
  end.

Definition map_openapi_rules_to_response_format (openapi_rules : list Rule)
  : result (list Types.Rule) :=
  rules_loop openapi_rules [].

End ResponseTransformer.

(** ** Definitions used by the statements *)

(** [to_wire] and [from_wire] of the specification. *)
Abbreviation to_wire := RequestTransformer.map_request_rules_to_openapi_format.
Abbreviation from_wire := ResponseTransformer.map_openapi_rules_to_response_format.

(** [from_wire(to_wire(rules))] *)
Definition round_trip (rules : list Types.Rule) : result (list Types.Rule) :=
  wire ← to_wire rules; from_wire wire.

(** The six supported operations. *)
Definition supported_operations : list str :=
  [ "sendEvmTransaction"; "signEvmTransaction"; "signEvmHash";
    "signEvmMessage"; "signEvmTypedData"; "signSolTransaction" ].

(** The legal (operation, allowed criterion types) table, as the
    specification words it. *)
Definition legality_table (operation : str) : list str :=
  if bool_decide (operation = "sendEvmTransaction") then
    ["ethValue"; "evmAddress"; "evmNetwork"; "evmData"]
  else if bool_decide (operation = "signEvmTransaction") then
    ["ethValue"; "evmAddress"; "evmData"]
  else if bool_decide (operation = "signEvmMessage") then ["evmMessage"]
  else if bool_decide (operation = "signEvmTypedData") then
    ["evmTypedDataField"; "evmTypedDataVerifyingContract"]
  else if bool_decide (operation = "signSolTransaction") then ["solAddress"]
  else [].

(** The error kinds of the specification: both are [ValueError]s, told apart
    by their message. *)
Definition UnknownOperation (e : exn) : Prop :=
  ∃ operation, e = ValueError ("Unknown operation " +++ operation).

Definition UnknownCriterionType (e : exn) : Prop :=
  ∃ rest, e = ValueError ("Unknown criterion type " +++ rest).

Definition is_ValidationError (e : exn) : Prop :=
  ∃ field reason, e = ValidationError field reason.

(** One iteration of each loop of the request transformer. *)
Definition request_criterion (criteria_builders : gmap str RequestTransformer.builder)
  (operation : str) (criterion : Types.Criterion) : result OpenApi.CriteriaInner :=
  match criteria_builders !! Types.type criterion with
  | None =>
      Raise (RequestTransformer.unknown_criterion_type
               (Types.type criterion) operation)
  | Some build => build criterion
  end.

Definition request_rule (rule : Types.Rule) : result OpenApi.Rule :=
  match RequestTransformer.openapi_criterion_mapping !! Types.operation rule with
  | None => Raise (RequestTransformer.unknown_operation (Types.operation rule))
  | Some criteria_builders =>
      match RequestTransformer.openapi_rule_mapping !! Types.operation rule with
      | None => Raise (KeyError (Types.operation rule))
      | Some rule_cls =>
          match Types.criteria rule with
          | None =>
              Ok (OpenApi.mkRule (OpenApi.rule_cls_init rule_cls
                    (Types.action rule) (Types.operation rule) None))
          | Some rule_criteria =>
              criteria ← mapM (request_criterion criteria_builders
                                 (Types.operation rule)) rule_criteria;
              mret (OpenApi.mkRule (OpenApi.rule_cls_init rule_cls
                      (Types.action rule) (Types.operation rule)
                      (Some criteria)))
          end
      end
  end.

(** One iteration of each loop of the response transformer. *)
Definition response_criterion
  (criteria_constructors : gmap str ResponseTransformer.constructor)
  (criterion_wrapper : OpenApi.CriteriaInner) : result Types.Criterion :=
  let criterion := OpenApi.actual_instance criterion_wrapper in
  match criteria_constructors !! OpenApi.type criterion with
  | None =>
      Raise (ResponseTransformer.unknown_criterion_type (OpenApi.type criterion))
  | Some construct => construct criterion
  end.

Definition response_rule (rule : OpenApi.Rule) : result Types.Rule :=
  let instance := OpenApi.actual_instance rule in
  let operation := OpenApi.operation instance in
  match ResponseTransformer.response_criterion_mapping !! operation with
  | None => Raise (ResponseTransformer.unknown_operation operation)
  | Some criteria_constructors =>
      match ResponseTransformer.response_rule_mapping !! operation with
      | None => Raise (KeyError operation)
      | Some rule_class =>
          match OpenApi.criteria instance with
          | None => rule_class (OpenApi.action instance) None
          | Some wrappers =>
              criteria ← mapM (response_criterion criteria_constructors) wrappers;
              rule_class (OpenApi.action instance) (Some criteria)
          end
      end
  end.

(** The entries of the two criterion tables: operation, criterion type and
    constructor. *)
Definition request_entries : list (str * str * RequestTransformer.builder) :=
  '(operation, builders) ← map_to_list RequestTransformer.openapi_criterion_mapping;
  '(type, build) ← map_to_list builders;
  [(operation, type, build)].

Definition response_entries : list (str * str * ResponseTransformer.constructor) :=
  '(operation, constructors) ← map_to_list ResponseTransformer.response_criterion_mapping;
  '(type, construct) ← map_to_list constructors;
  [(operation, type, construct)].

Definition is_ValueError (e : exn) : bool :=
  match e with
  | ValueError _ => true
  | _ => false
  end.

(** Rules that the wire format represents without loss: no [evmData]
    condition has an empty [params] list (the wire format has [None] for
    it), and every field definition of an EIP-712 type is a [dict] with
    exactly the keys [name] and [type]. *)
Definition field_dict_exact (d : gmap str str) : bool :=
  bool_decide (dom d = ({[ "name"; "type" ]} : gset str)).

Definition Criterion_lossless (c : Types.Criterion) : bool :=
  match c with
  | Types.EvmDataCriterion _ conditions =>
      forallb (λ cond, bool_decide (Types.params cond ≠ Some [])) conditions
  | Types.SignEvmTypedDataFieldCriterion tys _ =>
      forallb (λ kv, forallb field_dict_exact kv.2)
              (map_to_list (Types.types tys))
  | _ => true
  end.

Definition Rule_lossless (r : Types.Rule) : bool :=
  match Types.criteria r with
  | None => true
  | Some cs => forallb Criterion_lossless cs
  end.

(** A string of ASCII decimal digits. *)
Definition ascii_digits (s : str) : bool :=
  forallb Py.is_ascii_digit (codepoints s).

(** *** Example values *)

Definition example_address : str := "0x52908400098527886E0F7030069857D2E4169EE7".

(** [n] copies of [x]. *)
Definition example_addresses (n : nat) : list str := replicate n example_address.

(** A rule with an [evmData] condition whose [params] is the empty list. *)
Definition empty_params_rule : Types.Rule :=
  Types.mkRule "accept" "sendEvmTransaction"
    (Some [Types.EvmDataCriterion (Types.KnownAbiType "erc20")
             [Types.mkEvmDataCondition "transfer" (Some [])]]).

(** What the round trip makes of it. *)
Definition empty_params_rule_back : Types.Rule :=
  Types.mkRule "accept" "sendEvmTransaction"
    (Some [Types.EvmDataCriterion (Types.KnownAbiType "erc20")
             [Types.mkEvmDataCondition "transfer" None]]).

(** A rule with a field definition that has a third key. *)
Definition extra_key_rule : Types.Rule :=
  Types.mkRule "accept" "signEvmTypedData"
    (Some [Types.SignEvmTypedDataFieldCriterion
             (Types.mkSignEvmTypedDataTypes
                {[ "Mail" := [ ({[ "name" := "to"; "type" := "address";
                                   "comment" := "recipient" ]} : gmap str str) ] ]}
                "Mail")
             []]).

(** What the round trip makes of it. *)
Definition extra_key_rule_back : Types.Rule :=
  Types.mkRule "accept" "signEvmTypedData"
    (Some [Types.SignEvmTypedDataFieldCriterion
             (Types.mkSignEvmTypedDataTypes
                {[ "Mail" := [ ({[ "name" := "to"; "type" := "address" ]}
                                : gmap str str) ] ]}
                "Mail")
             []]).

(** The scenario of the specification: one [evmTypedDataField] criterion with
    an address condition followed by a numerical condition. *)
Definition typed_data_conditions (address : str) : list Types.TypedCondition :=
  [ Types.EvmTypedAddressCondition [address] "in" "to";
    Types.EvmTypedNumericalCondition "1000" "<" "amount" ].

Definition typed_data_rule (action address : str)
  (tys : Types.SignEvmTypedDataTypes) : Types.Rule :=
  Types.mkRule action "signEvmTypedData"
    (Some [Types.SignEvmTypedDataFieldCriterion tys
             (typed_data_conditions address)]).

Definition typed_data_wire (action address : str)
  (tys : OpenApi.SignEvmTypedDataFieldCriterionTypes) : OpenApi.Rule :=
  OpenApi.mkRule
    (OpenApi.mkRuleInstance OpenApi.SignEvmTypedDataRule action
       "signEvmTypedData"
       (Some [OpenApi.SignEvmTypedDataCriteriaInner
                (OpenApi.SignEvmTypedDataFieldCriterion "evmTypedDataField" tys
                   [ OpenApi.mkSignEvmTypedDataFieldCriterionConditionsInner
                       (OpenApi.EvmTypedAddressCondition [address] "in" "to");
                     OpenApi.mkSignEvmTypedDataFieldCriterionConditionsInner
                       (OpenApi.EvmTypedNumericalCondition "1000" "<"
                          "amount") ])])).

Definition example_types : Types.SignEvmTypedDataTypes :=
  Types.mkSignEvmTypedDataTypes
    {[ "Transfer" := [ ({[ "name" := "to"; "type" := "address" ]} : gmap str str);
                       {[ "name" := "amount"; "type" := "uint256" ]} ] ]}
    "Transfer".

(** ** Definitions used by the further properties *)

(** The errors of model construction and of attribute reads. *)
Definition is_model_error (e : exn) : bool :=
  match e with
  | ValidationError _ _ | AttributeError _ => true
  | _ => false
  end.

(** ** Tactics *)

(** Inversion of a lookup in a table written as a literal. *)
Ltac table_inv H :=
  repeat first
    [ apply lookup_singleton_Some in H as [<- <-]
    | apply lookup_insert_Some in H as [[<- <-]|[_ H]]
    | by rewrite lookup_empty in H ].

(** Membership in a list written as a literal. *)
Ltac list_member :=
  repeat first [apply list_elem_of_here | apply list_elem_of_further].

(** A lookup of a literal key in a table written as a literal. *)
Ltac table_lookup :=
  repeat first
    [ rewrite lookup_insert_eq
    | rewrite lookup_singleton_eq
    | rewrite lookup_insert_ne by discriminate ].

(** A lookup of a literal key in a table written as a literal, present or
    not. *)
Ltac table_eval :=
  repeat first
    [ rewrite lookup_insert_eq
    | rewrite lookup_singleton_eq
    | rewrite lookup_insert_ne by discriminate
    | rewrite lookup_singleton_ne by discriminate
    | rewrite lookup_empty ].

(** * Properties *)

(** ** The [result] monad and comprehensions *)

Section result_lemmas.
Context {A B : Type}.
Implicit Types (f : A → result B) (l : list A).

Lemma result_not_both (m : result B) : raises m → returns m → False.
Proof. intros [e ->] [a ?]; discriminate. Qed.

Lemma result_cases (m : result B) : returns m ∨ raises m.
Proof. destruct m; [left | right]; eexists; reflexivity. Qed.

Lemma mapM_result_cons f x l :
  mapM f (x :: l) = y ← f x; k ← mapM f l; mret (y :: k).
Proof. reflexivity. Qed.

Lemma mapM_result_app f l1 l2 :
  mapM f (l1 ++ l2) = r1 ← mapM f l1; r2 ← mapM f l2; mret (r1 ++ r2).
Proof.
  induction l1 as [|x l1 IH]; simpl.
  - destruct (mapM f l2); reflexivity.
  - destruct (f x) as [y|e]; simpl; [|reflexivity].
    rewrite IH. destruct (mapM f l1); simpl; [|reflexivity].
    destruct (mapM f l2); reflexivity.
Qed.

(** The comprehension raises what its first raising element raises. *)
Lemma mapM_result_first_raise f l1 x l2 r1 e :
  mapM f l1 = Ok r1 → f x = Raise e → mapM f (l1 ++ x :: l2) = Raise e.
Proof.
  intros H1 Hx. rewrite mapM_result_app, H1. simpl. rewrite Hx. reflexivity.
Qed.

Lemma mapM_result_raises f l : raises (mapM f l) ↔ Exists (λ x, raises (f x)) l.
Proof.
  induction l as [|x l IH]; simpl.
  - split; [intros [e ?]; discriminate | intros H; inversion H].
  - rewrite Exists_cons, <- IH. destruct (f x) as [y|e]; simpl.
    + destruct (mapM f l) as [k|e]; simpl.
      * split; [intros [? ?]; discriminate|].
        intros [[? ?]|[? ?]]; discriminate.
      * split; [intros _; right|intros _]; eexists; reflexivity.
    + split; [intros _; left|intros _]; eexists; reflexivity.
Qed.

(** The error of a raising comprehension is that of one of its elements. *)
Lemma mapM_result_raise_inv f l e :
  mapM f l = Raise e → ∃ x, x ∈ l ∧ f x = Raise e.
Proof.
  induction l as [|x l IH]; simpl; [discriminate|].
  destruct (f x) as [y|e'] eqn:Hx; simpl.
  - destruct (mapM f l) as [k|e'']; simpl; [discriminate|].
    intros [= ->]. destruct IH as (x' & ? & ?); [reflexivity|].
    exists x'. split; [by right | done].
  - intros [= ->]. exists x. split; [by left | done].
Qed.

Lemma mapM_result_ok f (g : A → B) l :
  Forall (λ x, f x = Ok (g x)) l → mapM f l = Ok (map g l).
Proof.
  induction 1 as [|x l Hx _ IH]; simpl; [reflexivity|].
  rewrite Hx. simpl. rewrite IH. reflexivity.
Qed.

End result_lemmas.

Lemma dict_mapM_ok {A B} (f : A → result B) (g : A → B) (d : gmap str A) :
  map_Forall (λ _ v, f v = Ok (g v)) d → dict_mapM f d = Ok (g <$> d).
Proof.
  intros Hd. unfold dict_mapM.
  rewrite (mapM_result_ok _ (prod_map id g)).
  - simpl. f_equal. rewrite <- (list_to_map_to_list d) at 2.
    rewrite list_to_map_fmap. reflexivity.
  - apply Forall_forall. intros [k v] Hkv. simpl.
    apply elem_of_map_to_list in Hkv. rewrite (Hd k v Hkv). reflexivity.
Qed.

(** ** The loops as comprehensions *)

Lemma request_criteria_loop_cons builders operation c todo criteria :
  RequestTransformer.criteria_loop builders operation (c :: todo) criteria =
  built ← request_criterion builders operation c;
  RequestTransformer.criteria_loop builders operation todo (criteria ++ [built]).
Proof.
  cbn [RequestTransformer.criteria_loop]. unfold request_criterion.
  by destruct (builders !! Types.type c).
Qed.

Lemma request_criteria_loop builders operation todo criteria :
  RequestTransformer.criteria_loop builders operation todo criteria =
  built ← mapM (request_criterion builders operation) todo;
  mret (criteria ++ built).
Proof.
  revert criteria. induction todo as [|c todo IH]; intros criteria.
  - simpl. by rewrite app_nil_r.
  - rewrite request_criteria_loop_cons, mapM_result_cons.
    destruct (request_criterion builders operation c) as [w|e];
      simpl; [|reflexivity].
    rewrite IH. destruct (mapM _ todo); simpl; [|reflexivity].
    by rewrite <- app_assoc.
Qed.

Lemma request_rules_loop_cons r todo rules :
  RequestTransformer.rules_loop (r :: todo) rules =
  built ← request_rule r; RequestTransformer.rules_loop todo (rules ++ [built]).
Proof.
  cbn [RequestTransformer.rules_loop]. unfold request_rule.
  destruct (RequestTransformer.openapi_criterion_mapping !! _)
    as [builders|]; [|reflexivity].
  destruct (RequestTransformer.openapi_rule_mapping !! _)
    as [cls|]; [|reflexivity].
  destruct (Types.criteria r) as [cs|]; [|reflexivity].
  rewrite request_criteria_loop. simpl.
  by destruct (mapM _ cs).
Qed.

Lemma request_rules_loop todo rules :
  RequestTransformer.rules_loop todo rules =
  built ← mapM request_rule todo; mret (rules ++ built).
Proof.
  revert rules. induction todo as [|r todo IH]; intros rules.
  - simpl. by rewrite app_nil_r.
  - rewrite request_rules_loop_cons, mapM_result_cons.
    destruct (request_rule r) as [w|e]; simpl; [|reflexivity].
    rewrite IH. destruct (mapM _ todo); simpl; [|reflexivity].
    by rewrite <- app_assoc.
Qed.

Lemma to_wire_mapM rules : to_wire rules = mapM request_rule rules.
Proof.
  unfold RequestTransformer.map_request_rules_to_openapi_format.
  rewrite request_rules_loop. by destruct (mapM _ rules).
Qed.

Lemma response_criteria_loop_cons constructors c todo criteria :
  ResponseTransformer.criteria_loop constructors (c :: todo) criteria =
  built ← response_criterion constructors c;
  ResponseTransformer.criteria_loop constructors todo (criteria ++ [built]).
Proof.
  cbn [ResponseTransformer.criteria_loop]. unfold response_criterion.
  by destruct (constructors !! _).
Qed.

Lemma response_criteria_loop constructors todo criteria :
  ResponseTransformer.criteria_loop constructors todo criteria =
  built ← mapM (response_criterion constructors) todo;
  mret (criteria ++ built).
Proof.
  revert criteria. induction todo as [|c todo IH]; intros criteria.
  - simpl. by rewrite app_nil_r.
  - rewrite response_criteria_loop_cons, mapM_result_cons.
    destruct (response_criterion constructors c) as [w|e];
      simpl; [|reflexivity].
    rewrite IH. destruct (mapM _ todo); simpl; [|reflexivity].
    by rewrite <- app_assoc.
Qed.

Lemma response_rules_loop_cons r todo rules :
  ResponseTransformer.rules_loop (r :: todo) rules =
  built ← response_rule r; ResponseTransformer.rules_loop todo (rules ++ [built]).
Proof.
  cbn [ResponseTransformer.rules_loop]. unfold response_rule. cbv zeta.
  destruct (ResponseTransformer.response_criterion_mapping !! _)
    as [constructors|]; [|reflexivity].
  destruct (ResponseTransformer.response_rule_mapping !! _)
    as [cls|]; [|reflexivity].
  destruct (OpenApi.criteria _) as [cs|]; [|reflexivity].
  rewrite response_criteria_loop. simpl.
  by destruct (mapM _ cs).
Qed.

Lemma response_rules_loop todo rules :
  ResponseTransformer.rules_loop todo rules =
  built ← mapM response_rule todo; mret (rules ++ built).
Proof.
  revert rules. induction todo as [|r todo IH]; intros rules.
  - simpl. by rewrite app_nil_r.
  - rewrite response_rules_loop_cons, mapM_result_cons.
    destruct (response_rule r) as [w|e]; simpl; [|reflexivity].
    rewrite IH. destruct (mapM _ todo); simpl; [|reflexivity].
    by rewrite <- app_assoc.
Qed.

Lemma from_wire_mapM rules : from_wire rules = mapM response_rule rules.
Proof.
  unfold ResponseTransformer.map_openapi_rules_to_response_format.
  rewrite response_rules_loop. by destruct (mapM _ rules).
Qed.

(** ** The dispatch tables *)

Lemma supported_operations_cases (operation : str) :
  operation ∈ supported_operations →
  operation = "sendEvmTransaction" ∨ operation = "signEvmTransaction"
  ∨ operation = "signEvmHash" ∨ operation = "signEvmMessage"
  ∨ operation = "signEvmTypedData" ∨ operation = "signSolTransaction".
Proof.
  unfold supported_operations. rewrite !elem_of_cons, elem_of_nil. tauto.
Qed.

Lemma request_mapping_unsupported (operation : str) :
  operation ∉ supported_operations →
  RequestTransformer.openapi_criterion_mapping !! operation = None.
Proof.
  intros Hn. unfold RequestTransformer.openapi_criterion_mapping.
  repeat (rewrite lookup_insert_ne;
          [|intros <-; apply Hn; unfold supported_operations; set_solver]).
  apply lookup_singleton_ne.
  intros <-; apply Hn; unfold supported_operations; set_solver.
Qed.

Lemma request_mapping_supported (operation : str) :
  operation ∈ supported_operations ↔
  is_Some (RequestTransformer.openapi_criterion_mapping !! operation).
Proof.
  split.
  - intros H. apply supported_operations_cases in H.
    destruct H as [->|[->|[->|[->|[->| ->]]]]]; eexists; reflexivity.
  - intros [b Hb]. destruct (decide (operation ∈ supported_operations)); [done|].
    rewrite request_mapping_unsupported in Hb; done.
Qed.

(** ** Error messages *)

Lemma unknown_operation_is_UnknownOperation operation :
  UnknownOperation (RequestTransformer.unknown_operation operation).
Proof. by exists operation. Qed.

Lemma unknown_criterion_type_is_UnknownCriterionType type operation :
  UnknownCriterionType (RequestTransformer.unknown_criterion_type type operation).
Proof. by exists (type +++ " for operation " +++ operation). Qed.

Lemma response_unknown_criterion_type_is_UnknownCriterionType type :
  UnknownCriterionType (ResponseTransformer.unknown_criterion_type type).
Proof. by exists type. Qed.

(** The two messages differ at their ninth character. *)
Lemma UnknownOperation_not_UnknownCriterionType e :
  UnknownOperation e → UnknownCriterionType e → False.
Proof.
  intros [[op] ->] [[rest] H]. unfold str_app in H. simpl in H. discriminate.
Qed.

(** ** C2: unknown operations *)

(** What a single rule with a supported operation can raise is never
    [UnknownOperation]. *)
Lemma request_criterion_not_UnknownOperation builders operation c e :
  (∀ ty build, builders !! ty = Some build →
     ∀ c e, build c = Raise e → ¬ UnknownOperation e) →
  request_criterion builders operation c = Raise e → ¬ UnknownOperation e.
Proof.
  intros Hb. unfold request_criterion.
  destruct (builders !! Types.type c) as [build|] eqn:Hl.
  - by eapply Hb.
  - intros [= <-] Hu. eapply UnknownOperation_not_UnknownCriterionType; [done|].
    apply unknown_criterion_type_is_UnknownCriterionType.
Qed.

(** ** The entries of the tables *)

Lemma request_entries_spec operation type build :
  (operation, type, build) ∈ request_entries ↔
  ∃ builders,
    RequestTransformer.openapi_criterion_mapping !! operation = Some builders
    ∧ builders !! type = Some build.
Proof.
  unfold request_entries. rewrite list_elem_of_bind. split.
  - intros ([op builders] & Hin & Hop). apply elem_of_map_to_list in Hop.
    apply list_elem_of_bind in Hin as ([ty b] & Hin & Hty).
    apply elem_of_map_to_list in Hty. apply list_elem_of_singleton in Hin.
    injection Hin as -> -> ->. eauto.
  - intros (builders & Hop & Hty). exists (operation, builders). split.
    + apply list_elem_of_bind. exists (type, build). split.
      * by apply list_elem_of_singleton.
      * by apply elem_of_map_to_list.
    + by apply elem_of_map_to_list.
Qed.

Lemma response_entries_spec operation type construct :
  (operation, type, construct) ∈ response_entries ↔
  ∃ constructors,
    ResponseTransformer.response_criterion_mapping !! operation = Some constructors
    ∧ constructors !! type = Some construct.
Proof.
  unfold response_entries. rewrite list_elem_of_bind. split.
  - intros ([op constructors] & Hin & Hop). apply elem_of_map_to_list in Hop.
    apply list_elem_of_bind in Hin as ([ty b] & Hin & Hty).
    apply elem_of_map_to_list in Hty. apply list_elem_of_singleton in Hin.
    injection Hin as -> -> ->. eauto.
  - intros (constructors & Hop & Hty). exists (operation, constructors). split.
    + apply list_elem_of_bind. exists (type, construct). split.
      * by apply list_elem_of_singleton.
      * by apply elem_of_map_to_list.
    + by apply elem_of_map_to_list.
Qed.

Lemma request_entries_cases operation type build :
  (operation, type, build) ∈ request_entries →
  (operation, type, build) ∈
    [ ("sendEvmTransaction", "ethValue",
       RequestTransformer.ethValue_builder OpenApi.SendEvmTransactionCriteriaInner);
      ("sendEvmTransaction", "evmAddress",
       RequestTransformer.evmAddress_builder OpenApi.SendEvmTransactionCriteriaInner);
      ("sendEvmTransaction", "evmNetwork", RequestTransformer.evmNetwork_builder);
      ("sendEvmTransaction", "evmData",
       RequestTransformer.evmData_builder OpenApi.SendEvmTransactionCriteriaInner);
      ("signEvmTransaction", "ethValue",
       RequestTransformer.ethValue_builder OpenApi.SignEvmTransactionCriteriaInner);
      ("signEvmTransaction", "evmAddress",
       RequestTransformer.evmAddress_builder OpenApi.SignEvmTransactionCriteriaInner);
      ("signEvmTransaction", "evmData",
       RequestTransformer.evmData_builder OpenApi.SignEvmTransactionCriteriaInner);
      ("signEvmMessage", "evmMessage", RequestTransformer.evmMessage_builder);
      ("signEvmTypedData", "evmTypedDataField",
       RequestTransformer.evmTypedDataField_builder);
      ("signEvmTypedData", "evmTypedDataVerifyingContract",
       RequestTransformer.evmTypedDataVerifyingContract_builder);
      ("signSolTransaction", "solAddress", RequestTransformer.solAddress_builder) ].
Proof.
  intros (builders & Hop & Hty)%request_entries_spec.
  unfold RequestTransformer.openapi_criterion_mapping in Hop.
  table_inv Hop; table_inv Hty; list_member.
Qed.

Lemma response_entries_cases operation type construct :
  (operation, type, construct) ∈ response_entries →
  (operation, type, construct) ∈
    [ ("sendEvmTransaction", "ethValue", ResponseTransformer.ethValue_constructor);
      ("sendEvmTransaction", "evmAddress", ResponseTransformer.evmAddress_constructor);
      ("sendEvmTransaction", "evmNetwork", ResponseTransformer.evmNetwork_constructor);
      ("sendEvmTransaction", "evmData", ResponseTransformer.evmData_constructor);
      ("signEvmTransaction", "ethValue", ResponseTransformer.ethValue_constructor);
      ("signEvmTransaction", "evmAddress", ResponseTransformer.evmAddress_constructor);
      ("signEvmTransaction", "evmData", ResponseTransformer.evmData_constructor);
      ("signEvmMessage", "evmMessage", ResponseTransformer.evmMessage_constructor);
      ("signEvmTypedData", "evmTypedDataField",
       ResponseTransformer.evmTypedDataField_constructor);
      ("signEvmTypedData", "evmTypedDataVerifyingContract",
       ResponseTransformer.evmTypedDataVerifyingContract_constructor);
      ("signSolTransaction", "solAddress", ResponseTransformer.solAddress_constructor) ].
Proof.
  intros (constructors & Hop & Hty)%response_entries_spec.
  unfold ResponseTransformer.response_criterion_mapping in Hop.
  table_inv Hop; table_inv Hty; list_member.
Qed.

(** ** What the request transformer can raise *)

Lemma dict_mapM_raise_inv {A B} (f : A → result B) (d : gmap str A) e :
  dict_mapM f d = Raise e → ∃ v, f v = Raise e.
Proof.
  unfold dict_mapM. destruct (mapM _ _) as [l|e'] eqn:Hm; simpl; [done|].
  intros [= ->]. apply mapM_result_raise_inv in Hm as ([k v] & _ & Hv).
  exists v. simpl in Hv. destruct (f v); [discriminate Hv | by injection Hv as ->].
Qed.

Lemma request_builders_no_ValueError operation type build c e :
  (operation, type, build) ∈ request_entries →
  build c = Raise e → is_ValueError e = false.
Proof.
  intros Hin%request_entries_cases.
  repeat (apply elem_of_cons in Hin as [[= -> -> ->]|Hin]);
    [..|by apply elem_of_nil in Hin];
    destruct c; simpl; try (intros [= <-]; reflexivity); discriminate.
Qed.

Lemma UnknownOperation_is_ValueError e : UnknownOperation e → is_ValueError e = true.
Proof. by intros [op ->]. Qed.

Lemma UnknownCriterionType_is_ValueError e :
  UnknownCriterionType e → is_ValueError e = true.
Proof. by intros [rest ->]. Qed.

Lemma request_rule_mapping_supported (operation : str) :
  operation ∈ supported_operations →
  is_Some (RequestTransformer.openapi_rule_mapping !! operation).
Proof.
  intros H. apply supported_operations_cases in H.
  destruct H as [->|[->|[->|[->|[->| ->]]]]]; eexists; reflexivity.
Qed.

(** The allowed sets of the specification are the key sets of the table. *)
Lemma legality_table_request operation type :
  type ∈ legality_table operation ↔
  ∃ build, (operation, type, build) ∈ request_entries.
Proof.
  split.
  - unfold legality_table. intros H.
    repeat case_bool_decide; subst;
      repeat (apply elem_of_cons in H as [->|H]);
      try (by apply elem_of_nil in H);
      eexists; apply request_entries_spec; eexists; split; reflexivity.
  - intros [build Hin%request_entries_cases].
    repeat (apply elem_of_cons in Hin as [[= -> -> ->]|Hin]);
      [..|by apply elem_of_nil in Hin]; vm_compute; list_member.
Qed.

(** The outcome of one iteration of the criteria loop. *)
Lemma request_criterion_raise_inv builders operation c e :
  RequestTransformer.openapi_criterion_mapping !! operation = Some builders →
  request_criterion builders operation c = Raise e →
  ((Types.type c ∉ legality_table operation)
   ∧ e = RequestTransformer.unknown_criterion_type (Types.type c) operation)
  ∨ (Types.type c ∈ legality_table operation ∧ is_ValueError e = false).
Proof.
  intros Hop. unfold request_criterion.
  destruct (builders !! Types.type c) as [build|] eqn:Hty.
  - intros He. right.
    assert ((operation, Types.type c, build) ∈ request_entries) as Hin
      by (apply request_entries_spec; eauto).
    split; [apply legality_table_request; eauto|].
    by eapply request_builders_no_ValueError.
  - intros [= <-]. left. split; [|done].
    intros [build Hin%request_entries_spec]%legality_table_request.
    destruct Hin as (builders' & Hop' & Hty').
    rewrite Hop in Hop'. injection Hop' as <-. rewrite Hty in Hty'. discriminate.
Qed.

(** The outcome of one iteration of the rules loop. *)
Lemma request_rule_raise_inv rule e :
  request_rule rule = Raise e →
  ((Types.operation rule ∉ supported_operations)
   ∧ e = RequestTransformer.unknown_operation (Types.operation rule))
  ∨ (Types.operation rule ∈ supported_operations
     ∧ ∃ cs c, Types.criteria rule = Some cs ∧ c ∈ cs
       ∧ (((Types.type c ∉ legality_table (Types.operation rule))
           ∧ e = RequestTransformer.unknown_criterion_type
                   (Types.type c) (Types.operation rule))
          ∨ (Types.type c ∈ legality_table (Types.operation rule)
             ∧ is_ValueError e = false))).
Proof.
  unfold request_rule.
  destruct (RequestTransformer.openapi_criterion_mapping !! _)
    as [builders|] eqn:Hop.
  - assert (Types.operation rule ∈ supported_operations) as Hs
      by (apply request_mapping_supported; eauto).
    destruct (request_rule_mapping_supported _ Hs) as [cls ->].
    destruct (Types.criteria rule) as [cs|]; [|discriminate].
    destruct (mapM _ cs) as [ws|e'] eqn:Hm; simpl; [discriminate|].
    intros [= ->]. right. split; [done|].
    apply mapM_result_raise_inv in Hm as (c & Hc & He).
    exists cs, c. repeat split; [done|].
    by eapply request_criterion_raise_inv.
  - intros [= <-]. left. split; [|done].
    intros Hs%request_mapping_supported. rewrite Hop in Hs. by destruct Hs.
Qed.

(** ** Fail-fast behaviour of the loops *)

(** The call raises what the first raising rule raises: the rules before it
    were transformed, and their results are dropped. *)
Lemma to_wire_first_raise done built rule todo e :
  to_wire done = Ok built → request_rule rule = Raise e →
  to_wire (done ++ rule :: todo) = Raise e.
Proof.
  rewrite !to_wire_mapM. apply mapM_result_first_raise.
Qed.

Lemma from_wire_first_raise done built rule todo e :
  from_wire done = Ok built → response_rule rule = Raise e →
  from_wire (done ++ rule :: todo) = Raise e.
Proof.
  rewrite !from_wire_mapM. apply mapM_result_first_raise.
Qed.

Lemma to_wire_singleton rule : to_wire [rule] = (λ w, [w]) <$> request_rule rule.
Proof. rewrite to_wire_mapM. simpl. by destruct (request_rule rule). Qed.

Lemma from_wire_singleton rule :
  from_wire [rule] = (λ r, [r]) <$> response_rule rule.
Proof. rewrite from_wire_mapM. simpl. by destruct (response_rule rule). Qed.

Lemma request_rule_unknown_operation rule :
  Types.operation rule ∉ supported_operations →
  request_rule rule
  = Raise (RequestTransformer.unknown_operation (Types.operation rule)).
Proof.
  intros H. unfold request_rule. by rewrite request_mapping_unsupported.
Qed.

(** C2: applied to a rule whose operation is none of the six supported ones
    (the loop reaches it: the rules before it were transformed), the request
    transformer fails with UnknownOperation, whose message names the
    operation; a rule with operation "unknownOp" is such a rule; and on a
    list of rules whose operations are all supported the call never fails
    with UnknownOperation. *)
Theorem C2_unknown_operation :
  (∀ done built rule todo,
     to_wire done = Ok built →
     Types.operation rule ∉ supported_operations →
     to_wire (done ++ rule :: todo)
     = Raise (ValueError ("Unknown operation " +++ Types.operation rule))
     ∧ UnknownOperation (ValueError ("Unknown operation " +++ Types.operation rule)))
  ∧ (∀ action criteria,
       to_wire [Types.mkRule action "unknownOp" criteria]
       = Raise (ValueError "Unknown operation unknownOp"))
  ∧ (∀ rules e,
       Forall (λ rule, Types.operation rule ∈ supported_operations) rules →
       to_wire rules = Raise e → ¬ UnknownOperation e).
Proof.
  split; [|split].
  - intros done built rule todo Hdone Hop. split.
    + eapply to_wire_first_raise; [done|].
      by apply request_rule_unknown_operation.
    + by eexists.
  - intros action criteria. reflexivity.
  - intros rules e Hall Hraise Hu. rewrite to_wire_mapM in Hraise.
    apply mapM_result_raise_inv in Hraise as (rule & Hin & Hr).
    rewrite Forall_forall in Hall. specialize (Hall rule Hin).
    apply request_rule_raise_inv in Hr as [[Hn _]|(_ & cs & c & _ & _ & Hc)];
      [done|].
    destruct Hc as [[_ ->]|[_ Hv]].
    + eapply UnknownOperation_not_UnknownCriterionType; [done|].
      apply unknown_criterion_type_is_UnknownCriterionType.
    + apply UnknownOperation_is_ValueError in Hu. congruence.
Qed.

(** C2 at a list whose second rule has the operation "unknownOp", and at a
    list of two supported rules. *)
Lemma C2_unknown_operation_witness :
  to_wire ([Types.mkRule "accept" "signEvmHash" None]
           ++ Types.mkRule "reject" "unknownOp" (Some [])
           :: [Types.mkRule "accept" "signEvmHash" None])
  = Raise (ValueError "Unknown operation unknownOp")
  ∧ ¬ UnknownOperation
        (ValueError "Unknown criterion type evmNetwork for operation signEvmTransaction").
Proof.
  destruct C2_unknown_operation as (Ha & _ & Hb). split.
  - eapply (Ha _ _ (Types.mkRule "reject" "unknownOp" (Some []))).
    + reflexivity.
    + simpl. unfold supported_operations.
      rewrite !elem_of_cons, elem_of_nil. intros H.
      repeat destruct H as [H|H]; try discriminate H. exact H.
  - apply (Hb [Types.mkRule "accept" "signEvmHash" None;
               Types.mkRule "accept" "signEvmTransaction"
                 (Some [Types.EvmNetworkCriterion ["base"] "in"])]).
    + repeat constructor; simpl; unfold supported_operations; list_member.
    + reflexivity.
Defined.

(** ** C3: criterion types outside the operation's allowed set *)

Lemma request_criterion_illegal builders operation c :
  RequestTransformer.openapi_criterion_mapping !! operation = Some builders →
  Types.type c ∉ legality_table operation →
  request_criterion builders operation c
  = Raise (RequestTransformer.unknown_criterion_type (Types.type c) operation).
Proof.
  intros Hop Hn. unfold request_criterion.
  destruct (builders !! Types.type c) as [build|] eqn:Hty; [|done].
  destruct Hn. apply legality_table_request. exists build.
  apply request_entries_spec. eauto.
Qed.

Lemma request_rule_illegal_criterion rule before criterion after built :
  Types.operation rule ∈ supported_operations →
  Types.criteria rule = Some (before ++ criterion :: after) →
  request_rule
    (Types.mkRule (Types.action rule) (Types.operation rule) (Some before))
  = Ok built →
  Types.type criterion ∉ legality_table (Types.operation rule) →
  request_rule rule
  = Raise (RequestTransformer.unknown_criterion_type
             (Types.type criterion) (Types.operation rule)).
Proof.
  intros Hs Hcs Hbefore Hn. unfold request_rule in *. simpl in Hbefore.
  destruct (proj1 (request_mapping_supported _) Hs) as [builders Hop].
  destruct (request_rule_mapping_supported _ Hs) as [cls Hcls].
  rewrite Hop, Hcls, Hcs in *.
  destruct (mapM _ before) as [ws|] eqn:Hm; [|discriminate].
  erewrite mapM_result_first_raise; [done..|].
  by apply request_criterion_illegal.
Qed.

(** C3: the allowed sets of the legality table are the key sets of the
    per-operation constructor table; applied to a rule of a supported
    operation with a criterion whose type is not in the operation's allowed
    set (the loops reach it: what comes before it was transformed), the
    request transformer fails with UnknownCriterionType, whose message names
    the type and the operation; a signEvmTransaction rule whose first
    criterion is an evmNetwork criterion fails so; and when every criterion
    of every rule has a type of its operation's allowed set the call never
    fails with UnknownCriterionType. *)
Theorem C3_unknown_criterion_type :
  (∀ operation type,
     type ∈ legality_table operation ↔
     ∃ builders,
       RequestTransformer.openapi_criterion_mapping !! operation = Some builders
       ∧ is_Some (builders !! type))
  ∧ (∀ done built rule before criterion after built_before todo,
       to_wire done = Ok built →
       Types.operation rule ∈ supported_operations →
       Types.criteria rule = Some (before ++ criterion :: after) →
       to_wire [Types.mkRule (Types.action rule) (Types.operation rule)
                  (Some before)] = Ok built_before →
       Types.type criterion ∉ legality_table (Types.operation rule) →
       to_wire (done ++ rule :: todo)
       = Raise (ValueError ("Unknown criterion type " +++ Types.type criterion
                            +++ " for operation " +++ Types.operation rule))
       ∧ UnknownCriterionType
           (ValueError ("Unknown criterion type " +++ Types.type criterion
                        +++ " for operation " +++ Types.operation rule)))
  ∧ (∀ action networks operator after,
       to_wire [Types.mkRule action "signEvmTransaction"
                  (Some (Types.EvmNetworkCriterion networks operator :: after))]
       = Raise (ValueError
                  "Unknown criterion type evmNetwork for operation signEvmTransaction"))
  ∧ (∀ rules e,
       Forall (λ rule, ∀ cs, Types.criteria rule = Some cs →
                 Forall (λ c, Types.type c ∈ legality_table (Types.operation rule)) cs)
              rules →
       to_wire rules = Raise e → ¬ UnknownCriterionType e).
Proof.
  split; [|split; [|split]].
  - intros operation type. rewrite legality_table_request. split.
    + intros [build (builders & Hop & Hty)%request_entries_spec]. eauto.
    + intros (builders & Hop & [build Hty]). exists build.
      apply request_entries_spec. eauto.
  - intros done built rule before criterion after built_before todo
      Hdone Hs Hcs Hbefore Hn. split.
    + eapply to_wire_first_raise; [done|].
      rewrite to_wire_singleton in Hbefore.
      destruct (request_rule _) as [w|] eqn:Hw; [|discriminate].
      by eapply request_rule_illegal_criterion.
    + apply unknown_criterion_type_is_UnknownCriterionType.
  - intros action networks operator after. reflexivity.
  - intros rules e Hall Hraise Hu. rewrite to_wire_mapM in Hraise.
    apply mapM_result_raise_inv in Hraise as (rule & Hin & Hr).
    rewrite Forall_forall in Hall. specialize (Hall rule Hin).
    apply request_rule_raise_inv in Hr as [[_ ->]|(_ & cs & c & Hcs & Hc & He)].
    + eapply UnknownOperation_not_UnknownCriterionType; [|done].
      apply unknown_operation_is_UnknownOperation.
    + specialize (Hall cs Hcs). rewrite Forall_forall in Hall.
      destruct He as [[Hn _]|[_ Hv]]; [by apply Hn, Hall|].
      apply UnknownCriterionType_is_ValueError in Hu. congruence.
Qed.

(** C3 at a signEvmTransaction rule whose second criterion is an evmNetwork
    criterion, after a signEvmHash rule; and at a list that fails otherwise. *)
Lemma C3_unknown_criterion_type_witness :
  to_wire ([Types.mkRule "accept" "signEvmHash" None]
           ++ Types.mkRule "reject" "signEvmTransaction"
                (Some ([Types.EthValueCriterion "1" ">"]
                       ++ Types.EvmNetworkCriterion ["base"] "in"
                       :: [Types.EvmAddressCriterion [example_address] "in"]))
           :: [])
  = Raise (ValueError
             "Unknown criterion type evmNetwork for operation signEvmTransaction")
  ∧ ¬ UnknownCriterionType (ValueError "Unknown operation unknownOp").
Proof.
  destruct C3_unknown_criterion_type as (_ & Hb & _ & Hd). split.
  - refine (proj1 (Hb [Types.mkRule "accept" "signEvmHash" None] _
                      (Types.mkRule "reject" "signEvmTransaction" _)
                      [Types.EthValueCriterion "1" ">"]
                      (Types.EvmNetworkCriterion ["base"] "in")
                      [Types.EvmAddressCriterion [example_address] "in"]
                      _ [] _ _ _ _ _)).
    + reflexivity.
    + simpl. unfold supported_operations. list_member.
    + reflexivity.
    + reflexivity.
    + simpl.
      change (legality_table "signEvmTransaction")
        with (["ethValue"; "evmAddress"; "evmData"] : list str).
      rewrite !elem_of_cons, elem_of_nil. intros H.
      repeat destruct H as [H|H]; try discriminate H. exact H.
  - apply (Hd [Types.mkRule "accept" "unknownOp" None]).
    + repeat constructor. simpl. discriminate.
    + reflexivity.
Defined.

(** ** The tables of the response transformer *)

Lemma response_mapping_unsupported (operation : str) :
  operation ∉ supported_operations →
  ResponseTransformer.response_criterion_mapping !! operation = None.
Proof.
  intros Hn. unfold ResponseTransformer.response_criterion_mapping.
  repeat (rewrite lookup_insert_ne;
          [|intros <-; apply Hn; unfold supported_operations; set_solver]).
  apply lookup_singleton_ne.
  intros <-; apply Hn; unfold supported_operations; set_solver.
Qed.

Lemma response_mapping_supported (operation : str) :
  operation ∈ supported_operations ↔
  is_Some (ResponseTransformer.response_criterion_mapping !! operation).
Proof.
  split.
  - intros H. apply supported_operations_cases in H.
    destruct H as [->|[->|[->|[->|[->| ->]]]]]; eexists; reflexivity.
  - intros [b Hb]. destruct (decide (operation ∈ supported_operations)); [done|].
    rewrite response_mapping_unsupported in Hb; done.
Qed.

Lemma response_rule_mapping_supported (operation : str) :
  operation ∈ supported_operations →
  is_Some (ResponseTransformer.response_rule_mapping !! operation).
Proof.
  intros H. apply supported_operations_cases in H.
  destruct H as [->|[->|[->|[->|[->| ->]]]]]; eexists; reflexivity.
Qed.

(** Both directions dispatch on the same keys. *)
Lemma legality_table_response operation type :
  type ∈ legality_table operation ↔
  ∃ construct, (operation, type, construct) ∈ response_entries.
Proof.
  split.
  - unfold legality_table. intros H.
    repeat case_bool_decide; subst;
      repeat (apply elem_of_cons in H as [->|H]);
      try (by apply elem_of_nil in H);
      eexists; apply response_entries_spec; eexists; split; reflexivity.
  - intros [construct Hin%response_entries_cases].
    repeat (apply elem_of_cons in Hin as [[= -> -> ->]|Hin]);
      [..|by apply elem_of_nil in Hin]; vm_compute; list_member.
Qed.

Lemma response_rule_unknown_operation rule :
  OpenApi.operation (OpenApi.actual_instance rule) ∉ supported_operations →
  response_rule rule
  = Raise (ResponseTransformer.unknown_operation
             (OpenApi.operation (OpenApi.actual_instance rule))).
Proof.
  intros H. unfold response_rule. cbv zeta.
  by rewrite response_mapping_unsupported.
Qed.

Lemma response_criterion_illegal constructors operation wrapper :
  ResponseTransformer.response_criterion_mapping !! operation = Some constructors →
  OpenApi.type (OpenApi.actual_instance wrapper) ∉ legality_table operation →
  response_criterion constructors wrapper
  = Raise (ResponseTransformer.unknown_criterion_type
             (OpenApi.type (OpenApi.actual_instance wrapper))).
Proof.
  intros Hop Hn. unfold response_criterion. cbv zeta.
  destruct (constructors !! _) as [construct|] eqn:Hty; [|done].
  destruct Hn. apply legality_table_response. exists construct.
  apply response_entries_spec. eauto.
Qed.

(** A rule with a criterion outside its operation's allowed set raises. *)
Lemma request_rule_raises_illegal rule cs c :
  Types.operation rule ∈ supported_operations →
  Types.criteria rule = Some cs → c ∈ cs →
  Types.type c ∉ legality_table (Types.operation rule) →
  raises (request_rule rule).
Proof.
  intros Hs Hcs Hc Hn. unfold request_rule.
  destruct (proj1 (request_mapping_supported _) Hs) as [builders Hop].
  destruct (request_rule_mapping_supported _ Hs) as [cls Hcls].
  rewrite Hop, Hcls, Hcs.
  assert (raises (mapM (request_criterion builders (Types.operation rule)) cs))
    as [e He].
  { apply mapM_result_raises, Exists_exists. exists c. split; [done|].
    eexists. by apply request_criterion_illegal. }
  rewrite He. by eexists.
Qed.

Lemma response_rule_raises_illegal rule wrappers wrapper :
  OpenApi.operation (OpenApi.actual_instance rule) ∈ supported_operations →
  OpenApi.criteria (OpenApi.actual_instance rule) = Some wrappers →
  wrapper ∈ wrappers →
  OpenApi.type (OpenApi.actual_instance wrapper)
    ∉ legality_table (OpenApi.operation (OpenApi.actual_instance rule)) →
  raises (response_rule rule).
Proof.
  intros Hs Hcs Hc Hn. unfold response_rule. cbv zeta.
  destruct (proj1 (response_mapping_supported _) Hs) as [constructors Hop].
  destruct (response_rule_mapping_supported _ Hs) as [cls Hcls].
  rewrite Hop, Hcls, Hcs.
  assert (raises (mapM (response_criterion constructors) wrappers)) as [e He].
  { apply mapM_result_raises, Exists_exists. exists wrapper. split; [done|].
    eexists. by eapply response_criterion_illegal. }
  rewrite He. by eexists.
Qed.

(** ** C8: fail-fast, no partial result *)

Lemma to_wire_singleton_raises rule :
  raises (to_wire [rule]) ↔ raises (request_rule rule).
Proof.
  rewrite to_wire_singleton. unfold raises.
  destruct (request_rule rule) as [w|e]; simpl; split; intros [e' He];
    first [discriminate | by eexists].
Qed.

Lemma from_wire_singleton_raises rule :
  raises (from_wire [rule]) ↔ raises (response_rule rule).
Proof.
  rewrite from_wire_singleton. unfold raises.
  destruct (response_rule rule) as [w|e]; simpl; split; intros [e' He];
    first [discriminate | by eexists].
Qed.

Lemma to_wire_raises rules :
  raises (to_wire rules) ↔ Exists (λ rule, raises (to_wire [rule])) rules.
Proof.
  rewrite to_wire_mapM, mapM_result_raises, !Exists_exists.
  by setoid_rewrite to_wire_singleton_raises.
Qed.

Lemma from_wire_raises rules :
  raises (from_wire rules) ↔ Exists (λ rule, raises (from_wire [rule])) rules.
Proof.
  rewrite from_wire_mapM, mapM_result_raises, !Exists_exists.
  by setoid_rewrite from_wire_singleton_raises.
Qed.

(** C8: in both directions, when some rule of the list raises on its own, in
    particular when its operation is unknown or one of its criteria has a
    type outside its operation's allowed set, the call raises and returns no
    list; and when the rules before the first such rule were transformed,
    the call raises what that rule raises. *)
Theorem C8_fail_fast :
  (∀ rules rule,
     rule ∈ rules → raises (to_wire [rule]) →
     raises (to_wire rules) ∧ ∀ partial, to_wire rules ≠ Ok partial)
  ∧ (∀ rules rule,
       rule ∈ rules → raises (from_wire [rule]) →
       raises (from_wire rules) ∧ ∀ partial, from_wire rules ≠ Ok partial)
  ∧ (∀ done built rule e todo,
       to_wire done = Ok built → to_wire [rule] = Raise e →
       to_wire (done ++ rule :: todo) = Raise e)
  ∧ (∀ done built rule e todo,
       from_wire done = Ok built → from_wire [rule] = Raise e →
       from_wire (done ++ rule :: todo) = Raise e)
  ∧ (∀ rule,
       Types.operation rule ∉ supported_operations →
       ∃ e, to_wire [rule] = Raise e ∧ UnknownOperation e)
  ∧ (∀ rule cs c,
       Types.operation rule ∈ supported_operations →
       Types.criteria rule = Some cs → c ∈ cs →
       Types.type c ∉ legality_table (Types.operation rule) →
       raises (to_wire [rule]))
  ∧ (∀ rule,
       OpenApi.operation (OpenApi.actual_instance rule) ∉ supported_operations →
       ∃ e, from_wire [rule] = Raise e ∧ UnknownOperation e)
  ∧ (∀ rule wrappers wrapper,
       OpenApi.operation (OpenApi.actual_instance rule) ∈ supported_operations →
       OpenApi.criteria (OpenApi.actual_instance rule) = Some wrappers →
       wrapper ∈ wrappers →
       OpenApi.type (OpenApi.actual_instance wrapper)
         ∉ legality_table (OpenApi.operation (OpenApi.actual_instance rule)) →
       raises (from_wire [rule])).
Proof.
  repeat split.
  - apply to_wire_raises, Exists_exists. eauto.
  - intros partial Hok.
    assert (raises (to_wire rules)) as [e He]
      by (apply to_wire_raises, Exists_exists; eauto).
    congruence.
  - apply from_wire_raises, Exists_exists. eauto.
  - intros partial Hok.
    assert (raises (from_wire rules)) as [e He]
      by (apply from_wire_raises, Exists_exists; eauto).
    congruence.
  - intros done built rule e todo Hdone Hrule.
    eapply to_wire_first_raise; [done|].
    rewrite to_wire_singleton in Hrule.
    destruct (request_rule rule); simpl in Hrule; congruence.
  - intros done built rule e todo Hdone Hrule.
    eapply from_wire_first_raise; [done|].
    rewrite from_wire_singleton in Hrule.
    destruct (response_rule rule); simpl in Hrule; congruence.
  - intros rule Hn. eexists. split.
    + rewrite to_wire_singleton, request_rule_unknown_operation by done.
      reflexivity.
    + apply unknown_operation_is_UnknownOperation.
  - intros rule cs c Hs Hcs Hc Hn. rewrite to_wire_singleton.
    destruct (request_rule_raises_illegal rule cs c) as [e ->]; [done..|].
    by eexists.
  - intros rule Hn. eexists. split.
    + rewrite from_wire_singleton, response_rule_unknown_operation by done.
      reflexivity.
    + by eexists.
  - intros rule wrappers wrapper Hs Hcs Hc Hn. rewrite from_wire_singleton.
    destruct (response_rule_raises_illegal rule wrappers wrapper) as [e ->];
      [done..|].
    by eexists.
Qed.

(** C8 at lists whose first rule is a valid signEvmHash rule and whose
    second rule fails. *)
Lemma C8_fail_fast_witness :
  (raises (to_wire [Types.mkRule "accept" "signEvmHash" None;
                    Types.mkRule "accept" "signEvmTransaction"
                      (Some [Types.EvmNetworkCriterion ["base"] "in"])])
   ∧ ∀ partial,
       to_wire [Types.mkRule "accept" "signEvmHash" None;
                Types.mkRule "accept" "signEvmTransaction"
                  (Some [Types.EvmNetworkCriterion ["base"] "in"])]
       ≠ Ok partial)
  ∧ from_wire ([OpenApi.mkRule (OpenApi.mkRuleInstance OpenApi.SignEvmHashRule
                                  "accept" "signEvmHash" None)]
               ++ OpenApi.mkRule (OpenApi.mkRuleInstance OpenApi.SignEvmHashRule
                                    "accept" "unknownOp" None)
               :: [])
    = Raise (ValueError "Unknown operation unknownOp").
Proof.
  destruct C8_fail_fast as (Ha & _ & _ & Hd & _). split.
  - apply (Ha _ (Types.mkRule "accept" "signEvmTransaction"
                   (Some [Types.EvmNetworkCriterion ["base"] "in"]))).
    + list_member.
    + eexists. reflexivity.
  - eapply Hd; reflexivity.
Defined.

(** ** Field validators *)

Lemma literal_ok field allowed v :
  v ∈ allowed → Types.literal field allowed v = Ok v.
Proof. intros H. unfold Types.literal. by rewrite bool_decide_eq_true_2. Qed.

Lemma literal_raise field allowed v :
  v ∉ allowed →
  Types.literal field allowed v = Raise (ValidationError field "literal_error").
Proof. intros H. unfold Types.literal. by rewrite bool_decide_eq_false_2. Qed.

Lemma literal_list_ok field allowed v :
  Forall (λ x, x ∈ allowed) v → Types.literal_list field allowed v = Ok v.
Proof.
  induction 1 as [|x v Hx _ IH]; simpl; [done|].
  by rewrite literal_ok, IH.
Qed.

Lemma literal_list_raise field allowed v x :
  x ∈ v → x ∉ allowed →
  Types.literal_list field allowed v
  = Raise (ValidationError field "literal_error").
Proof.
  intros Hin Hn. induction v as [|y v IH]; [by apply elem_of_nil in Hin|].
  simpl. destruct (decide (y ∈ allowed)) as [Hy|Hy].
  - rewrite literal_ok by done. simpl.
    apply elem_of_cons in Hin as [->|Hin]; [done|]. by rewrite IH.
  - by rewrite literal_raise.
Qed.

Lemma validate_addresses_length_ok v :
  length v ≤ 300 → Types.validate_addresses_length v = Ok v.
Proof.
  intros H. unfold Types.validate_addresses_length.
  rewrite bool_decide_eq_false_2; [done|lia].
Qed.

Lemma validate_addresses_length_raise v :
  300 < length v →
  Types.validate_addresses_length v
  = Raise (ValidationError "addresses" "Maximum of 300 addresses allowed").
Proof.
  intros H. unfold Types.validate_addresses_length.
  by rewrite bool_decide_eq_true_2.
Qed.

Lemma validate_addresses_format_ok v :
  forallb Py.match_evm_address v = true →
  Types.validate_addresses_format v = Ok v.
Proof.
  intros H. unfold Types.validate_addresses_format.
  assert (Types.validate_addresses_format_loop v = Ok ()) as ->; [|done].
  induction v as [|a v IH]; simpl in *; [done|].
  apply andb_prop in H as [-> H]. simpl. auto.
Qed.

Lemma validate_addresses_format_raise v a :
  a ∈ v → Py.match_evm_address a = false →
  Types.validate_addresses_format v
  = Raise (ValidationError "addresses"
             "must validate the regular expression /^0x[0-9a-fA-F]{40}$/").
Proof.
  intros Hin Ha. unfold Types.validate_addresses_format.
  assert (Types.validate_addresses_format_loop v
          = Raise (ValidationError "addresses"
                     "must validate the regular expression /^0x[0-9a-fA-F]{40}$/"))
    as ->; [|done].
  induction v as [|b v IH]; [by apply elem_of_nil in Hin|].
  simpl. destruct (Py.match_evm_address b) eqn:Hb; simpl; [|done].
  apply elem_of_cons in Hin as [->|Hin]; [congruence|auto].
Qed.

Lemma forallb_false_elem {A} (p : A → bool) (l : list A) :
  forallb p l = false ↔ ∃ x, x ∈ l ∧ p x = false.
Proof.
  induction l as [|y l IH]; simpl.
  - split; [done|]. intros (x & Hx & _). by apply elem_of_nil in Hx.
  - rewrite andb_false_iff, IH. split.
    + intros [Hy|(x & Hx & Hp)]; [exists y|exists x];
        (split; [|done]); [left|by right].
    + intros (x & [->|Hx]%elem_of_cons & Hp); [by left|right; eauto].
Qed.

(** The addresses field is accepted exactly when [addresses_valid] holds. *)
Lemma addresses_valid_spec v :
  Types.addresses_valid v = false ↔
  (∃ a, a ∈ v ∧ Py.match_evm_address a = false) ∨ 300 < length v.
Proof.
  unfold Types.addresses_valid.
  rewrite andb_false_iff, bool_decide_eq_false, forallb_false_elem.
  split; intros [H|H]; [right; lia|by left|by right|left; lia].
Qed.

(** A string the address pattern matches has 42 characters, or 43 with a
    final newline. *)
Lemma match_evm_address_len s :
  Py.match_evm_address s = true → len s = 42 ∨ len s = 43.
Proof.
  unfold Py.match_evm_address, len. destruct s as [cs]. simpl.
  destruct cs as [|c0 [|c1 body]]; try discriminate.
  intros [[[_ Hlen%bool_decide_eq_true]%andb_prop _]%andb_prop Hend]%andb_prop.
  assert (length body = 40 + length (drop 40 body)) as Hbody.
  { rewrite <- (take_drop 40 body) at 1. by rewrite length_app, Hlen. }
  simpl. destruct (drop 40 body) as [|d [|]]; simpl in *;
    [lia|lia|discriminate].
Qed.

(** ** C4: the addresses of an [EvmAddressCriterion] *)

Lemma EvmAddressCriterion_init_addresses_valid addresses operator :
  Types.addresses_valid addresses = true →
  Types.EvmAddressCriterion_init addresses operator
  = op ← Types.literal "operator" ["in"; "not in"] operator;
    mret (Types.EvmAddressCriterion addresses op).
Proof.
  intros [Hlen%bool_decide_eq_true Hfmt]%andb_prop.
  unfold Types.EvmAddressCriterion_init.
  rewrite validate_addresses_length_ok by done. simpl.
  by rewrite validate_addresses_format_ok.
Qed.

Lemma EvmAddressCriterion_init_addresses_invalid addresses operator :
  Types.addresses_valid addresses = false →
  ∃ reason, Types.EvmAddressCriterion_init addresses operator
            = Raise (ValidationError "addresses" reason).
Proof.
  intros H. unfold Types.EvmAddressCriterion_init.
  destruct (decide (300 < length addresses)) as [Hlen|Hlen].
  - rewrite validate_addresses_length_raise by done. by eexists.
  - rewrite validate_addresses_length_ok by lia. simpl.
    apply addresses_valid_spec in H as [(a & Hin & Ha)|?]; [|lia].
    erewrite validate_addresses_format_raise by done. by eexists.
Qed.

(** C4: constructing an EvmAddressCriterion raises a ValidationError for its
    addresses exactly when some address does not match the pattern or there
    are more than 300 addresses; with an operator that is one of its two
    literals, construction raises exactly then; whatever it raises is a
    ValidationError; it raises when an address has 41 characters, and when
    there are 301 addresses. *)
Theorem C4_evm_address_criterion :
  (∀ addresses operator,
     (∃ reason, Types.EvmAddressCriterion_init addresses operator
                = Raise (ValidationError "addresses" reason))
     ↔ ((∃ a, a ∈ addresses ∧ Py.match_evm_address a = false)
        ∨ 300 < length addresses))
  ∧ (∀ addresses operator,
       operator ∈ ["in"; "not in"] →
       raises (Types.EvmAddressCriterion_init addresses operator)
       ↔ ((∃ a, a ∈ addresses ∧ Py.match_evm_address a = false)
          ∨ 300 < length addresses))
  ∧ (∀ addresses operator e,
       Types.EvmAddressCriterion_init addresses operator = Raise e →
       is_ValidationError e)
  ∧ (∀ addresses operator a,
       a ∈ addresses → len a = 41 →
       ∃ reason, Types.EvmAddressCriterion_init addresses operator
                 = Raise (ValidationError "addresses" reason))
  ∧ (∀ addresses operator,
       length addresses = 301 →
       Types.EvmAddressCriterion_init addresses operator
       = Raise (ValidationError "addresses" "Maximum of 300 addresses allowed")).
Proof.
  assert (∀ addresses operator,
     (∃ reason, Types.EvmAddressCriterion_init addresses operator
                = Raise (ValidationError "addresses" reason))
     ↔ ((∃ a, a ∈ addresses ∧ Py.match_evm_address a = false)
        ∨ 300 < length addresses)) as Hfield.
  { intros addresses operator. rewrite <- addresses_valid_spec. split.
    - intros [reason Hr]. destruct (Types.addresses_valid addresses) eqn:Hv; [|done].
      rewrite EvmAddressCriterion_init_addresses_valid in Hr by done.
      unfold Types.literal in Hr. by case_bool_decide.
    - apply EvmAddressCriterion_init_addresses_invalid. }
  split; [exact Hfield|]. split; [|split; [|split]].
  - intros addresses operator Hop. rewrite <- Hfield. split.
    + intros [e He]. destruct (Types.addresses_valid addresses) eqn:Hv.
      * rewrite EvmAddressCriterion_init_addresses_valid in He by done.
        by rewrite literal_ok in He.
      * by apply EvmAddressCriterion_init_addresses_invalid.
    + intros [reason ->]. by eexists.
  - intros addresses operator e He.
    destruct (Types.addresses_valid addresses) eqn:Hv.
    + rewrite EvmAddressCriterion_init_addresses_valid in He by done.
      unfold Types.literal in He. case_bool_decide; [done|].
      injection He as <-. by do 2 eexists.
    + destruct (EvmAddressCriterion_init_addresses_invalid _ operator Hv)
        as [reason Hr].
      rewrite Hr in He. injection He as <-. by do 2 eexists.
  - intros addresses operator a Hin Hlen. apply Hfield. left. exists a.
    split; [done|]. destruct (Py.match_evm_address a) eqn:Ha; [|done].
    apply match_evm_address_len in Ha. lia.
  - intros addresses operator Hlen.
    unfold Types.EvmAddressCriterion_init.
    rewrite validate_addresses_length_raise; [done|lia].
Qed.

(** C4 with the operator "in": at one address of 41 characters, and at 301
    well-formed addresses. *)
Lemma C4_evm_address_criterion_witness :
  raises (Types.EvmAddressCriterion_init
            ["0x52908400098527886E0F7030069857D2E4169EE"] "in")
  ∧ raises (Types.EvmAddressCriterion_init (example_addresses 301) "in").
Proof.
  destruct C4_evm_address_criterion as (_ & Hb & _). split.
  - apply Hb; [list_member|]. left. eexists. split; [list_member|reflexivity].
  - apply Hb; [list_member|]. right.
    unfold example_addresses. rewrite length_replicate. lia.
Defined.

(** ** C5, C6 and C10: digit strings and network names *)

Lemma forallb_true_Forall {A} (p : A → bool) (l : list A) :
  forallb p l = true ↔ Forall (λ x, p x = true) l.
Proof.
  induction l as [|x l IH]; simpl; [by split|].
  rewrite andb_true_iff, Forall_cons, IH. done.
Qed.

Lemma isdigit_spec (s : str) :
  Py.isdigit s = true ↔
  codepoints s ≠ [] ∧ Forall (λ c, Py.is_digit_char c = true) (codepoints s).
Proof.
  unfold Py.isdigit. destruct (codepoints s) as [|c cs] eqn:Hs.
  - split; [discriminate|]. by intros [? _].
  - rewrite <- Hs. split.
    + intros H. split; [by rewrite Hs|]. by apply forallb_true_Forall.
    + intros [_ H]. by apply forallb_true_Forall.
Qed.

Lemma isdigit_non_digit (s : str) c :
  c ∈ codepoints s → Py.is_digit_char c = false → Py.isdigit s = false.
Proof.
  intros Hin Hc. destruct (Py.isdigit s) eqn:Hd; [|done].
  apply isdigit_spec in Hd as [_ Hall]. rewrite Forall_forall in Hall.
  specialize (Hall c Hin). congruence.
Qed.

(** C5: constructing an EthValueCriterion raises a ValidationError for the
    value when the value contains a character that is not a digit, whatever
    the operator, as for "12a"; and it succeeds for a non-empty value of
    digits only with an operator of the field's literals, as for "0". *)
Theorem C5_eth_value_criterion :
  (∀ ethValue operator c,
     c ∈ codepoints ethValue → Py.is_digit_char c = false →
     Types.EthValueCriterion_init ethValue operator
     = Raise (ValidationError "ethValue" "ethValue must contain only digits"))
  ∧ (∀ operator,
       Types.EthValueCriterion_init "12a" operator
       = Raise (ValidationError "ethValue" "ethValue must contain only digits"))
  ∧ (∀ ethValue operator,
       codepoints ethValue ≠ [] →
       Forall (λ c, Py.is_digit_char c = true) (codepoints ethValue) →
       operator ∈ [">"; "<"; ">="; "<="; "=="; "!="] →
       Types.EthValueCriterion_init ethValue operator
       = Ok (Types.EthValueCriterion ethValue operator))
  ∧ (∀ operator,
       operator ∈ [">"; "<"; ">="; "<="; "=="; "!="] →
       Types.EthValueCriterion_init "0" operator
       = Ok (Types.EthValueCriterion "0" operator)).
Proof.
  assert (∀ ethValue operator,
            Py.isdigit ethValue = true →
            operator ∈ [">"; "<"; ">="; "<="; "=="; "!="] →
            Types.EthValueCriterion_init ethValue operator
            = Ok (Types.EthValueCriterion ethValue operator)) as Hok.
  { intros ethValue operator Hd Hop.
    unfold Types.EthValueCriterion_init, Types.validate_eth_value.
    rewrite Hd. simpl. by rewrite literal_ok. }
  split; [|split; [|split]].
  - intros ethValue operator c Hin Hc.
    unfold Types.EthValueCriterion_init, Types.validate_eth_value.
    by rewrite (isdigit_non_digit _ c).
  - intros operator. reflexivity.
  - intros ethValue operator Hne Hall Hop. apply Hok; [|done].
    by apply isdigit_spec.
  - intros operator Hop. by apply Hok.
Qed.

(** C5 at the values "12x" and "42" with the operator ">=". *)
Lemma C5_eth_value_criterion_witness :
  Types.EthValueCriterion_init "12x" ">="
  = Raise (ValidationError "ethValue" "ethValue must contain only digits")
  ∧ Types.EthValueCriterion_init "42" ">=" = Ok (Types.EthValueCriterion "42" ">=").
Proof.
  destruct C5_eth_value_criterion as (Ha & _ & Hc & _). split.
  - apply (Ha "12x" ">=" 0x78%N); [list_member|reflexivity].
  - apply Hc; [discriminate|repeat constructor|list_member].
Defined.

(** C6: constructing an EvmNetworkCriterion raises a ValidationError for the
    networks when one of them is neither "base-sepolia" nor "base", whatever
    the operator, as for "mainnet"; and it succeeds when all networks are
    among the two with an operator of the field's literals. *)
Theorem C6_evm_network_criterion :
  (∀ networks operator n,
     n ∈ networks → n ∉ ["base-sepolia"; "base"] →
     Types.EvmNetworkCriterion_init networks operator
     = Raise (ValidationError "networks" "literal_error"))
  ∧ (∀ operator,
       Types.EvmNetworkCriterion_init ["mainnet"] operator
       = Raise (ValidationError "networks" "literal_error"))
  ∧ (∀ networks operator,
       Forall (λ n, n ∈ ["base-sepolia"; "base"]) networks →
       operator ∈ ["in"; "not in"] →
       Types.EvmNetworkCriterion_init networks operator
       = Ok (Types.EvmNetworkCriterion networks operator)).
Proof.
  split; [|split].
  - intros networks operator n Hin Hn. unfold Types.EvmNetworkCriterion_init.
    by erewrite literal_list_raise.
  - intros operator. reflexivity.
  - intros networks operator Hall Hop. unfold Types.EvmNetworkCriterion_init.
    rewrite literal_list_ok by done. simpl. by rewrite literal_ok.
Qed.

(** C6 at the networks base and mainnet, and at both legal networks. *)
Lemma C6_evm_network_criterion_witness :
  Types.EvmNetworkCriterion_init ["base"; "mainnet"] "in"
  = Raise (ValidationError "networks" "literal_error")
  ∧ Types.EvmNetworkCriterion_init ["base"; "base-sepolia"] "not in"
    = Ok (Types.EvmNetworkCriterion ["base"; "base-sepolia"] "not in").
Proof.
  destruct C6_evm_network_criterion as (Ha & _ & Hc). split.
  - apply (Ha _ _ "mainnet"); [list_member|].
    rewrite !elem_of_cons, elem_of_nil. intros H.
    repeat destruct H as [H|H]; try discriminate H. exact H.
  - apply Hc; [repeat constructor; list_member|list_member].
Defined.

(** C10: the digits-only check of EthValueCriterion and of
    EvmTypedNumericalCondition is [str.isdigit]: construction passes the
    check exactly when [isdigit] holds of the value; the empty string is
    rejected by both; the Arabic-Indic digits U+0661 U+0662 U+0663 and the
    superscript two U+00B2 are accepted by both, and neither is a string of
    ASCII decimal digits. *)
Theorem C10_unicode_digits :
  (∀ v, Types.validate_eth_value v = Ok v ↔ Py.isdigit v = true)
  ∧ (∀ v, Types.validate_value v = Ok v ↔ Py.isdigit v = true)
  ∧ (∀ operator, Types.EthValueCriterion_init "" operator
       = Raise (ValidationError "ethValue" "ethValue must contain only digits"))
  ∧ (∀ operator path, Types.EvmTypedNumericalCondition_init "" operator path
       = Raise (ValidationError "value" "value must contain only digits"))
  ∧ ("١٢٣" = Str [0x661; 0x662; 0x663]%N ∧ "²" = Str [0xB2]%N)
  ∧ Types.EthValueCriterion_init "١٢٣" ">" = Ok (Types.EthValueCriterion "١٢٣" ">")
  ∧ Types.EthValueCriterion_init "²" ">" = Ok (Types.EthValueCriterion "²" ">")
  ∧ Types.EvmTypedNumericalCondition_init "١٢٣" "<" "amount"
    = Ok (Types.EvmTypedNumericalCondition "١٢٣" "<" "amount")
  ∧ Types.EvmTypedNumericalCondition_init "²" "<" "amount"
    = Ok (Types.EvmTypedNumericalCondition "²" "<" "amount")
  ∧ ascii_digits "١٢٣" = false ∧ ascii_digits "²" = false.
Proof.
  repeat split; try reflexivity.
  - unfold Types.validate_eth_value. by destruct (Py.isdigit v).
  - intros H. unfold Types.validate_eth_value. by rewrite H.
  - unfold Types.validate_value. by destruct (Py.isdigit v).
  - intros H. unfold Types.validate_value. by rewrite H.
Qed.

(** ** C7: rules without criteria *)

Lemma mapM_result_ok_inv {A B} (f : A → result B) l k :
  mapM f l = Ok k → Forall2 (λ x y, f x = Ok y) l k.
Proof.
  revert k. induction l as [|x l IH]; intros k; simpl.
  - intros [= <-]. constructor.
  - destruct (f x) as [y|] eqn:Hx; simpl; [|discriminate].
    destruct (mapM f l) as [k'|]; simpl; [|discriminate].
    intros [= <-]. constructor; auto.
Qed.

(** C7: an object of the class SignEvmHashRule has no criteria; a
    signEvmHash rule without criteria is transformed to a wire rule of the
    class SignEvmHashRule built from its action and operation only, with no
    criteria, alone or at any position of a list that is transformed. *)
Theorem C7_sign_evm_hash :
  (∀ action keyword rule,
     Types.SignEvmHashRule_init action keyword = Ok rule →
     Types.operation rule = "signEvmHash" ∧ Types.criteria rule = None)
  ∧ (∀ action,
       to_wire [Types.mkRule action "signEvmHash" None]
       = Ok [OpenApi.mkRule (OpenApi.mkRuleInstance OpenApi.SignEvmHashRule
                               action "signEvmHash" None)])
  ∧ (∀ before rule after built,
       Types.operation rule = "signEvmHash" → Types.criteria rule = None →
       to_wire (before ++ rule :: after) = Ok built →
       built !! length before
       = Some (OpenApi.mkRule (OpenApi.mkRuleInstance OpenApi.SignEvmHashRule
                                 (Types.action rule) "signEvmHash" None))).
Proof.
  split; [|split].
  - intros action keyword rule. unfold Types.SignEvmHashRule_init.
    destruct (Types.literal _ _ _); simpl; [|discriminate].
    by intros [= <-].
  - intros action. reflexivity.
  - intros before rule after built Hop Hcs Hok. rewrite to_wire_mapM in Hok.
    apply mapM_result_ok_inv in Hok.
    apply Forall2_app_inv_l in Hok as (k1 & k2 & H1 & H2 & ->).
    apply Forall2_cons_inv_l in H2 as (w & k2' & Hw & _ & ->).
    rewrite (Forall2_length _ _ _ H1), lookup_app_r, Nat.sub_diag by done.
    simpl. f_equal. destruct rule as [a o c]. simpl in *. subst.
    unfold request_rule in Hw. simpl in Hw.
    change (RequestTransformer.openapi_criterion_mapping !! "signEvmHash")
      with (Some (∅ : gmap str RequestTransformer.builder)) in Hw.
    change (RequestTransformer.openapi_rule_mapping !! "signEvmHash")
      with (Some OpenApi.SignEvmHashRule) in Hw.
    by injection Hw as <-.
Qed.

(** C7 at the constructed rule of action "reject", between two rules. *)
Lemma C7_sign_evm_hash_witness :
  (Types.operation (Types.mkRule "reject" "signEvmHash" None) = "signEvmHash"
   ∧ Types.criteria (Types.mkRule "reject" "signEvmHash" None) = None)
  ∧ [OpenApi.mkRule (OpenApi.mkRuleInstance OpenApi.SignEvmMessageRule
                       "accept" "signEvmMessage"
                       (Some [OpenApi.SignEvmMessageCriteriaInner
                                (OpenApi.EvmMessageCriterion "^hi$" "evmMessage")]));
     OpenApi.mkRule (OpenApi.mkRuleInstance OpenApi.SignEvmHashRule
                       "reject" "signEvmHash" None)] !! 1
    = Some (OpenApi.mkRule (OpenApi.mkRuleInstance OpenApi.SignEvmHashRule
                              "reject" "signEvmHash" None)).
Proof.
  destruct C7_sign_evm_hash as (Ha & _ & Hc). split.
  - apply (Ha "reject" None). reflexivity.
  - apply (Hc [Types.mkRule "accept" "signEvmMessage"
                 (Some [Types.EvmMessageCriterion "^hi$"])]
              (Types.mkRule "reject" "signEvmHash" None) []);
      reflexivity.
Defined.

(** ** Round trip: construction of valid objects *)

Lemma bool_decide_elem_of_true (x : str) (l : list str) :
  bool_decide (x ∈ l) = true → x ∈ l.
Proof. apply bool_decide_eq_true_1. Qed.

Lemma addresses_valid_checks v :
  Types.addresses_valid v = true →
  (v' ← Types.validate_addresses_length v; Types.validate_addresses_format v')
  = Ok v.
Proof.
  intros [Hlen%bool_decide_eq_true Hfmt]%andb_prop.
  rewrite validate_addresses_length_ok by done. simpl.
  by apply validate_addresses_format_ok.
Qed.

Lemma validate_address_format_ok v :
  forallb Py.match_sol_address v = true →
  Types.validate_address_format v = Ok v.
Proof.
  intros H. unfold Types.validate_address_format.
  assert (Types.validate_address_format_loop v = Ok ()) as ->; [|done].
  induction v as [|a v IH]; simpl in *; [done|].
  apply andb_prop in H as [-> H]. simpl. auto.
Qed.

Lemma ParamCondition_init_valid p :
  Types.ParamCondition_valid p = true →
  ResponseTransformer.param_to_response (RequestTransformer.param_to_openapi p)
  = Ok p.
Proof.
  destruct p as [name op value|name op values]; simpl;
    intros H%bool_decide_eq_true;
    unfold ResponseTransformer.param_to_response; simpl.
  - unfold Types.EvmDataParameterCondition_init, Types.validate_operator_enum.
    by rewrite bool_decide_eq_false_2 by (by intros []).
  - unfold Types.EvmDataParameterConditionList_init,
      Types.validate_operator_enum_list.
    by rewrite bool_decide_eq_false_2 by (by intros []).
Qed.

Lemma mapM_round_trip {A B} (f : A → B) (g : B → result A) (l : list A) :
  Forall (λ x, g (f x) = Ok x) l → mapM g (map f l) = Ok l.
Proof.
  induction 1 as [|x l Hx _ IH]; simpl; [done|]. by rewrite Hx, IH.
Qed.

Lemma EvmDataCondition_round_trip cond :
  Types.EvmDataCondition_valid cond = true →
  Types.params cond ≠ Some [] →
  ResponseTransformer.condition_to_response
    (RequestTransformer.condition_to_openapi cond)
  = Ok cond.
Proof.
  destruct cond as [function [[|p ps]|]]; simpl; intros Hv Hne; try done.
  unfold ResponseTransformer.condition_to_response,
    RequestTransformer.condition_to_openapi. simpl.
  unfold Types.EvmDataCondition_valid in Hv. simpl in Hv.
  apply andb_prop in Hv as [Hp Hps].
  rewrite ParamCondition_init_valid by done. simpl.
  rewrite mapM_round_trip; [done|].
  apply forallb_true_Forall in Hps. eapply Forall_impl; [exact Hps|].
  intros p'. apply ParamCondition_init_valid.
Qed.

Lemma TypedCondition_round_trip cond :
  Types.TypedCondition_valid cond = true →
  ResponseTransformer.typed_condition_to_response
    (RequestTransformer.typed_condition_to_openapi cond)
  = Ok cond.
Proof.
  destruct cond as [addresses op path|value op path|match_ path]; simpl;
    unfold ResponseTransformer.typed_condition_to_response; simpl; [| |done].
  - intros [Ha Hop%bool_decide_eq_true]%andb_prop.
    unfold Types.EvmTypedAddressCondition_init.
    apply addresses_valid_checks in Ha.
    destruct (Types.validate_addresses_length addresses) as [v'|];
      simpl in *; [|discriminate].
    rewrite Ha. simpl. by rewrite literal_ok.
  - intros [Hd Hop%bool_decide_eq_true]%andb_prop.
    unfold Types.EvmTypedNumericalCondition_init, Types.validate_value.
    rewrite Hd. simpl. by rewrite literal_ok.
Qed.

(** A field definition with exactly the keys [name] and [type] survives the
    wire format. *)
Lemma field_dict_exact_inv d :
  field_dict_exact d = true →
  ∃ n t, d = {[ "name" := n; "type" := t ]}.
Proof.
  intros Hd%bool_decide_eq_true.
  assert (is_Some (d !! "name")) as [n Hn]
    by (apply elem_of_dom; rewrite Hd; set_solver).
  assert (is_Some (d !! "type")) as [t Ht]
    by (apply elem_of_dom; rewrite Hd; set_solver).
  exists n, t. apply map_eq. intros k.
  destruct (decide (k = "name")) as [->|Hk1];
    [by rewrite lookup_insert_eq|].
  rewrite lookup_insert_ne by done.
  destruct (decide (k = "type")) as [->|Hk2];
    [by rewrite lookup_singleton_eq|].
  rewrite lookup_singleton_ne by done.
  apply not_elem_of_dom. rewrite Hd.
  by intros [?%elem_of_singleton|?%elem_of_singleton]%elem_of_union.
Qed.

(** A comprehension over a [dict] that undoes, value by value, what was
    mapped over it. *)
Lemma dict_mapM_inverse {A B} (f : B → result A) (h : A → B) (a0 : A)
  (d : gmap str A) :
  map_Forall (λ _ v, f (h v) = Ok v) d → dict_mapM f (h <$> d) = Ok d.
Proof.
  intros Hd.
  set (g := λ b, match f b with Ok a => a | Raise _ => a0 end).
  rewrite (dict_mapM_ok f g).
  - f_equal. rewrite <- map_fmap_compose. rewrite <- (map_fmap_id d) at 2.
    apply map_fmap_ext. intros k v Hk. simpl. unfold g.
    by rewrite (Hd k v Hk).
  - intros k b Hk. apply lookup_fmap_Some in Hk as (v & <- & Hv).
    unfold g. by rewrite (Hd k v Hv).
Qed.

Lemma str_type_dict field (d : gmap str str) :
  dict_mapM (Types.str_type field) (Some <$> d) = Ok d.
Proof. by apply (dict_mapM_inverse _ Some (Str [])). Qed.

Lemma TypeField_round_trip d :
  field_dict_exact d = true →
  ResponseTransformer.dict_of_TypeField (OpenApi.TypeField_of_dict d)
  = Some <$> d.
Proof.
  intros (n & t & ->)%field_dict_exact_inv.
  unfold OpenApi.TypeField_of_dict, ResponseTransformer.dict_of_TypeField.
  cbn [OpenApi.field_name OpenApi.field_type].
  rewrite lookup_insert_eq, lookup_insert_ne by discriminate.
  rewrite lookup_singleton_eq.
  by rewrite fmap_insert, map_fmap_singleton.
Qed.

Lemma type_fields_round_trip field (fs : list (gmap str str)) :
  forallb field_dict_exact fs = true →
  mapM (dict_mapM (Types.str_type field))
    (map ResponseTransformer.dict_of_TypeField
       (map OpenApi.TypeField_of_dict fs))
  = Ok fs.
Proof.
  intros Hfs%forallb_true_Forall. rewrite map_map.
  apply mapM_round_trip. eapply Forall_impl; [exact Hfs|].
  intros d Hd. simpl. rewrite TypeField_round_trip by done.
  apply str_type_dict.
Qed.

Lemma types_round_trip (tys : gmap str (list (gmap str str))) primaryType :
  forallb (λ kv, forallb field_dict_exact kv.2) (map_to_list tys) = true →
  Types.SignEvmTypedDataTypes_init
    (map ResponseTransformer.dict_of_TypeField
       <$> (map OpenApi.TypeField_of_dict <$> tys)) primaryType
  = Ok (Types.mkSignEvmTypedDataTypes tys primaryType).
Proof.
  intros Hall%forallb_true_Forall. unfold Types.SignEvmTypedDataTypes_init.
  rewrite <- map_fmap_compose.
  rewrite (dict_mapM_inverse _ _ []); [done|].
  intros k fs Hk%elem_of_map_to_list.
  rewrite Forall_forall in Hall. specialize (Hall _ Hk). simpl in Hall.
  by apply type_fields_round_trip.
Qed.

(** ** Round trip: criteria *)

Lemma EthValueCriterion_init_valid v op :
  Types.Criterion_valid (Types.EthValueCriterion v op) = true →
  Types.EthValueCriterion_init v op = Ok (Types.EthValueCriterion v op).
Proof.
  simpl. intros [Hd Hop%bool_decide_eq_true]%andb_prop.
  unfold Types.EthValueCriterion_init, Types.validate_eth_value.
  rewrite Hd. simpl. by rewrite literal_ok.
Qed.

Lemma EvmAddressCriterion_init_valid addresses op :
  Types.Criterion_valid (Types.EvmAddressCriterion addresses op) = true →
  Types.EvmAddressCriterion_init addresses op
  = Ok (Types.EvmAddressCriterion addresses op).
Proof.
  simpl. intros [Ha Hop%bool_decide_eq_true]%andb_prop.
  rewrite EvmAddressCriterion_init_addresses_valid by done.
  by rewrite literal_ok.
Qed.

Lemma EvmNetworkCriterion_init_valid networks op :
  Types.Criterion_valid (Types.EvmNetworkCriterion networks op) = true →
  Types.EvmNetworkCriterion_init networks op
  = Ok (Types.EvmNetworkCriterion networks op).
Proof.
  simpl. intros [Hn%forallb_true_Forall Hop%bool_decide_eq_true]%andb_prop.
  unfold Types.EvmNetworkCriterion_init.
  rewrite literal_list_ok, literal_ok; [done..|].
  eapply Forall_impl; [exact Hn|]. intros n. apply bool_decide_eq_true_1.
Qed.

Lemma VerifyingContractCriterion_init_valid addresses op :
  Types.Criterion_valid
    (Types.SignEvmTypedDataVerifyingContractCriterion addresses op) = true →
  Types.SignEvmTypedDataVerifyingContractCriterion_init addresses op
  = Ok (Types.SignEvmTypedDataVerifyingContractCriterion addresses op).
Proof.
  simpl. intros [Ha Hop%bool_decide_eq_true]%andb_prop.
  unfold Types.SignEvmTypedDataVerifyingContractCriterion_init.
  apply addresses_valid_checks in Ha.
  destruct (Types.validate_addresses_length addresses) as [v'|];
    simpl in *; [|discriminate].
  rewrite Ha. simpl. by rewrite literal_ok.
Qed.

Lemma SolanaAddressCriterion_init_valid addresses op :
  Types.Criterion_valid (Types.SolanaAddressCriterion addresses op) = true →
  Types.SolanaAddressCriterion_init addresses op
  = Ok (Types.SolanaAddressCriterion addresses op).
Proof.
  simpl. intros [Ha Hop%bool_decide_eq_true]%andb_prop.
  unfold Types.SolanaAddressCriterion_init.
  rewrite validate_address_format_ok by done. simpl. by rewrite literal_ok.
Qed.

Lemma evmData_round_trip abi conditions :
  Types.Criterion_valid (Types.EvmDataCriterion abi conditions) = true →
  Criterion_lossless (Types.EvmDataCriterion abi conditions) = true →
  ResponseTransformer.evmData_constructor
    (OpenApi.EvmDataCriterion "evmData" (RequestTransformer.abi_to_openapi abi)
       (map RequestTransformer.condition_to_openapi conditions))
  = Ok (Types.EvmDataCriterion abi conditions).
Proof.
  simpl. intros Hv%forallb_true_Forall Hl%forallb_true_Forall.
  rewrite mapM_round_trip.
  - simpl. by destruct abi.
  - rewrite Forall_forall in Hv, Hl. apply Forall_forall. intros cond Hin.
    apply EvmDataCondition_round_trip; [by apply Hv|].
    specialize (Hl cond Hin). by apply bool_decide_eq_true in Hl.
Qed.

Lemma evmTypedDataField_round_trip tys conditions :
  Types.Criterion_valid (Types.SignEvmTypedDataFieldCriterion tys conditions)
  = true →
  Criterion_lossless (Types.SignEvmTypedDataFieldCriterion tys conditions)
  = true →
  ∃ w, RequestTransformer.evmTypedDataField_builder
         (Types.SignEvmTypedDataFieldCriterion tys conditions)
       = Ok (OpenApi.SignEvmTypedDataCriteriaInner w)
       ∧ OpenApi.type w = "evmTypedDataField"
       ∧ ResponseTransformer.evmTypedDataField_constructor w
         = Ok (Types.SignEvmTypedDataFieldCriterion tys conditions).
Proof.
  simpl. intros Hv%forallb_true_Forall Hl.
  eexists. split; [reflexivity|]. split; [reflexivity|].
  unfold ResponseTransformer.evmTypedDataField_constructor.
  cbn [OpenApi.types OpenApi.primary_type].
  rewrite types_round_trip by done. cbn [mbind result_bind].
  rewrite mapM_round_trip.
  - simpl. by destruct tys.
  - eapply Forall_impl; [exact Hv|]. apply TypedCondition_round_trip.
Qed.

(** A criterion of a class that the rule class admits is transformed, and
    transformed back to itself. *)
Lemma criterion_round_trip operation allowed builders constructors c :
  (operation, allowed) ∈ Types.rule_classes →
  RequestTransformer.openapi_criterion_mapping !! operation = Some builders →
  ResponseTransformer.response_criterion_mapping !! operation
  = Some constructors →
  allowed c = true →
  Types.Criterion_valid c = true → Criterion_lossless c = true →
  ∃ w, request_criterion builders operation c = Ok w
       ∧ response_criterion constructors w = Ok c.
Proof.
  intros Hcls Hreq Hresp Hal Hv Hl. unfold Types.rule_classes in Hcls.
  unfold RequestTransformer.openapi_criterion_mapping in Hreq.
  unfold ResponseTransformer.response_criterion_mapping in Hresp.
  repeat (apply elem_of_cons in Hcls as [[= -> ->]|Hcls]);
    [..|by apply elem_of_nil in Hcls];
    revert Hreq Hresp; table_lookup; intros [= <-] [= <-];
    destruct c; try discriminate Hal;
    unfold request_criterion, response_criterion; cbn [Types.type];
    table_lookup;
    try (eexists; split; [reflexivity|]; cbn [OpenApi.actual_instance
           OpenApi.criteria_inner_actual_instance OpenApi.type];
         table_lookup;
         first [ by apply EthValueCriterion_init_valid
               | by apply EvmAddressCriterion_init_valid
               | by apply EvmNetworkCriterion_init_valid
               | by apply evmData_round_trip
               | by apply VerifyingContractCriterion_init_valid
               | by apply SolanaAddressCriterion_init_valid
               | done ]).
  destruct (evmTypedDataField_round_trip _ _ Hv Hl) as (w & Hw & Hty & Hback).
  exists (OpenApi.SignEvmTypedDataCriteriaInner w). split; [done|].
  cbn [OpenApi.actual_instance OpenApi.criteria_inner_actual_instance].
  rewrite Hty. by table_lookup.
Qed.

(** ** Round trip: rules *)

Lemma existsb_true_elem {A} (p : A → bool) (l : list A) :
  existsb p l = true → ∃ x, x ∈ l ∧ p x = true.
Proof.
  induction l as [|y l IH]; simpl; [discriminate|].
  intros [Hy|(x & Hx & Hp)%IH]%orb_prop.
  - exists y. split; [by left|done].
  - exists x. split; [by right|done].
Qed.

Lemma mapM_there_and_back {A B} (f : A → result B) (g : B → result A) l :
  Forall (λ x, ∃ y, f x = Ok y ∧ g y = Ok x) l →
  ∃ k, mapM f l = Ok k ∧ mapM g k = Ok l.
Proof.
  induction 1 as [|x l (y & Hf & Hg) _ (k & Hk & Hl)]; [by exists []|].
  exists (y :: k). simpl. by rewrite Hf, Hk, Hg, Hl.
Qed.

Lemma rule_class_tables operation allowed :
  (operation, allowed) ∈ Types.rule_classes →
  ∃ builders constructors cls,
    RequestTransformer.openapi_criterion_mapping !! operation = Some builders
    ∧ RequestTransformer.openapi_rule_mapping !! operation = Some cls
    ∧ ResponseTransformer.response_criterion_mapping !! operation
      = Some constructors
    ∧ ResponseTransformer.response_rule_mapping !! operation
      = Some (Types.rule_with_criteria_init operation allowed).
Proof.
  intros Hcls. unfold Types.rule_classes in Hcls.
  unfold RequestTransformer.openapi_criterion_mapping,
    RequestTransformer.openapi_rule_mapping,
    ResponseTransformer.response_criterion_mapping,
    ResponseTransformer.response_rule_mapping.
  repeat (apply elem_of_cons in Hcls as [[= -> ->]|Hcls]);
    [..|by apply elem_of_nil in Hcls];
    do 3 eexists; table_lookup; done.
Qed.

(** Only the class of signEvmHash rules lacks the field [criteria]. *)
Lemma rule_cls_init_criteria rule_cls action operation criteria :
  rule_cls ≠ OpenApi.SignEvmHashRule →
  OpenApi.rule_cls_init rule_cls action operation criteria
  = OpenApi.mkRuleInstance rule_cls action operation criteria.
Proof. by destruct rule_cls. Qed.

Lemma rule_class_not_hash operation allowed rule_cls :
  (operation, allowed) ∈ Types.rule_classes →
  RequestTransformer.openapi_rule_mapping !! operation = Some rule_cls →
  rule_cls ≠ OpenApi.SignEvmHashRule.
Proof.
  intros Hcls. unfold Types.rule_classes in Hcls.
  unfold RequestTransformer.openapi_rule_mapping.
  repeat (apply elem_of_cons in Hcls as [[= -> ->]|Hcls]);
    [..|by apply elem_of_nil in Hcls];
    table_lookup; by intros [= <-].
Qed.

Lemma rule_with_criteria_init_valid operation allowed action cs :
  action ∈ Types.Action → forallb allowed cs = true →
  Types.rule_with_criteria_init operation allowed action (Some cs)
  = Ok (Types.mkRule action operation (Some cs)).
Proof.
  intros Ha Hcs. unfold Types.rule_with_criteria_init.
  rewrite literal_ok by done. simpl. by rewrite Hcs.
Qed.

Lemma rule_round_trip rule :
  Types.Rule_valid rule = true → Rule_lossless rule = true →
  ∃ w, request_rule rule = Ok w ∧ response_rule w = Ok rule.
Proof.
  destruct rule as [action operation [cs|]]; unfold Types.Rule_valid,
    Rule_lossless; cbn [Types.action Types.operation Types.criteria].
  - intros [Ha%bool_decide_eq_true [Hcls Hv]%andb_prop]%andb_prop Hl.
    apply existsb_true_elem in Hcls
      as ([op allowed] & Hcls & [->%bool_decide_eq_true Hal]%andb_prop).
    simpl in *.
    destruct (rule_class_tables _ _ Hcls)
      as (builders & constructors & cls & Hreq & Hcl & Hresp & Hrcl).
    destruct (mapM_there_and_back (request_criterion builders op)
                (response_criterion constructors) cs) as (ws & Hws & Hback).
    { apply forallb_true_Forall in Hal, Hv, Hl.
      rewrite Forall_forall in Hal, Hv, Hl. apply Forall_forall.
      intros c Hc. eapply criterion_round_trip; eauto. }
    unfold request_rule, response_rule. simpl.
    rewrite Hreq, Hcl, Hws. simpl. eexists. split; [reflexivity|].
    rewrite (rule_cls_init_criteria cls)
      by (by eapply rule_class_not_hash).
    simpl. rewrite Hresp, Hrcl, Hback. simpl.
    by apply rule_with_criteria_init_valid.
  - intros [Ha%bool_decide_eq_true ->%bool_decide_eq_true]%andb_prop _.
    unfold request_rule, response_rule. simpl.
    unfold RequestTransformer.openapi_criterion_mapping,
      RequestTransformer.openapi_rule_mapping. table_lookup.
    eexists. split; [reflexivity|]. simpl.
    unfold ResponseTransformer.response_criterion_mapping,
      ResponseTransformer.response_rule_mapping. table_lookup.
    unfold Types.SignEvmHashRule_init. by rewrite literal_ok.
Qed.

Lemma round_trip_valid rules :
  Forall (λ rule, Types.Rule_valid rule = true ∧ Rule_lossless rule = true)
         rules →
  round_trip rules = Ok rules.
Proof.
  intros Hall. unfold round_trip. rewrite to_wire_mapM.
  destruct (mapM_there_and_back request_rule response_rule rules)
    as (ws & Hws & Hback).
  { eapply Forall_impl; [exact Hall|]. intros rule [Hv Hl].
    by apply rule_round_trip. }
  rewrite Hws. simpl. by rewrite from_wire_mapM.
Qed.

(** ** C1: the round trip *)

(** The claim fails at a valid rule with an [evmData] condition whose
    parameter list is empty: the wire format has no parameters for it, and
    the rule that comes back has [None]; and at a valid rule with a field
    definition that has a key besides [name] and [type], which does not come
    back. *)
Lemma C1_round_trip_counterexample :
  (Types.Rule_valid empty_params_rule = true
   ∧ round_trip [empty_params_rule] = Ok [empty_params_rule_back]
   ∧ round_trip [empty_params_rule] ≠ Ok [empty_params_rule])
  ∧ (Types.Rule_valid extra_key_rule = true
     ∧ round_trip [extra_key_rule] = Ok [extra_key_rule_back]
     ∧ round_trip [extra_key_rule] ≠ Ok [extra_key_rule])
  ∧ ¬ (∀ rule, Types.Rule_valid rule = true → round_trip [rule] = Ok [rule]).
Proof.
  assert (round_trip [empty_params_rule] = Ok [empty_params_rule_back]) as H1
    by (vm_compute; reflexivity).
  assert (round_trip [extra_key_rule] = Ok [extra_key_rule_back]) as H2
    by (vm_compute; reflexivity).
  assert (Types.Rule_valid empty_params_rule = true) as Hv1
    by (vm_compute; reflexivity).
  assert (Types.Rule_valid extra_key_rule = true) as Hv2
    by (vm_compute; reflexivity).
  assert (round_trip [empty_params_rule] ≠ Ok [empty_params_rule]) as Hn1
    by (rewrite H1; discriminate).
  split; [exact (conj Hv1 (conj H1 Hn1))|].
  split; [split; [exact Hv2|split; [exact H2|]]|].
  - rewrite H2. discriminate.
  - intros Hall. exact (Hn1 (Hall _ Hv1)).
Qed.

(** C1, amended: for every valid rule of one of the six rule classes, with
    criteria of the classes its rule class admits, in which no [evmData]
    condition has an empty parameter list and every EIP-712 field definition
    has exactly the keys [name] and [type]: whenever transforming the rule to
    the wire format returns, transforming the returned wire rules back yields
    the rule.  (The wire classes refuse some valid rules, for which the
    request transformer raises.) *)
Theorem C1_round_trip :
  ∀ rule wire,
    Types.Rule_valid rule = true → Rule_lossless rule = true →
    to_wire [rule] = Ok wire →
    from_wire wire = Ok [rule] ∧ round_trip [rule] = Ok [rule].
Proof.
  intros rule wire Hv Hl Hwire.
  assert (round_trip [rule] = Ok [rule]) as Hround
    by (apply round_trip_valid; by repeat constructor).
  split; [|exact Hround].
  unfold round_trip in Hround. by rewrite Hwire in Hround.
Qed.

(** C1 at a sendEvmTransaction rule with one criterion of each class. *)
Lemma C1_round_trip_witness :
  from_wire
    [OpenApi.mkRule
       (OpenApi.mkRuleInstance OpenApi.SendEvmTransactionRule
          "reject" "sendEvmTransaction"
          (Some
             [OpenApi.SendEvmTransactionCriteriaInner
                (OpenApi.EthValueCriterion "1000000000000000000" ">"
                   "ethValue");
              OpenApi.SendEvmTransactionCriteriaInner
                (OpenApi.EvmAddressCriterion [example_address] "not in"
                   "evmAddress");
              OpenApi.SendEvmTransactionCriteriaInner
                (OpenApi.EvmNetworkCriterion ["base"; "base-sepolia"] "in"
                   "evmNetwork");
              OpenApi.SendEvmTransactionCriteriaInner
                (OpenApi.EvmDataCriterion "evmData"
                   (OpenApi.mkEvmDataCriterionAbi (Types.KnownAbiType "erc20"))
                   [OpenApi.mkEvmDataCondition "transfer"
                      (Some
                         [OpenApi.mkEvmDataConditionParamsInner
                            (OpenApi.EvmDataParameterCondition "value" "<="
                               "10");
                          OpenApi.mkEvmDataConditionParamsInner
                            (OpenApi.EvmDataParameterConditionList "to" "in"
                               [example_address])]);
                    OpenApi.mkEvmDataCondition "approve" None])]))]
  = Ok
    [Types.mkRule "reject" "sendEvmTransaction"
       (Some [Types.EthValueCriterion "1000000000000000000" ">";
              Types.EvmAddressCriterion [example_address] "not in";
              Types.EvmNetworkCriterion ["base"; "base-sepolia"] "in";
              Types.EvmDataCriterion (Types.KnownAbiType "erc20")
                [Types.mkEvmDataCondition "transfer"
                   (Some [Types.EvmDataParameterCondition "value" "<=" "10";
                          Types.EvmDataParameterConditionList "to" "in"
                            [example_address]]);
                 Types.mkEvmDataCondition "approve" None]])]
  ∧ round_trip
      [Types.mkRule "reject" "sendEvmTransaction"
         (Some [Types.EthValueCriterion "1000000000000000000" ">";
                Types.EvmAddressCriterion [example_address] "not in";
                Types.EvmNetworkCriterion ["base"; "base-sepolia"] "in";
                Types.EvmDataCriterion (Types.KnownAbiType "erc20")
                  [Types.mkEvmDataCondition "transfer"
                     (Some [Types.EvmDataParameterCondition "value" "<=" "10";
                            Types.EvmDataParameterConditionList "to" "in"
                              [example_address]]);
                   Types.mkEvmDataCondition "approve" None]])]
    = Ok
      [Types.mkRule "reject" "sendEvmTransaction"
         (Some [Types.EthValueCriterion "1000000000000000000" ">";
                Types.EvmAddressCriterion [example_address] "not in";
                Types.EvmNetworkCriterion ["base"; "base-sepolia"] "in";
                Types.EvmDataCriterion (Types.KnownAbiType "erc20")
                  [Types.mkEvmDataCondition "transfer"
                     (Some [Types.EvmDataParameterCondition "value" "<=" "10";
                            Types.EvmDataParameterConditionList "to" "in"
                              [example_address]]);
                   Types.mkEvmDataCondition "approve" None]])].
Proof.
  apply C1_round_trip; vm_compute; reflexivity.
Defined.

(** ** C9: the typed-data scenario *)

(** C9: a signEvmTypedData rule with one evmTypedDataField criterion whose
    conditions are an address condition (one well-formed address, operator
    "in", path "to") followed by a numerical condition (value "1000",
    operator "<", path "amount") is transformed to the wire rule with the
    address sub-variant first and the numerical sub-variant second, and that
    wire rule is transformed back to the original rule, for every action of
    the rule class and every type definitions with field definitions of
    exactly the keys [name] and [type]. *)
Theorem C9_typed_data_scenario :
  ∀ action address tys,
    action ∈ Types.Action →
    Py.match_evm_address address = true →
    forallb (λ kv, forallb field_dict_exact kv.2)
            (map_to_list (Types.types tys)) = true →
    ∃ wire_types,
      to_wire [typed_data_rule action address tys]
      = Ok [typed_data_wire action address
              (OpenApi.mkSignEvmTypedDataFieldCriterionTypes wire_types
                 (Types.primaryType tys))]
      ∧ from_wire [typed_data_wire action address
                     (OpenApi.mkSignEvmTypedDataFieldCriterionTypes wire_types
                        (Types.primaryType tys))]
        = Ok [typed_data_rule action address tys]
      ∧ round_trip [typed_data_rule action address tys]
        = Ok [typed_data_rule action address tys].
Proof.
  intros action address tys Ha Haddr Hexact.
  pose proof (types_round_trip _ (Types.primaryType tys) Hexact) as Hback.
  set (wire := map OpenApi.TypeField_of_dict <$> Types.types tys) in *.
  exists wire.
  assert (to_wire [typed_data_rule action address tys]
          = Ok [typed_data_wire action address
                  (OpenApi.mkSignEvmTypedDataFieldCriterionTypes wire
                     (Types.primaryType tys))]) as Hto.
  { rewrite to_wire_singleton. unfold request_rule, typed_data_rule.
    cbn [Types.operation Types.criteria Types.action].
    unfold RequestTransformer.openapi_criterion_mapping,
      RequestTransformer.openapi_rule_mapping. table_lookup.
    cbn [mapM]. unfold request_criterion. cbn [Types.type]. table_lookup.
    reflexivity. }
  assert (from_wire [typed_data_wire action address
                       (OpenApi.mkSignEvmTypedDataFieldCriterionTypes wire
                          (Types.primaryType tys))]
          = Ok [typed_data_rule action address tys]) as Hfrom.
  { rewrite from_wire_singleton. unfold response_rule, typed_data_wire.
    cbn [OpenApi.actual_instance OpenApi.rule_actual_instance
         OpenApi.operation OpenApi.criteria OpenApi.action].
    unfold ResponseTransformer.response_criterion_mapping,
      ResponseTransformer.response_rule_mapping. table_lookup.
    cbn [mapM]. unfold response_criterion.
    cbn [OpenApi.actual_instance OpenApi.criteria_inner_actual_instance
         OpenApi.type]. table_lookup.
    unfold ResponseTransformer.evmTypedDataField_constructor.
    cbn [mapM]. unfold ResponseTransformer.typed_condition_to_response.
    cbn [OpenApi.actual_instance OpenApi.conditions_inner_actual_instance].
    unfold Types.EvmTypedAddressCondition_init.
    rewrite validate_addresses_length_ok by (simpl; lia).
    cbn [mbind result_bind].
    rewrite validate_addresses_format_ok by (simpl; by rewrite Haddr).
    cbn [mbind result_bind]. rewrite literal_ok by list_member.
    cbn [mbind result_bind mret result_ret].
    change (Types.EvmTypedNumericalCondition_init "1000" "<" "amount")
      with (Ok (Types.EvmTypedNumericalCondition "1000" "<" "amount")).
    cbn [OpenApi.types OpenApi.primary_type].
    rewrite Hback. cbn [mbind result_bind mret result_ret].
    unfold Types.SignEvmTypedDataRule_init.
    rewrite rule_with_criteria_init_valid by done.
    destruct tys; reflexivity. }
  split; [done|]. split; [done|].
  unfold round_trip. rewrite Hto. exact Hfrom.
Qed.

(** C9 at the action "accept", the example address and the type definitions
    of a transfer. *)
Lemma C9_typed_data_scenario_witness :
  ∃ wire_types,
    to_wire [typed_data_rule "accept" example_address example_types]
    = Ok [typed_data_wire "accept" example_address
            (OpenApi.mkSignEvmTypedDataFieldCriterionTypes wire_types
               (Types.primaryType example_types))]
    ∧ from_wire [typed_data_wire "accept" example_address
                   (OpenApi.mkSignEvmTypedDataFieldCriterionTypes wire_types
                      (Types.primaryType example_types))]
      = Ok [typed_data_rule "accept" example_address example_types]
    ∧ round_trip [typed_data_rule "accept" example_address example_types]
      = Ok [typed_data_rule "accept" example_address example_types].
Proof.
  apply C9_typed_data_scenario; [list_member|vm_compute; reflexivity..].
Defined.

(** * Further properties *)

(** ** What the response transformer can raise *)

Lemma literal_raise_inv field allowed v e :
  Types.literal field allowed v = Raise e → is_model_error e = true.
Proof. unfold Types.literal. case_bool_decide; [discriminate|]. by intros [= <-]. Qed.

Lemma literal_list_raise_inv field allowed v e :
  Types.literal_list field allowed v = Raise e → is_model_error e = true.
Proof.
  induction v as [|x v IH]; simpl; [done|].
  destruct (Types.literal field allowed x) eqn:Hx; simpl.
  - destruct (Types.literal_list field allowed v); simpl; [done|].
    intros [= <-]. by apply IH.
  - intros [= <-]. by eapply literal_raise_inv.
Qed.

Lemma validate_addresses_format_loop_raise_inv v e :
  Types.validate_addresses_format_loop v = Raise e → is_model_error e = true.
Proof.
  induction v as [|a v IH]; simpl; [discriminate|].
  destruct (Py.match_evm_address a); simpl; [exact IH|]. by intros [= <-].
Qed.

Lemma validate_addresses_raise_inv v e :
  (v' ← Types.validate_addresses_length v; Types.validate_addresses_format v')
  = Raise e → is_model_error e = true.
Proof.
  unfold Types.validate_addresses_length. case_bool_decide; simpl.
  - by intros [= <-].
  - unfold Types.validate_addresses_format.
    destruct (Types.validate_addresses_format_loop v) eqn:Hl; simpl;
      [discriminate|].
    intros [= <-]. by eapply validate_addresses_format_loop_raise_inv.
Qed.

Lemma validate_address_format_loop_raise_inv v e :
  Types.validate_address_format_loop v = Raise e → is_model_error e = true.
Proof.
  induction v as [|a v IH]; simpl; [discriminate|].
  destruct (Py.match_sol_address a); simpl; [exact IH|]. by intros [= <-].
Qed.

Lemma validate_address_format_raise_inv v e :
  Types.validate_address_format v = Raise e → is_model_error e = true.
Proof.
  unfold Types.validate_address_format.
  destruct (Types.validate_address_format_loop v) eqn:Hl; simpl;
    [discriminate|].
  intros [= <-]. by eapply validate_address_format_loop_raise_inv.
Qed.

(** Construction of a model raises nothing but a [ValidationError]. *)
Lemma EthValueCriterion_init_raise_inv v op e :
  Types.EthValueCriterion_init v op = Raise e → is_model_error e = true.
Proof.
  unfold Types.EthValueCriterion_init, Types.validate_eth_value.
  destruct (Py.isdigit v); simpl; [|by intros [= <-]].
  destruct (Types.literal _ _ op) eqn:Hl; simpl; [done|].
  intros [= <-]. by eapply literal_raise_inv.
Qed.

Lemma addresses_init_raise_inv {A} (mk : list str → str → A) addresses op e :
  (v ← Types.validate_addresses_length addresses;
   v ← Types.validate_addresses_format v;
   op' ← Types.literal "operator" ["in"; "not in"] op;
   mret (mk v op')) = Raise e →
  is_model_error e = true.
Proof.
  pose proof (validate_addresses_raise_inv addresses) as Hv.
  destruct (Types.validate_addresses_length addresses) as [v|e1];
    simpl in *; [|intros [= <-]; by apply Hv].
  destruct (Types.validate_addresses_format v) as [v'|e2];
    simpl in *; [|intros [= <-]; by apply Hv].
  destruct (Types.literal _ _ op) eqn:Hl; simpl; [done|].
  intros [= <-]. by eapply literal_raise_inv.
Qed.

Lemma EvmNetworkCriterion_init_raise_inv networks op e :
  Types.EvmNetworkCriterion_init networks op = Raise e →
  is_model_error e = true.
Proof.
  unfold Types.EvmNetworkCriterion_init.
  destruct (Types.literal_list _ _ networks) eqn:Hn; simpl.
  - destruct (Types.literal _ _ op) eqn:Hl; simpl; [done|].
    intros [= <-]. by eapply literal_raise_inv.
  - intros [= <-]. by eapply literal_list_raise_inv.
Qed.

Lemma SolanaAddressCriterion_init_raise_inv addresses op e :
  Types.SolanaAddressCriterion_init addresses op = Raise e →
  is_model_error e = true.
Proof.
  unfold Types.SolanaAddressCriterion_init.
  destruct (Types.validate_address_format addresses) eqn:Hn; simpl.
  - destruct (Types.literal _ _ op) eqn:Hl; simpl; [done|].
    intros [= <-]. by eapply literal_raise_inv.
  - intros [= <-]. by eapply validate_address_format_raise_inv.
Qed.

Lemma param_to_response_raise_inv p e :
  ResponseTransformer.param_to_response p = Raise e → is_model_error e = true.
Proof.
  unfold ResponseTransformer.param_to_response.
  destruct (OpenApi.actual_instance p) as [name op value|name op values].
  - unfold Types.EvmDataParameterCondition_init, Types.validate_operator_enum.
    case_bool_decide; simpl; [by intros [= <-]|done].
  - unfold Types.EvmDataParameterConditionList_init,
      Types.validate_operator_enum_list.
    case_bool_decide; simpl; [by intros [= <-]|done].
Qed.

Lemma condition_to_response_raise_inv cond e :
  ResponseTransformer.condition_to_response cond = Raise e →
  is_model_error e = true.
Proof.
  unfold ResponseTransformer.condition_to_response.
  destruct (Py.truthy (OpenApi.params cond)); simpl; [|done].
  destruct (mapM _ _) as [ps|e'] eqn:Hm; simpl; [done|].
  intros [= <-]. apply mapM_result_raise_inv in Hm as (p & _ & Hp).
  by eapply param_to_response_raise_inv.
Qed.

Lemma typed_condition_to_response_raise_inv cond e :
  ResponseTransformer.typed_condition_to_response cond = Raise e →
  is_model_error e = true.
Proof.
  unfold ResponseTransformer.typed_condition_to_response.
  destruct (OpenApi.actual_instance cond) as [addresses op path|v op path|m path];
    [| |done].
  - apply addresses_init_raise_inv.
  - unfold Types.EvmTypedNumericalCondition_init, Types.validate_value.
    destruct (Py.isdigit v); simpl; [|by intros [= <-]].
    destruct (Types.literal _ _ op) eqn:Hl; simpl; [done|].
    intros [= <-]. by eapply literal_raise_inv.
Qed.

Lemma SignEvmTypedDataTypes_init_raise_inv types primaryType e :
  Types.SignEvmTypedDataTypes_init types primaryType = Raise e →
  is_model_error e = true.
Proof.
  unfold Types.SignEvmTypedDataTypes_init.
  destruct (dict_mapM _ types) as [tys|e'] eqn:Hd; simpl; [discriminate|].
  intros [= ->]. apply dict_mapM_raise_inv in Hd as (fs & Hfs).
  apply mapM_result_raise_inv in Hfs as (d & _ & Hd).
  apply dict_mapM_raise_inv in Hd as ([v|] & Hv); simpl in Hv;
    [discriminate|]. by injection Hv as <-.
Qed.

Lemma response_constructors_model_error operation type construct c e :
  (operation, type, construct) ∈ response_entries →
  construct c = Raise e → is_model_error e = true.
Proof.
  intros Hin%response_entries_cases.
  repeat (apply elem_of_cons in Hin as [[= -> -> ->]|Hin]);
    [..|by apply elem_of_nil in Hin];
    first
      [ destruct c; simpl; try (by intros [= <-]);
        solve [ apply EthValueCriterion_init_raise_inv
              | apply EvmNetworkCriterion_init_raise_inv
              | done ]
      | unfold ResponseTransformer.evmAddress_constructor,
          ResponseTransformer.evmTypedDataVerifyingContract_constructor,
          ResponseTransformer.solAddress_constructor;
        destruct (ResponseTransformer.addresses_operator c) as [[a o]|e']
          eqn:Hao; simpl;
          [ first [ apply (addresses_init_raise_inv Types.EvmAddressCriterion)
                  | apply (addresses_init_raise_inv
                             Types.SignEvmTypedDataVerifyingContractCriterion)
                  | apply SolanaAddressCriterion_init_raise_inv ]
          | intros [= <-]; destruct c; simpl in Hao; by simplify_eq ]
      | idtac ].
  - destruct c; simpl; try (by intros [= <-]).
    destruct (mapM _ _) as [conds|e'] eqn:Hm; simpl; [done|].
    intros [= <-]. apply mapM_result_raise_inv in Hm as (cond & _ & Hc).
    by eapply condition_to_response_raise_inv.
  - destruct c; simpl; try (by intros [= <-]).
    destruct (mapM _ _) as [conds|e'] eqn:Hm; simpl; [done|].
    intros [= <-]. apply mapM_result_raise_inv in Hm as (cond & _ & Hc).
    by eapply condition_to_response_raise_inv.
  - destruct c; simpl; try (by intros [= <-]).
    destruct (Types.SignEvmTypedDataTypes_init _ _) as [tys|e'] eqn:Ht; simpl.
    + destruct (mapM _ _) as [conds|e''] eqn:Hm; simpl; [done|].
      intros [= <-]. apply mapM_result_raise_inv in Hm as (cond & _ & Hc).
      by eapply typed_condition_to_response_raise_inv.
    + intros [= <-]. by eapply SignEvmTypedDataTypes_init_raise_inv.
Qed.

Lemma response_rule_class_raise_inv operation rule_class action criteria e :
  ResponseTransformer.response_rule_mapping !! operation = Some rule_class →
  rule_class action criteria = Raise e → is_model_error e = true.
Proof.
  intros Hcls. unfold ResponseTransformer.response_rule_mapping in Hcls.
  table_inv Hcls;
    unfold Types.SendEvmTransactionRule_init, Types.SignEvmTransactionRule_init,
      Types.SignEvmMessageRule_init, Types.SignEvmTypedDataRule_init,
      Types.SignSolanaTransactionRule_init, Types.rule_with_criteria_init,
      Types.SignEvmHashRule_init;
    (destruct (Types.literal "action" Types.Action action) eqn:Hl; simpl;
     [|intros [= <-]; by eapply literal_raise_inv]);
    try discriminate;
    destruct criteria as [cs|]; try (by intros [= <-]);
    destruct (forallb _ cs); first [discriminate | by intros [= <-]].
Qed.

Lemma response_criterion_raise_inv constructors operation wrapper e :
  ResponseTransformer.response_criterion_mapping !! operation
  = Some constructors →
  response_criterion constructors wrapper = Raise e →
  ((OpenApi.type (OpenApi.actual_instance wrapper) ∉ legality_table operation)
   ∧ e = ResponseTransformer.unknown_criterion_type
           (OpenApi.type (OpenApi.actual_instance wrapper)))
  ∨ (OpenApi.type (OpenApi.actual_instance wrapper) ∈ legality_table operation
     ∧ is_model_error e = true).
Proof.
  intros Hop. unfold response_criterion. cbv zeta.
  destruct (constructors !! _) as [construct|] eqn:Hty.
  - intros He. right.
    assert ((operation, OpenApi.type (OpenApi.actual_instance wrapper),
             construct) ∈ response_entries) as Hin
      by (apply response_entries_spec; eauto).
    split; [apply legality_table_response; eauto|].
    by eapply response_constructors_model_error.
  - intros [= <-]. left. split; [|done].
    intros [construct Hin%response_entries_spec]%legality_table_response.
    destruct Hin as (constructors' & Hop' & Hty').
    rewrite Hop in Hop'. injection Hop' as <-. rewrite Hty in Hty'.
    discriminate.
Qed.

Lemma response_rule_raise_inv rule e :
  response_rule rule = Raise e →
  ((OpenApi.operation (OpenApi.actual_instance rule) ∉ supported_operations)
   ∧ e = ResponseTransformer.unknown_operation
           (OpenApi.operation (OpenApi.actual_instance rule)))
  ∨ (OpenApi.operation (OpenApi.actual_instance rule) ∈ supported_operations
     ∧ ((∃ wrappers wrapper,
           OpenApi.criteria (OpenApi.actual_instance rule) = Some wrappers
           ∧ wrapper ∈ wrappers
           ∧ (OpenApi.type (OpenApi.actual_instance wrapper)
                ∉ legality_table
                    (OpenApi.operation (OpenApi.actual_instance rule)))
           ∧ e = ResponseTransformer.unknown_criterion_type
                   (OpenApi.type (OpenApi.actual_instance wrapper)))
        ∨ is_model_error e = true)).
Proof.
  unfold response_rule. cbv zeta.
  destruct (ResponseTransformer.response_criterion_mapping !! _)
    as [constructors|] eqn:Hop.
  - assert (OpenApi.operation (OpenApi.actual_instance rule)
              ∈ supported_operations) as Hs
      by (apply response_mapping_supported; eauto).
    destruct (response_rule_mapping_supported _ Hs) as [cls Hcls].
    rewrite Hcls. intros He. right. split; [done|].
    destruct (OpenApi.criteria _) as [wrappers|].
    + destruct (mapM _ wrappers) as [cs|e'] eqn:Hm; simpl in He.
      * right. by eapply response_rule_class_raise_inv.
      * injection He as ->.
        apply mapM_result_raise_inv in Hm as (wrapper & Hin & Hw).
        eapply response_criterion_raise_inv in Hw as [[Hn ->]|[_ Hv]];
          [|by right|done].
        left. by exists wrappers, wrapper.
    + right. by eapply response_rule_class_raise_inv.
  - intros [= <-]. left. split; [|done].
    intros Hs%response_mapping_supported. rewrite Hop in Hs. by destruct Hs.
Qed.

(** ** The response transformer on unknown tags *)

Lemma response_rule_illegal_criterion rule before wrapper after built :
  OpenApi.operation (OpenApi.actual_instance rule) ∈ supported_operations →
  OpenApi.criteria (OpenApi.actual_instance rule)
  = Some (before ++ wrapper :: after) →
  (∃ constructors,
     ResponseTransformer.response_criterion_mapping
       !! OpenApi.operation (OpenApi.actual_instance rule) = Some constructors
     ∧ mapM (response_criterion constructors) before = Ok built) →
  OpenApi.type (OpenApi.actual_instance wrapper)
    ∉ legality_table (OpenApi.operation (OpenApi.actual_instance rule)) →
  response_rule rule
  = Raise (ResponseTransformer.unknown_criterion_type
             (OpenApi.type (OpenApi.actual_instance wrapper))).
Proof.
  intros Hs Hcs (constructors & Hop & Hbefore) Hn.
  unfold response_rule. cbv zeta.
  destruct (response_rule_mapping_supported _ Hs) as [cls Hcls].
  rewrite Hop, Hcls, Hcs.
  erewrite mapM_result_first_raise; [done..|].
  by eapply response_criterion_illegal.
Qed.

(** X1: applied to a wire rule whose operation is none of the six supported
    ones (the loop reaches it), the response transformer raises the
    ValueError "Unknown operation" followed by the operation; on wire rules
    with supported operations only it never raises that error. *)
Theorem X1_response_unknown_operation :
  (∀ done built rule todo,
     from_wire done = Ok built →
     OpenApi.operation (OpenApi.actual_instance rule) ∉ supported_operations →
     from_wire (done ++ rule :: todo)
     = Raise (ValueError ("Unknown operation "
                          +++ OpenApi.operation (OpenApi.actual_instance rule))))
  ∧ (∀ rules e,
       Forall (λ rule, OpenApi.operation (OpenApi.actual_instance rule)
                         ∈ supported_operations) rules →
       from_wire rules = Raise e → ¬ UnknownOperation e).
Proof.
  split.
  - intros done built rule todo Hdone Hop.
    eapply from_wire_first_raise; [done|].
    by apply response_rule_unknown_operation.
  - intros rules e Hall Hraise Hu. rewrite from_wire_mapM in Hraise.
    apply mapM_result_raise_inv in Hraise as (rule & Hin & Hr).
    rewrite Forall_forall in Hall. specialize (Hall rule Hin).
    apply response_rule_raise_inv in Hr as [[Hn _]|[_ Hc]]; [done|].
    destruct Hc as [(ws & w & _ & _ & _ & ->)|Hv].
    + eapply UnknownOperation_not_UnknownCriterionType; [done|].
      apply response_unknown_criterion_type_is_UnknownCriterionType.
    + apply UnknownOperation_is_ValueError in Hu. by destruct e.
Qed.

(** X1 at a wire rule of operation "sendSolTransaction" after a signEvmHash
    rule, and at a list that fails for a criterion type. *)
Lemma X1_response_unknown_operation_witness :
  from_wire ([OpenApi.mkRule (OpenApi.mkRuleInstance OpenApi.SignEvmHashRule
                                "accept" "signEvmHash" None)]
             ++ OpenApi.mkRule (OpenApi.mkRuleInstance OpenApi.SignEvmHashRule
                                  "accept" "sendSolTransaction" None)
             :: [])
  = Raise (ValueError "Unknown operation sendSolTransaction")
  ∧ ¬ UnknownOperation (ValueError "Unknown criterion type solValue").
Proof.
  destruct X1_response_unknown_operation as [Ha Hb]. split.
  - eapply (Ha _ _ (OpenApi.mkRule (OpenApi.mkRuleInstance
                      OpenApi.SignEvmHashRule "accept" "sendSolTransaction"
                      None))).
    + reflexivity.
    + simpl. unfold supported_operations.
      rewrite !elem_of_cons, elem_of_nil. intros H.
      repeat destruct H as [H|H]; try discriminate H. exact H.
  - apply (Hb [OpenApi.mkRule
                 (OpenApi.mkRuleInstance OpenApi.SignSolTransactionRule
                    "accept" "signSolTransaction"
                    (Some [OpenApi.SignSolTransactionCriteriaInner
                             (OpenApi.EthValueCriterion "1" ">" "solValue")]))]).
    + repeat constructor; simpl; unfold supported_operations; list_member.
    + reflexivity.
Defined.

(** X2: applied to a wire rule of a supported operation with a criterion
    whose type is not a key of that operation's table (the loops reach it),
    the response transformer raises the ValueError "Unknown criterion type"
    followed by the type alone; when every criterion has a type of its
    operation's table it never raises that error. *)
Theorem X2_response_unknown_criterion_type :
  (∀ done built rule before wrapper after built_before todo,
     from_wire done = Ok built →
     OpenApi.operation (OpenApi.actual_instance rule) ∈ supported_operations →
     OpenApi.criteria (OpenApi.actual_instance rule)
     = Some (before ++ wrapper :: after) →
     from_wire [OpenApi.mkRule
                  (OpenApi.mkRuleInstance
                     (OpenApi.rule_cls (OpenApi.actual_instance rule))
                     (OpenApi.action (OpenApi.actual_instance rule))
                     (OpenApi.operation (OpenApi.actual_instance rule))
                     (Some before))] = Ok built_before →
     OpenApi.type (OpenApi.actual_instance wrapper)
       ∉ legality_table (OpenApi.operation (OpenApi.actual_instance rule)) →
     from_wire (done ++ rule :: todo)
     = Raise (ValueError ("Unknown criterion type "
                          +++ OpenApi.type (OpenApi.actual_instance wrapper))))
  ∧ (∀ rules e,
       Forall (λ rule, ∀ wrappers,
                 OpenApi.criteria (OpenApi.actual_instance rule) = Some wrappers →
                 Forall (λ w, OpenApi.type (OpenApi.actual_instance w)
                                ∈ legality_table
                                    (OpenApi.operation
                                       (OpenApi.actual_instance rule)))
                        wrappers)
              rules →
       from_wire rules = Raise e → ¬ UnknownCriterionType e).
Proof.
  split.
  - intros done built rule before wrapper after built_before todo
      Hdone Hs Hcs Hbefore Hn.
    eapply from_wire_first_raise; [done|].
    rewrite from_wire_singleton in Hbefore.
    unfold response_rule in Hbefore. cbv zeta in Hbefore.
    cbn [OpenApi.actual_instance OpenApi.rule_actual_instance
         OpenApi.operation OpenApi.criteria OpenApi.action] in Hbefore.
    destruct (proj1 (response_mapping_supported _) Hs) as [constructors Hop].
    destruct (response_rule_mapping_supported _ Hs) as [cls Hcls].
    rewrite Hop, Hcls in Hbefore.
    destruct (mapM (response_criterion constructors) before) as [cs|] eqn:Hm;
      [|discriminate].
    eapply response_rule_illegal_criterion; eauto.
  - intros rules e Hall Hraise Hu. rewrite from_wire_mapM in Hraise.
    apply mapM_result_raise_inv in Hraise as (rule & Hin & Hr).
    rewrite Forall_forall in Hall. specialize (Hall rule Hin).
    apply response_rule_raise_inv in Hr as [[_ ->]|[_ Hc]].
    + eapply UnknownOperation_not_UnknownCriterionType; [|done].
      by eexists.
    + destruct Hc as [(ws & w & Hws & Hw & Hn & _)|Hv].
      * specialize (Hall ws Hws). rewrite Forall_forall in Hall.
        by apply Hn, Hall.
      * apply UnknownCriterionType_is_ValueError in Hu. by destruct e.
Qed.

(** X2 at a signSolTransaction wire rule whose second criterion has the type
    "mintAddress". *)
Lemma X2_response_unknown_criterion_type_witness :
  from_wire ([] ++ OpenApi.mkRule
               (OpenApi.mkRuleInstance OpenApi.SignSolTransactionRule
                  "accept" "signSolTransaction"
                  (Some ([OpenApi.SignSolTransactionCriteriaInner
                            (OpenApi.SolAddressCriterion [] "in" "solAddress")]
                         ++ OpenApi.SignSolTransactionCriteriaInner
                              (OpenApi.SolAddressCriterion [] "in" "mintAddress")
                         :: [])))
             :: [])
  = Raise (ValueError "Unknown criterion type mintAddress")
  ∧ ¬ UnknownCriterionType (ValueError "Unknown operation swap").
Proof.
  destruct X2_response_unknown_criterion_type as [Ha Hb]. split.
  - refine (Ha [] _ (OpenApi.mkRule (OpenApi.mkRuleInstance _ _ _ _))
               [OpenApi.SignSolTransactionCriteriaInner
                  (OpenApi.SolAddressCriterion [] "in" "solAddress")]
               (OpenApi.SignSolTransactionCriteriaInner
                  (OpenApi.SolAddressCriterion [] "in" "mintAddress"))
               [] _ [] _ _ _ _ _).
    + reflexivity.
    + simpl. unfold supported_operations. list_member.
    + reflexivity.
    + reflexivity.
    + simpl.
      change (legality_table "signSolTransaction") with (["solAddress"] : list str).
      rewrite !elem_of_cons, elem_of_nil. intros H.
      repeat destruct H as [H|H]; try discriminate H. exact H.
  - apply (Hb [OpenApi.mkRule (OpenApi.mkRuleInstance OpenApi.SignEvmHashRule
                                 "accept" "swap" None)]).
    + repeat constructor. simpl. discriminate.
    + reflexivity.
Defined.

(** ** The tables agree, and what the calls can raise *)

(** A constructor of the request table, applied to a criterion of the class
    whose tag is its key, finds the attributes it reads. *)
Lemma request_builder_on_its_class operation build c e :
  (operation, Types.type c, build) ∈ request_entries →
  build c = Raise e → is_ValidationError e.
Proof.
  intros Hin%request_entries_cases.
  repeat (apply elem_of_cons in Hin as [[= -> Hty ->]|Hin]);
    [..|by apply elem_of_nil in Hin];
    destruct c; try discriminate Hty; simpl; discriminate.
Qed.

Lemma request_rule_raise_kinds rule e :
  request_rule rule = Raise e →
  UnknownOperation e ∨ UnknownCriterionType e ∨ is_ValidationError e.
Proof.
  unfold request_rule.
  destruct (RequestTransformer.openapi_criterion_mapping !! _)
    as [builders|] eqn:Hop.
  - assert (Types.operation rule ∈ supported_operations) as Hs
      by (apply request_mapping_supported; eauto).
    destruct (request_rule_mapping_supported _ Hs) as [cls ->].
    destruct (Types.criteria rule) as [cs|]; [|discriminate].
    destruct (mapM _ cs) as [ws|e'] eqn:Hm; simpl; [discriminate|].
    intros [= ->]. apply mapM_result_raise_inv in Hm as (c & Hc & He).
    unfold request_criterion in He.
    destruct (builders !! Types.type c) as [build|] eqn:Hty.
    + right. right. eapply (request_builder_on_its_class _ build c); [|done].
      apply request_entries_spec. eauto.
    + injection He as <-. right. left.
      apply unknown_criterion_type_is_UnknownCriterionType.
  - intros [= <-]. left. apply unknown_operation_is_UnknownOperation.
Qed.

Lemma model_error_cases e :
  is_model_error e = true → is_ValidationError e ∨ ∃ attr, e = AttributeError attr.
Proof. destruct e; try discriminate; intros _; [left|right]; eauto.
  by do 2 eexists. Qed.

Lemma response_rule_raise_kinds rule e :
  response_rule rule = Raise e →
  UnknownOperation e ∨ UnknownCriterionType e ∨ is_ValidationError e
  ∨ ∃ attr, e = AttributeError attr.
Proof.
  intros [[_ ->]|[_ [(ws & w & _ & _ & _ & ->)|Hm]]]%response_rule_raise_inv.
  - left. by eexists.
  - right. left. apply response_unknown_criterion_type_is_UnknownCriterionType.
  - right. right. by apply model_error_cases.
Qed.

(** X3: the four dispatch tables have the six supported operations as their
    keys, and for each operation the request and the response criterion
    tables have the same criterion types as keys. *)
Theorem X3_tables_agree :
  (∀ operation,
     (is_Some (RequestTransformer.openapi_criterion_mapping !! operation)
      ↔ operation ∈ supported_operations)
     ∧ (is_Some (RequestTransformer.openapi_rule_mapping !! operation)
        ↔ operation ∈ supported_operations)
     ∧ (is_Some (ResponseTransformer.response_criterion_mapping !! operation)
        ↔ operation ∈ supported_operations)
     ∧ (is_Some (ResponseTransformer.response_rule_mapping !! operation)
        ↔ operation ∈ supported_operations))
  ∧ (∀ operation builders constructors type,
       RequestTransformer.openapi_criterion_mapping !! operation
       = Some builders →
       ResponseTransformer.response_criterion_mapping !! operation
       = Some constructors →
       is_Some (builders !! type) ↔ is_Some (constructors !! type)).
Proof.
  assert (∀ operation, operation ∉ supported_operations →
            RequestTransformer.openapi_rule_mapping !! operation = None
            ∧ ResponseTransformer.response_rule_mapping !! operation = None)
    as Hrule.
  { intros operation Hn.
    unfold RequestTransformer.openapi_rule_mapping,
      ResponseTransformer.response_rule_mapping.
    split;
      repeat (rewrite lookup_insert_ne;
              [|intros <-; apply Hn; unfold supported_operations; list_member]);
      apply lookup_singleton_ne;
      intros <-; apply Hn; unfold supported_operations; list_member. }
  split.
  - intros operation. repeat split.
    + apply request_mapping_supported.
    + apply request_mapping_supported.
    + intros [x Hx]. destruct (decide (operation ∈ supported_operations));
        [done|]. destruct (Hrule operation) as [H _]; [done|]. congruence.
    + apply request_rule_mapping_supported.
    + apply response_mapping_supported.
    + apply response_mapping_supported.
    + intros [x Hx]. destruct (decide (operation ∈ supported_operations));
        [done|]. destruct (Hrule operation) as [_ H]; [done|]. congruence.
    + apply response_rule_mapping_supported.
  - intros operation builders constructors type Hreq Hresp.
    transitivity (type ∈ legality_table operation).
    + rewrite legality_table_request. split.
      * intros [build Hb]. exists build. apply request_entries_spec. eauto.
      * intros [build (builders' & Hop & Hty)%request_entries_spec].
        rewrite Hreq in Hop. injection Hop as <-. eauto.
    + rewrite legality_table_response. split.
      * intros [c (constructors' & Hop & Hty)%response_entries_spec].
        rewrite Hresp in Hop. injection Hop as <-. eauto.
      * intros [c Hc]. exists c. apply response_entries_spec. eauto.
Qed.

(** X3 at the operation signEvmTypedData and the type evmTypedDataField. *)
Lemma X3_tables_agree_witness :
  is_Some (({[ "evmTypedDataField" := RequestTransformer.evmTypedDataField_builder;
               "evmTypedDataVerifyingContract" :=
                 RequestTransformer.evmTypedDataVerifyingContract_builder ]}
            : gmap str RequestTransformer.builder) !! "evmTypedDataField")
  ↔ is_Some (({[ "evmTypedDataField" :=
                   ResponseTransformer.evmTypedDataField_constructor;
                 "evmTypedDataVerifyingContract" :=
                   ResponseTransformer.evmTypedDataVerifyingContract_constructor ]}
              : gmap str ResponseTransformer.constructor) !! "evmTypedDataField").
Proof.
  apply (proj2 X3_tables_agree "signEvmTypedData"); reflexivity.
Defined.

(** X4: whatever the request transformer raises is the unknown-operation
    error, the unknown-criterion-type error or a ValidationError: no
    attribute read and no subscript of a table fails; and whatever the
    response transformer raises is one of these or an AttributeError: no
    subscript of a table fails. *)
Theorem X4_error_kinds :
  (∀ rules e,
     to_wire rules = Raise e →
     UnknownOperation e ∨ UnknownCriterionType e ∨ is_ValidationError e)
  ∧ (∀ rules e,
       from_wire rules = Raise e →
       UnknownOperation e ∨ UnknownCriterionType e ∨ is_ValidationError e
       ∨ ∃ attr, e = AttributeError attr).
Proof.
  split; intros rules e He.
  - rewrite to_wire_mapM in He.
    apply mapM_result_raise_inv in He as (rule & _ & Hr).
    by eapply request_rule_raise_kinds.
  - rewrite from_wire_mapM in He.
    apply mapM_result_raise_inv in He as (rule & _ & Hr).
    by eapply response_rule_raise_kinds.
Qed.

(** X4 at a wire rule whose ethValue criterion has the value "12a". *)
Lemma X4_error_kinds_witness :
  UnknownOperation (ValidationError "ethValue" "ethValue must contain only digits")
  ∨ UnknownCriterionType
      (ValidationError "ethValue" "ethValue must contain only digits")
  ∨ is_ValidationError
      (ValidationError "ethValue" "ethValue must contain only digits")
  ∨ ∃ attr, ValidationError "ethValue" "ethValue must contain only digits"
            = AttributeError attr.
Proof.
  apply (proj2 X4_error_kinds
           [OpenApi.mkRule
              (OpenApi.mkRuleInstance OpenApi.SignEvmTransactionRule
                 "accept" "signEvmTransaction"
                 (Some [OpenApi.SignEvmTransactionCriteriaInner
                          (OpenApi.EthValueCriterion "12a" ">" "ethValue")]))]).
  reflexivity.
Defined.

(** ** What construction returns *)

Lemma literal_ok_inv field allowed v x :
  Types.literal field allowed v = Ok x → x = v ∧ v ∈ allowed.
Proof.
  unfold Types.literal. case_bool_decide; [|discriminate]. by intros [= <-].
Qed.

Lemma literal_list_ok_inv field allowed v l :
  Types.literal_list field allowed v = Ok l →
  l = v ∧ Forall (λ x, x ∈ allowed) v.
Proof.
  revert l. induction v as [|x v IH]; intros l; simpl.
  - intros [= <-]. by split.
  - destruct (Types.literal field allowed x) as [x'|] eqn:Hx;
      simpl; [|discriminate].
    destruct (Types.literal_list field allowed v) as [l'|];
      simpl; [|discriminate].
    intros [= <-]. apply literal_ok_inv in Hx as [-> Hx].
    destruct (IH l' eq_refl) as [-> Hall]. split; [done|by constructor].
Qed.

Lemma validate_addresses_ok_inv v v' :
  (x ← Types.validate_addresses_length v; Types.validate_addresses_format x)
  = Ok v' →
  v' = v ∧ Types.addresses_valid v = true.
Proof.
  unfold Types.validate_addresses_length, Types.addresses_valid.
  case_bool_decide as Hlen; simpl; [discriminate|].
  unfold Types.validate_addresses_format.
  destruct (Types.validate_addresses_format_loop v) eqn:Hloop;
    simpl; [|discriminate].
  intros [= <-]. split; [done|].
  rewrite bool_decide_eq_true_2 by lia. simpl.
  clear Hlen. induction v as [|addr v IH]; simpl in *; [done|].
  destruct (Py.match_evm_address addr); simpl in *; [auto|discriminate].
Qed.

Lemma validate_address_format_ok_inv v v' :
  Types.validate_address_format v = Ok v' →
  v' = v ∧ forallb Py.match_sol_address v = true.
Proof.
  unfold Types.validate_address_format.
  destruct (Types.validate_address_format_loop v) eqn:Hloop;
    simpl; [|discriminate].
  intros [= <-]. split; [done|].
  induction v as [|addr v IH]; simpl in *; [done|].
  destruct (Py.match_sol_address addr); simpl in *; [auto|discriminate].
Qed.

Lemma bool_decide_elem_of (x : str) (l : list str) :
  x ∈ l → bool_decide (x ∈ l) = true.
Proof. apply bool_decide_eq_true_2. Qed.

Lemma EthValueCriterion_init_ok_inv v op c :
  Types.EthValueCriterion_init v op = Ok c →
  c = Types.EthValueCriterion v op ∧ Types.Criterion_valid c = true.
Proof.
  unfold Types.EthValueCriterion_init, Types.validate_eth_value.
  destruct (Py.isdigit v) eqn:Hd; simpl; [|discriminate].
  destruct (Types.literal _ _ op) as [op'|] eqn:Hop; simpl; [|discriminate].
  intros [= <-]. apply literal_ok_inv in Hop as [-> Hop]. split; [done|].
  simpl. by rewrite Hd, bool_decide_elem_of.
Qed.

Lemma addresses_init_ok_inv {A} (mk : list str → str → A) addresses op c :
  (v ← Types.validate_addresses_length addresses;
   v ← Types.validate_addresses_format v;
   op' ← Types.literal "operator" ["in"; "not in"] op;
   mret (mk v op')) = Ok c →
  c = mk addresses op
  ∧ Types.addresses_valid addresses = true ∧ op ∈ ["in"; "not in"].
Proof.
  pose proof (validate_addresses_ok_inv addresses) as Hv.
  destruct (Types.validate_addresses_length addresses) as [v|];
    simpl in *; [|discriminate].
  destruct (Types.validate_addresses_format v) as [v'|];
    simpl in *; [|discriminate].
  destruct (Hv v' eq_refl) as [-> Hvalid].
  destruct (Types.literal _ _ op) as [op'|] eqn:Hop; simpl; [|discriminate].
  intros [= <-]. by apply literal_ok_inv in Hop as [-> Hop].
Qed.

Lemma EvmNetworkCriterion_init_ok_inv networks op c :
  Types.EvmNetworkCriterion_init networks op = Ok c →
  c = Types.EvmNetworkCriterion networks op ∧ Types.Criterion_valid c = true.
Proof.
  unfold Types.EvmNetworkCriterion_init.
  destruct (Types.literal_list _ _ networks) as [ns|] eqn:Hn;
    simpl; [|discriminate].
  destruct (Types.literal _ _ op) as [op'|] eqn:Hop; simpl; [|discriminate].
  intros [= <-]. apply literal_ok_inv in Hop as [-> Hop].
  apply literal_list_ok_inv in Hn as [-> Hn]. split; [done|].
  simpl. rewrite bool_decide_elem_of by done. rewrite andb_true_r.
  apply forallb_true_Forall. eapply Forall_impl; [exact Hn|].
  intros n. apply bool_decide_elem_of.
Qed.

Lemma SolanaAddressCriterion_init_ok_inv addresses op c :
  Types.SolanaAddressCriterion_init addresses op = Ok c →
  c = Types.SolanaAddressCriterion addresses op
  ∧ Types.Criterion_valid c = true.
Proof.
  unfold Types.SolanaAddressCriterion_init.
  destruct (Types.validate_address_format addresses) as [v|] eqn:Hv;
    simpl; [|discriminate].
  destruct (Types.literal _ _ op) as [op'|] eqn:Hop; simpl; [|discriminate].
  intros [= <-]. apply literal_ok_inv in Hop as [-> Hop].
  apply validate_address_format_ok_inv in Hv as [-> Hv]. split; [done|].
  simpl. by rewrite Hv, bool_decide_elem_of.
Qed.

Lemma param_to_response_ok_inv p p' :
  ResponseTransformer.param_to_response p = Ok p' →
  Types.ParamCondition_valid p' = true
  ∧ RequestTransformer.param_to_openapi p' = p.
Proof.
  unfold ResponseTransformer.param_to_response.
  destruct p as [[name op value|name op values]]; simpl.
  - unfold Types.EvmDataParameterCondition_init, Types.validate_operator_enum.
    case_bool_decide as Hop; simpl; [discriminate|]. intros [= <-].
    split; [|done]. simpl. apply bool_decide_eq_true_2.
    by destruct (decide (op ∈ [">"; ">="; "<"; "<="; "=="])).
  - unfold Types.EvmDataParameterConditionList_init,
      Types.validate_operator_enum_list.
    case_bool_decide as Hop; simpl; [discriminate|]. intros [= <-].
    split; [|done]. simpl. apply bool_decide_eq_true_2.
    by destruct (decide (op ∈ ["in"; "not in"])).
Qed.

Lemma mapM_ok_Forall2 {A B} (f : A → result B) (P : A → B → Prop) l k :
  (∀ x y, f x = Ok y → P x y) → mapM f l = Ok k → Forall2 P l k.
Proof.
  intros HP Hm. apply mapM_result_ok_inv in Hm.
  eapply Forall2_impl; [exact Hm|]. exact HP.
Qed.

Lemma condition_to_response_ok_inv cond cond' :
  ResponseTransformer.condition_to_response cond = Ok cond' →
  Types.EvmDataCondition_valid cond' = true
  ∧ Types.params cond' ≠ Some []
  ∧ Types.function cond' = OpenApi.function cond.
Proof.
  unfold ResponseTransformer.condition_to_response.
  destruct cond as [function [[|p ps]|]]; simpl;
    try (intros [= <-]; by repeat split).
  destruct (ResponseTransformer.param_to_response p) as [p'|] eqn:Hp;
    simpl; [|discriminate].
  destruct (mapM _ ps) as [ps'|] eqn:Hps; simpl; [|discriminate].
  intros [= <-]. repeat split; [|done].
  unfold Types.EvmDataCondition_valid. simpl.
  apply param_to_response_ok_inv in Hp as [-> _]. simpl.
  apply forallb_true_Forall.
  eapply (Forall2_Forall_r (λ _ p', Types.ParamCondition_valid p' = true)).
  - eapply mapM_ok_Forall2; [|exact Hps].
    intros x y Hxy. by apply param_to_response_ok_inv in Hxy as [? _].
  - by apply Forall_true.
Qed.

Lemma typed_condition_to_response_ok_inv cond cond' :
  ResponseTransformer.typed_condition_to_response cond = Ok cond' →
  Types.TypedCondition_valid cond' = true
  ∧ RequestTransformer.typed_condition_to_openapi cond' = cond.
Proof.
  unfold ResponseTransformer.typed_condition_to_response.
  destruct cond as [[addresses op path|v op path|m path]]; simpl.
  - intros (-> & Hv & Hop)%(addresses_init_ok_inv
                              (λ a o, Types.EvmTypedAddressCondition a o path)).
    split; [|done]. simpl. by rewrite Hv, bool_decide_elem_of.
  - unfold Types.EvmTypedNumericalCondition_init, Types.validate_value.
    destruct (Py.isdigit v) eqn:Hd; simpl; [|discriminate].
    destruct (Types.literal _ _ op) as [op'|] eqn:Hop; simpl; [|discriminate].
    intros [= <-]. apply literal_ok_inv in Hop as [-> Hop]. split; [|done].
    simpl. by rewrite Hd, bool_decide_elem_of.
  - by intros [= <-].
Qed.

Lemma mapM_ok_map_inv {A B} (f : A → result B) (g : B → A) l k :
  (∀ x y, f x = Ok y → g y = x) → mapM f l = Ok k → map g k = l.
Proof.
  intros Hfg. revert k. induction l as [|x l IH]; intros k; simpl.
  - by intros [= <-].
  - destruct (f x) as [y|] eqn:Hx; simpl; [|discriminate].
    destruct (mapM f l) as [k0|] eqn:Hl; simpl; [|discriminate].
    intros [= <-]. simpl. by rewrite (Hfg x y), (IH k0).
Qed.

(** What a comprehension over a [dict] returns, when its body can be
    undone. *)
Lemma dict_mapM_ok_section {A B} (f : A → result B) (h : B → A)
  (d : gmap str A) (d' : gmap str B) :
  (∀ v v', f v = Ok v' → h v' = v) → dict_mapM f d = Ok d' → h <$> d' = d.
Proof.
  intros Hf. unfold dict_mapM.
  destruct (mapM _ (map_to_list d)) as [l|] eqn:Hm; simpl; [|discriminate].
  intros [= <-].
  assert (map (prod_map id h) l = map_to_list d) as Hl.
  { eapply mapM_ok_map_inv; [|exact Hm]. intros [k v] [k' v']. simpl.
    destruct (f v) as [v0|] eqn:Hv; simpl; [|discriminate].
    intros [= <- <-]. unfold prod_map. simpl. by rewrite (Hf _ _ Hv). }
  rewrite <- list_to_map_fmap.
  change (prod_map id h <$> l) with (map (prod_map id h) l).
  rewrite Hl. apply list_to_map_to_list.
Qed.

Lemma SignEvmTypedDataTypes_init_ok_inv types primaryType tm :
  Types.SignEvmTypedDataTypes_init types primaryType = Ok tm →
  Types.primaryType tm = primaryType
  ∧ map (λ d : gmap str str, Some <$> d) <$> Types.types tm = types.
Proof.
  unfold Types.SignEvmTypedDataTypes_init.
  destruct (dict_mapM _ types) as [tys|] eqn:Hd; simpl; [|discriminate].
  intros [= <-]. split; [done|]. simpl.
  eapply dict_mapM_ok_section; [|exact Hd].
  intros fs fs' Hfs. eapply mapM_ok_map_inv; [|exact Hfs].
  intros d d' Hdd. eapply dict_mapM_ok_section; [|exact Hdd].
  intros [v|] v'; simpl; [|discriminate]. by intros [= <-].
Qed.

(** A field definition built from a wire object whose attributes are
    strings has exactly the keys [name] and [type], and is read back as that
    object. *)
Lemma dict_of_TypeField_some item (d : gmap str str) :
  Some <$> d = ResponseTransformer.dict_of_TypeField item →
  field_dict_exact d = true ∧ OpenApi.TypeField_of_dict d = item.
Proof.
  intros Hd. split.
  - apply bool_decide_eq_true_2.
    rewrite <- (dom_fmap_L Some d), Hd.
    unfold ResponseTransformer.dict_of_TypeField.
    by rewrite dom_insert_L, dom_singleton_L.
  - destruct item as [n t]. unfold OpenApi.TypeField_of_dict.
    assert (Some <$> d !! "name" = Some n) as Hn.
    { rewrite <- lookup_fmap, Hd.
      unfold ResponseTransformer.dict_of_TypeField. simpl. by table_eval. }
    assert (Some <$> d !! "type" = Some t) as Ht.
    { rewrite <- lookup_fmap, Hd.
      unfold ResponseTransformer.dict_of_TypeField. simpl. by table_eval. }
    destruct (d !! "name"), (d !! "type"); simpl in *; by simplify_eq.
Qed.

Lemma dicts_of_TypeFields_some items (fs : list (gmap str str)) :
  map (λ d : gmap str str, Some <$> d) fs = map ResponseTransformer.dict_of_TypeField items →
  forallb field_dict_exact fs = true
  ∧ map OpenApi.TypeField_of_dict fs = items.
Proof.
  revert items. induction fs as [|d fs IH]; intros [|item items]; simpl;
    try discriminate; [done|].
  intros [= [He Hd]%dict_of_TypeField_some [Hf Hfs]%IH].
  by rewrite He, Hf, Hd, Hfs.
Qed.

(** The type definitions that the response transformer builds from wire type
    definitions are read back as these, and have field definitions of
    exactly the keys [name] and [type]. *)
Lemma response_types_ok_inv (wtys : gmap str (list OpenApi.TypeField))
  primaryType tm :
  Types.SignEvmTypedDataTypes_init
    (map ResponseTransformer.dict_of_TypeField <$> wtys) primaryType = Ok tm →
  Types.primaryType tm = primaryType
  ∧ forallb (λ kv, forallb field_dict_exact kv.2)
      (map_to_list (Types.types tm)) = true
  ∧ map OpenApi.TypeField_of_dict <$> Types.types tm = wtys.
Proof.
  intros [Hp Ht]%SignEvmTypedDataTypes_init_ok_inv. split; [done|].
  assert (∀ k, match Types.types tm !! k, wtys !! k with
               | Some fs, Some items =>
                   map (λ d : gmap str str, Some <$> d) fs
                   = map ResponseTransformer.dict_of_TypeField items
               | None, None => True
               | _, _ => False
               end) as Hk.
  { intros k. apply (f_equal (λ m, m !! k)) in Ht.
    rewrite !lookup_fmap in Ht.
    destruct (Types.types tm !! k), (wtys !! k); simpl in Ht;
      by simplify_eq. }
  split.
  - apply forallb_true_Forall, Forall_forall. intros [k fs] Hfs. simpl.
    apply elem_of_map_to_list in Hfs. specialize (Hk k). rewrite Hfs in Hk.
    destruct (wtys !! k) as [items|]; [|done].
    by apply dicts_of_TypeFields_some in Hk as [? _].
  - apply map_eq. intros k. rewrite lookup_fmap. specialize (Hk k).
    destruct (Types.types tm !! k) as [fs|], (wtys !! k) as [items|];
      simpl; try done.
    by apply dicts_of_TypeFields_some in Hk as [_ ->].
Qed.

(** What a constructor of the response table returns is a valid criterion
    that the wire format represents without loss. *)
Lemma response_constructor_ok_inv operation type construct w c :
  (operation, type, construct) ∈ response_entries →
  construct w = Ok c →
  Types.Criterion_valid c = true ∧ Criterion_lossless c = true
  ∧ Types.type c = type.
Proof.
  intros Hin%response_entries_cases.
  repeat (apply elem_of_cons in Hin as [[= -> -> ->]|Hin]);
    [..|by apply elem_of_nil in Hin];
    first
      [ destruct w; simpl; try discriminate;
        first
          [ intros [-> Hv]%EthValueCriterion_init_ok_inv; by repeat split
          | intros [-> Hv]%EvmNetworkCriterion_init_ok_inv; by repeat split
          | intros [= <-]; by repeat split ]
      | unfold ResponseTransformer.evmAddress_constructor,
          ResponseTransformer.evmTypedDataVerifyingContract_constructor,
          ResponseTransformer.solAddress_constructor;
        destruct (ResponseTransformer.addresses_operator w) as [[a o]|];
          simpl; [|discriminate];
        first
          [ intros (-> & Hv & Hop)%(addresses_init_ok_inv
                                      Types.EvmAddressCriterion);
            repeat split; simpl; by rewrite Hv, bool_decide_elem_of
          | intros (-> & Hv & Hop)%(addresses_init_ok_inv
                      Types.SignEvmTypedDataVerifyingContractCriterion);
            repeat split; simpl; by rewrite Hv, bool_decide_elem_of
          | intros [-> Hv]%SolanaAddressCriterion_init_ok_inv;
            by repeat split ]
      | idtac ].
  1-2: destruct w; simpl; try discriminate;
    destruct (mapM _ _) as [conds|] eqn:Hm; simpl; [|discriminate];
    intros [= <-]; simpl;
    assert (Forall (λ cond', Types.EvmDataCondition_valid cond' = true
                             ∧ Types.params cond' ≠ Some []) conds) as Hall
      by (eapply (Forall2_Forall_r (λ _ cond',
                    Types.EvmDataCondition_valid cond' = true
                    ∧ Types.params cond' ≠ Some []));
          [eapply mapM_ok_Forall2; [|exact Hm];
           intros x y Hxy;
           by apply condition_to_response_ok_inv in Hxy as (? & ? & _)
          |by apply Forall_true]);
    repeat split; apply forallb_true_Forall;
    (eapply Forall_impl; [exact Hall|]); intros cond' [Hv Hne];
    [done|by apply bool_decide_eq_true_2].
  destruct w; simpl; try discriminate.
  destruct (Types.SignEvmTypedDataTypes_init _ _) as [tm|] eqn:Ht; simpl;
    [|discriminate].
  destruct (mapM _ _) as [conds|] eqn:Hm; simpl; [|discriminate].
  intros [= <-]. simpl. repeat split.
  - apply forallb_true_Forall.
    eapply (Forall2_Forall_r (λ _ cond', Types.TypedCondition_valid cond' = true)).
    + eapply mapM_ok_Forall2; [|exact Hm].
      intros x y Hxy.
      by apply typed_condition_to_response_ok_inv in Hxy as [? _].
    + by apply Forall_true.
  - by apply response_types_ok_inv in Ht as (_ & ? & _).
Qed.

Lemma response_rule_class_ok_inv operation rule_class action criteria r :
  ResponseTransformer.response_rule_mapping !! operation = Some rule_class →
  rule_class action criteria = Ok r →
  Types.action r = action ∧ Types.operation r = operation
  ∧ action ∈ Types.Action
  ∧ ((operation = "signEvmHash" ∧ Types.criteria r = None)
     ∨ (∃ allowed cs,
          (operation, allowed) ∈ Types.rule_classes
          ∧ criteria = Some cs ∧ Types.criteria r = Some cs
          ∧ forallb allowed cs = true)).
Proof.
  intros Hcls. unfold ResponseTransformer.response_rule_mapping in Hcls.
  table_inv Hcls;
    unfold Types.SendEvmTransactionRule_init, Types.SignEvmTransactionRule_init,
      Types.SignEvmMessageRule_init, Types.SignEvmTypedDataRule_init,
      Types.SignSolanaTransactionRule_init, Types.rule_with_criteria_init,
      Types.SignEvmHashRule_init;
    (destruct (Types.literal "action" Types.Action action) as [a|] eqn:Hl;
     simpl; [|discriminate]);
    apply literal_ok_inv in Hl as [-> Hl];
    try (intros [= <-]; repeat split; [done|by left]);
    (destruct criteria as [cs|]; [|discriminate]);
    (destruct (forallb _ cs) eqn:Hcs; [|discriminate]);
    intros [= <-]; (repeat split; [done|]); right;
    eexists _, cs; (split; [unfold Types.rule_classes; list_member|done]).
Qed.

Lemma response_rule_ok_inv w r :
  response_rule w = Ok r →
  Types.Rule_valid r = true ∧ Rule_lossless r = true
  ∧ Types.action r = OpenApi.action (OpenApi.actual_instance w)
  ∧ Types.operation r = OpenApi.operation (OpenApi.actual_instance w).
Proof.
  unfold response_rule. cbv zeta.
  destruct (ResponseTransformer.response_criterion_mapping !! _)
    as [constructors|] eqn:Hop; [|discriminate].
  destruct (ResponseTransformer.response_rule_mapping !! _)
    as [rule_class|] eqn:Hcls; [|discriminate].
  assert (∀ criteria,
            (∀ cs, criteria = Some cs →
                   Forall (λ c, Types.Criterion_valid c = true
                                ∧ Criterion_lossless c = true) cs) →
            rule_class (OpenApi.action (OpenApi.actual_instance w)) criteria
            = Ok r →
            Types.Rule_valid r = true ∧ Rule_lossless r = true
            ∧ Types.action r = OpenApi.action (OpenApi.actual_instance w)
            ∧ Types.operation r
              = OpenApi.operation (OpenApi.actual_instance w)) as Hrule.
  { intros criteria Hall Hr.
    eapply response_rule_class_ok_inv in Hr as (Ha & Ho & Hact & Hc); [|done].
    destruct r as [ra ro rc].
    cbn [Types.action Types.operation Types.criteria] in *. subst ra ro.
    split; [|split; [|done]].
    - unfold Types.Rule_valid.
      cbn [Types.action Types.operation Types.criteria].
      rewrite bool_decide_eq_true_2 by done.
      destruct Hc as [[Hhash ->]|(allowed & cs & Hcls' & -> & -> & Hal)].
      + by rewrite bool_decide_eq_true_2.
      + specialize (Hall cs eq_refl). apply andb_true_intro. split; [done|].
        apply andb_true_intro. split.
        * clear Hall Hcls. unfold Types.rule_classes in *.
          repeat (apply elem_of_cons in Hcls' as [Heq|Hcls']);
            [..|by apply elem_of_nil in Hcls'];
            injection Heq as Heq1 Heq2; rewrite Heq1; subst allowed;
            cbn [existsb fst snd]; rewrite Hal;
            rewrite ?bool_decide_eq_true_2 by reflexivity;
            rewrite ?bool_decide_eq_false_2 by discriminate;
            reflexivity.
        * apply forallb_true_Forall. eapply Forall_impl; [exact Hall|].
          by intros c [? _].
    - unfold Rule_lossless. cbn [Types.criteria].
      destruct Hc as [[Hhash ->]|(allowed & cs & Hcls' & -> & -> & Hal)];
        [done|].
      specialize (Hall cs eq_refl). apply forallb_true_Forall.
      eapply Forall_impl; [exact Hall|]. by intros c [_ ?]. }
  destruct (OpenApi.criteria _) as [wrappers|].
  - destruct (mapM _ wrappers) as [cs|] eqn:Hm; simpl; [|discriminate].
    apply Hrule. intros cs' [= <-].
    eapply (Forall2_Forall_r (λ _ c, Types.Criterion_valid c = true
                                     ∧ Criterion_lossless c = true)).
    + eapply mapM_ok_Forall2; [|exact Hm].
      intros x y. unfold response_criterion. cbv zeta.
      destruct (constructors !! _) as [construct|] eqn:Hty; [|discriminate].
      intros Hc. eapply response_constructor_ok_inv in Hc as (? & ? & _);
        [done|]. apply response_entries_spec. eauto.
    + by apply Forall_true.
  - apply Hrule. intros cs [=].
Qed.

(** ** What the response transformer returns *)

(** X5: when the response transformer returns, it returns one rule per wire
    rule, in order, each a valid object of one of the six rule classes with
    the action and the operation of its wire rule. *)
Theorem X5_from_wire_valid :
  ∀ wire rules,
    from_wire wire = Ok rules →
    Forall2 (λ w r, Types.Rule_valid r = true
                    ∧ Types.action r = OpenApi.action (OpenApi.actual_instance w)
                    ∧ Types.operation r
                      = OpenApi.operation (OpenApi.actual_instance w))
            wire rules.
Proof.
  intros wire rules Hok. rewrite from_wire_mapM in Hok.
  eapply mapM_ok_Forall2; [|exact Hok].
  intros w r Hr. by apply response_rule_ok_inv in Hr as (? & _ & ? & ?).
Qed.

(** X5 at a signEvmHash wire rule followed by a signEvmMessage wire rule. *)
Lemma X5_from_wire_valid_witness :
  Forall2 (λ w r, Types.Rule_valid r = true
                  ∧ Types.action r = OpenApi.action (OpenApi.actual_instance w)
                  ∧ Types.operation r
                    = OpenApi.operation (OpenApi.actual_instance w))
    [OpenApi.mkRule (OpenApi.mkRuleInstance OpenApi.SignEvmHashRule
                       "reject" "signEvmHash" None);
     OpenApi.mkRule (OpenApi.mkRuleInstance OpenApi.SignEvmMessageRule
                       "accept" "signEvmMessage"
                       (Some [OpenApi.SignEvmMessageCriteriaInner
                                (OpenApi.EvmMessageCriterion "^hi$" "evmMessage")]))]
    [Types.mkRule "reject" "signEvmHash" None;
     Types.mkRule "accept" "signEvmMessage"
       (Some [Types.EvmMessageCriterion "^hi$"])].
Proof.
  apply X5_from_wire_valid. reflexivity.
Defined.

Lemma from_wire_lossless wire rules :
  from_wire wire = Ok rules →
  Forall (λ r, Types.Rule_valid r = true ∧ Rule_lossless r = true) rules.
Proof.
  intros Hok. rewrite from_wire_mapM in Hok.
  eapply (Forall2_Forall_r (λ _ r, Types.Rule_valid r = true
                                   ∧ Rule_lossless r = true)).
  - eapply mapM_ok_Forall2; [|exact Hok].
    intros w r Hr. by apply response_rule_ok_inv in Hr as (? & ? & _).
  - by apply Forall_true.
Qed.

(** X6: the rules that the response transformer returns survive the wire
    format unchanged: transformed to the wire format and back they are the
    same rules; so a round trip, when it returns, returns rules on which a
    second round trip changes nothing. *)
Theorem X6_round_trip_stable :
  (∀ wire rules, from_wire wire = Ok rules → round_trip rules = Ok rules)
  ∧ (∀ rules rules',
       round_trip rules = Ok rules' → round_trip rules' = Ok rules').
Proof.
  assert (∀ wire rules, from_wire wire = Ok rules → round_trip rules = Ok rules)
    as Hstable.
  { intros wire rules Hok. by eapply round_trip_valid, from_wire_lossless. }
  split; [exact Hstable|].
  intros rules rules'. unfold round_trip at 1.
  destruct (to_wire rules) as [wire|]; simpl; [|discriminate].
  apply Hstable.
Qed.

(** X6 at the rule with an empty parameter list. *)
Lemma X6_round_trip_stable_witness :
  round_trip [empty_params_rule_back] = Ok [empty_params_rule_back].
Proof.
  apply (proj2 X6_round_trip_stable [empty_params_rule]).
  vm_compute. reflexivity.
Defined.

(** ** What the request transformer returns *)

Lemma request_builder_ok_type operation build c w :
  (operation, Types.type c, build) ∈ request_entries →
  build c = Ok w →
  OpenApi.type (OpenApi.actual_instance w) = Types.type c.
Proof.
  intros Hin%request_entries_cases.
  repeat (apply elem_of_cons in Hin as [[= -> Hty ->]|Hin]);
    [..|by apply elem_of_nil in Hin];
    destruct c; try discriminate Hty; simpl; by intros [= <-].
Qed.

Lemma rule_mapping_hash operation :
  RequestTransformer.openapi_rule_mapping !! operation
  = Some OpenApi.SignEvmHashRule →
  operation = "signEvmHash".
Proof.
  intros H. unfold RequestTransformer.openapi_rule_mapping in H.
  repeat (apply lookup_insert_Some in H as [[Hk Hv]|[_ H]];
          [first [discriminate Hv | by subst]|]).
  apply lookup_singleton_Some in H as [Hk Hv]. discriminate Hv.
Qed.

Lemma request_rule_ok_inv r w :
  (Types.operation r = "signEvmHash" → Types.criteria r = None) →
  request_rule r = Ok w →
  OpenApi.action (OpenApi.actual_instance w) = Types.action r
  ∧ OpenApi.operation (OpenApi.actual_instance w) = Types.operation r
  ∧ RequestTransformer.openapi_rule_mapping !! Types.operation r
    = Some (OpenApi.rule_cls (OpenApi.actual_instance w))
  ∧ match Types.criteria r, OpenApi.criteria (OpenApi.actual_instance w) with
    | None, None => True
    | Some cs, Some ws =>
        Forall2 (λ c wc, OpenApi.type (OpenApi.actual_instance wc)
                         = Types.type c) cs ws
    | _, _ => False
    end.
Proof.
  intros Hhash. unfold request_rule.
  destruct (RequestTransformer.openapi_criterion_mapping !! _)
    as [builders|] eqn:Hop; [|discriminate].
  destruct (RequestTransformer.openapi_rule_mapping !! _)
    as [cls|] eqn:Hcls; [|discriminate].
  destruct (Types.criteria r) as [cs|].
  - destruct (mapM _ cs) as [ws|] eqn:Hm; simpl; [|discriminate].
    intros [= <-]. rewrite rule_cls_init_criteria.
    2:{ intros ->. by apply rule_mapping_hash, Hhash in Hcls. }
    simpl. repeat split.
    eapply mapM_ok_Forall2; [|exact Hm].
    intros c wc. unfold request_criterion.
    destruct (builders !! Types.type c) as [build|] eqn:Hty; [|discriminate].
    apply request_builder_ok_type with (operation := Types.operation r).
    apply request_entries_spec. eauto.
  - intros [= <-]. by destruct cls.
Qed.

(** X7: when the request transformer returns (a signEvmHash rule having no
    criteria, as the objects of its class), it returns one wire rule per
    rule, in order, each of the wire class that the rule table gives for the
    operation, with the action and the operation of its rule, without
    criteria when the rule has none and otherwise with one wire criterion
    per criterion, in order, tagged with the criterion's type. *)
Theorem X7_to_wire_shape :
  ∀ rules wire,
    Forall (λ r, Types.operation r = "signEvmHash" → Types.criteria r = None)
           rules →
    to_wire rules = Ok wire →
    Forall2
      (λ r w,
         OpenApi.action (OpenApi.actual_instance w) = Types.action r
         ∧ OpenApi.operation (OpenApi.actual_instance w) = Types.operation r
         ∧ RequestTransformer.openapi_rule_mapping !! Types.operation r
           = Some (OpenApi.rule_cls (OpenApi.actual_instance w))
         ∧ match Types.criteria r,
                 OpenApi.criteria (OpenApi.actual_instance w) with
           | None, None => True
           | Some cs, Some ws =>
               Forall2 (λ c wc, OpenApi.type (OpenApi.actual_instance wc)
                                = Types.type c) cs ws
           | _, _ => False
           end)
      rules wire.
Proof.
  intros rules wire Hall Hok. rewrite to_wire_mapM in Hok.
  apply mapM_result_ok_inv in Hok.
  induction Hok as [|r w rules wire Hrw _ IH]; [constructor|].
  apply Forall_cons in Hall as [Hr Hall].
  constructor; [by apply request_rule_ok_inv|by apply IH].
Qed.

(** X7 at a signEvmTransaction rule with two criteria. *)
Lemma X7_to_wire_shape_witness :
  Forall2
    (λ r w,
       OpenApi.action (OpenApi.actual_instance w) = Types.action r
       ∧ OpenApi.operation (OpenApi.actual_instance w) = Types.operation r
       ∧ RequestTransformer.openapi_rule_mapping !! Types.operation r
         = Some (OpenApi.rule_cls (OpenApi.actual_instance w))
       ∧ match Types.criteria r,
               OpenApi.criteria (OpenApi.actual_instance w) with
         | None, None => True
         | Some cs, Some ws =>
             Forall2 (λ c wc, OpenApi.type (OpenApi.actual_instance wc)
                              = Types.type c) cs ws
         | _, _ => False
         end)
    [Types.mkRule "accept" "signEvmTransaction"
       (Some [Types.EthValueCriterion "5" "<=";
              Types.EvmAddressCriterion [example_address] "in"])]
    [OpenApi.mkRule
       (OpenApi.mkRuleInstance OpenApi.SignEvmTransactionRule
          "accept" "signEvmTransaction"
          (Some [OpenApi.SignEvmTransactionCriteriaInner
                   (OpenApi.EthValueCriterion "5" "<=" "ethValue");
                 OpenApi.SignEvmTransactionCriteriaInner
                   (OpenApi.EvmAddressCriterion [example_address] "in"
                      "evmAddress")]))].
Proof.
  apply X7_to_wire_shape.
  - repeat constructor. simpl. discriminate.
  - reflexivity.
Defined.

(** ** Sending again what was parsed back *)

Lemma mapM_there_back_there {A B} (f : A → result B) (g : B → result A)
  (l l' : list A) (k : list B) :
  (∀ x y x', f x = Ok y → g y = Ok x' → f x' = Ok y) →
  mapM f l = Ok k → mapM g k = Ok l' → mapM f l' = Ok k.
Proof.
  intros Hfg. revert k l'. induction l as [|x l IH]; intros k l'; simpl.
  - intros [= <-]. simpl. by intros [= <-].
  - destruct (f x) as [y|] eqn:Hx; simpl; [|discriminate].
    destruct (mapM f l) as [k0|] eqn:Hl; simpl; [|discriminate].
    intros [= <-]. simpl.
    destruct (g y) as [x'|] eqn:Hy; simpl; [|discriminate].
    destruct (mapM g k0) as [l0|] eqn:Hk; simpl; [|discriminate].
    intros [= <-]. simpl. rewrite (Hfg x y x') by done. simpl.
    by rewrite (IH k0 l0).
Qed.

Lemma condition_to_openapi_params cond :
  OpenApi.params (RequestTransformer.condition_to_openapi cond) ≠ Some [].
Proof. by destruct cond as [f [[|p ps]|]]. Qed.

Lemma condition_to_response_inverse wcond cond' :
  OpenApi.params wcond ≠ Some [] →
  ResponseTransformer.condition_to_response wcond = Ok cond' →
  RequestTransformer.condition_to_openapi cond' = wcond.
Proof.
  unfold ResponseTransformer.condition_to_response.
  destruct wcond as [function [[|p ps]|]]; simpl; intros Hne; try done;
    [|by intros [= <-]].
  destruct (ResponseTransformer.param_to_response p) as [p'|] eqn:Hp;
    simpl; [|discriminate].
  destruct (mapM _ ps) as [ps'|] eqn:Hps; simpl; [|discriminate].
  intros [= <-]. unfold RequestTransformer.condition_to_openapi. simpl.
  apply param_to_response_ok_inv in Hp as [_ ->].
  assert (map RequestTransformer.param_to_openapi ps' = ps) as ->; [|done].
  eapply mapM_ok_map_inv; [|exact Hps].
  intros x y Hxy. by apply param_to_response_ok_inv in Hxy as [_ ?].
Qed.

Lemma mapM_ok_map_inv_on {A B} (P : A → Prop) (f : A → result B) (g : B → A)
  l k :
  Forall P l → (∀ x y, P x → f x = Ok y → g y = x) →
  mapM f l = Ok k → map g k = l.
Proof.
  intros HP Hfg. revert k. induction HP as [|x l Hx _ IH]; intros k; simpl.
  - by intros [= <-].
  - destruct (f x) as [y|] eqn:Hfx; simpl; [|discriminate].
    destruct (mapM f l) as [k0|] eqn:Hl; simpl; [|discriminate].
    intros [= <-]. simpl. by rewrite (Hfg x y), (IH k0).
Qed.

Lemma evmData_there_back_there (envelope : OpenApi.Criterion → OpenApi.CriteriaInner)
  abi conditions wc c' :
  (∀ w, OpenApi.actual_instance (envelope w) = w) →
  RequestTransformer.evmData_builder envelope
    (Types.EvmDataCriterion abi conditions) = Ok wc →
  ResponseTransformer.evmData_constructor (OpenApi.actual_instance wc) = Ok c' →
  RequestTransformer.evmData_builder envelope c' = Ok wc.
Proof.
  intros Henv. simpl. intros [= <-]. rewrite Henv. simpl.
  destruct (mapM _ _) as [conds'|] eqn:Hm; simpl; [|discriminate].
  intros [= <-]. simpl. do 3 f_equal.
  - by destruct abi.
  - eapply (mapM_ok_map_inv_on (λ w, OpenApi.params w ≠ Some [])); [| |exact Hm].
    + apply Forall_forall. intros w Hw.
      apply list_elem_of_In, in_map_iff in Hw as (cond & <- & _).
      apply condition_to_openapi_params.
    + intros x y Hx Hxy. by apply condition_to_response_inverse.
Qed.

Lemma evmTypedDataField_there_back_there tys conditions wc c' :
  RequestTransformer.evmTypedDataField_builder
    (Types.SignEvmTypedDataFieldCriterion tys conditions) = Ok wc →
  ResponseTransformer.evmTypedDataField_constructor
    (OpenApi.actual_instance wc) = Ok c' →
  RequestTransformer.evmTypedDataField_builder c' = Ok wc.
Proof.
  simpl. intros [= <-]. simpl.
  destruct (Types.SignEvmTypedDataTypes_init _ _) as [tm|] eqn:Ht; simpl;
    [|discriminate].
  destruct (mapM _ _) as [conds'|] eqn:Hm; simpl; [|discriminate].
  intros [= <-]. simpl.
  apply response_types_ok_inv in Ht as (-> & _ & ->).
  do 3 f_equal.
  eapply mapM_ok_map_inv; [|exact Hm].
  intros x y Hxy. by apply typed_condition_to_response_ok_inv in Hxy as [_ ?].
Qed.

(** A criterion that was transformed and transformed back is transformed to
    the same wire criterion again. *)
Lemma criterion_there_back_there operation builders constructors c wc c' :
  RequestTransformer.openapi_criterion_mapping !! operation = Some builders →
  ResponseTransformer.response_criterion_mapping !! operation
  = Some constructors →
  request_criterion builders operation c = Ok wc →
  response_criterion constructors wc = Ok c' →
  request_criterion builders operation c' = Ok wc.
Proof.
  intros Hreq Hresp.
  assert (operation ∈ supported_operations) as Hs
    by (apply request_mapping_supported; eauto).
  apply supported_operations_cases in Hs.
  unfold RequestTransformer.openapi_criterion_mapping in Hreq.
  unfold ResponseTransformer.response_criterion_mapping in Hresp.
  destruct Hs as [->|[->|[->|[->|[->| ->]]]]];
    revert Hreq Hresp; table_eval; intros [= <-] [= <-];
    unfold request_criterion; destruct c; cbn [Types.type]; table_eval;
    try discriminate.
  all: try (simpl; intros [= <-]; unfold response_criterion;
    cbn [OpenApi.actual_instance OpenApi.criteria_inner_actual_instance
         OpenApi.type]; table_eval;
    unfold ResponseTransformer.evmAddress_constructor,
      ResponseTransformer.evmTypedDataVerifyingContract_constructor,
      ResponseTransformer.solAddress_constructor;
    cbn [ResponseTransformer.addresses_operator mbind result_bind fst snd
         ResponseTransformer.ethValue_constructor
         ResponseTransformer.evmNetwork_constructor
         ResponseTransformer.evmMessage_constructor];
    first
      [ intros [-> _]%EthValueCriterion_init_ok_inv
      | intros [-> _]%EvmNetworkCriterion_init_ok_inv
      | intros [-> _]%SolanaAddressCriterion_init_ok_inv
      | intros (-> & _)%(addresses_init_ok_inv Types.EvmAddressCriterion)
      | intros (-> & _)%(addresses_init_ok_inv
                           Types.SignEvmTypedDataVerifyingContractCriterion)
      | intros [= <-] ];
    cbn [Types.type]; table_eval; reflexivity).
  - intros Hb Hc. pose proof Hb as Hb'. simpl in Hb'. injection Hb' as <-.
    unfold response_criterion in Hc.
    cbn [OpenApi.actual_instance OpenApi.criteria_inner_actual_instance
         OpenApi.type] in Hc.
    revert Hc. table_eval. intros Hc.
    assert (Types.type c' = "evmData") as ->
      by (simpl in Hc; destruct (mapM _ _); simpl in Hc; [|discriminate];
          by injection Hc as <-).
    table_eval. by eapply evmData_there_back_there.
  - intros Hb Hc. pose proof Hb as Hb'. simpl in Hb'. injection Hb' as <-.
    unfold response_criterion in Hc.
    cbn [OpenApi.actual_instance OpenApi.criteria_inner_actual_instance
         OpenApi.type] in Hc.
    revert Hc. table_eval. intros Hc.
    assert (Types.type c' = "evmData") as ->
      by (simpl in Hc; destruct (mapM _ _); simpl in Hc; [|discriminate];
          by injection Hc as <-).
    table_eval. by eapply evmData_there_back_there.
  - intros Hb Hc.
    assert (OpenApi.type (OpenApi.actual_instance wc) = "evmTypedDataField"
            ∧ ∃ w, wc = OpenApi.SignEvmTypedDataCriteriaInner w) as [Hty [w ->]].
    { simpl in Hb. injection Hb as <-. eauto. }
    unfold response_criterion in Hc. cbv zeta in Hc. rewrite Hty in Hc.
    revert Hc. table_eval. intros Hc.
    assert (Types.type c' = "evmTypedDataField") as ->
      by (destruct w; simpl in Hc; try discriminate;
          destruct (Types.SignEvmTypedDataTypes_init _ _); simpl in Hc;
            [|discriminate];
          destruct (mapM _ _); simpl in Hc; [|discriminate];
          by injection Hc as <-).
    table_eval. by eapply evmTypedDataField_there_back_there.
Qed.

Lemma rule_there_back_there r w r' :
  (Types.operation r = "signEvmHash" → Types.criteria r = None) →
  request_rule r = Ok w → response_rule w = Ok r' → request_rule r' = Ok w.
Proof.
  intros Hhash. unfold request_rule at 1.
  destruct (RequestTransformer.openapi_criterion_mapping !! _)
    as [builders|] eqn:Hreq; [|discriminate].
  destruct (RequestTransformer.openapi_rule_mapping !! _)
    as [cls|] eqn:Hcls; [|discriminate].
  assert (Types.operation r ∈ supported_operations) as Hs
    by (apply request_mapping_supported; eauto).
  destruct (proj1 (response_mapping_supported _) Hs) as [constructors Hresp].
  destruct (response_rule_mapping_supported _ Hs) as [rule_class Hrcls].
  destruct (Types.criteria r) as [cs|] eqn:Hcs.
  - destruct (mapM _ cs) as [wcs|] eqn:Hm; simpl; [|discriminate].
    assert (cls ≠ OpenApi.SignEvmHashRule) as Hne.
    { intros ->. apply rule_mapping_hash, Hhash in Hcls. congruence. }
    rewrite (rule_cls_init_criteria cls) by done.
    intros [= <-]. unfold response_rule. cbv zeta.
    cbn [OpenApi.actual_instance OpenApi.rule_actual_instance
         OpenApi.operation OpenApi.criteria OpenApi.action].
    rewrite Hresp, Hrcls.
    destruct (mapM _ wcs) as [cs'|] eqn:Hm'; simpl; [|discriminate].
    intros Hr. pose proof Hr as Hr'.
    eapply response_rule_class_ok_inv in Hr' as (Ha & Ho & _ & Hcase);
      [|exact Hrcls].
    destruct Hcase as [[Hh _]|(allowed & cs0 & _ & [= <-] & Hc' & _)];
      [by specialize (Hhash Hh)|].
    unfold request_rule. rewrite Ho, Hreq, Hcls, Hc', Ha.
    erewrite mapM_there_back_there; [|  |exact Hm|exact Hm'].
    { simpl. by rewrite (rule_cls_init_criteria cls). }
    intros c wc c'. by apply criterion_there_back_there.
  - assert (OpenApi.rule_cls_init cls (Types.action r) (Types.operation r)
              None
            = OpenApi.mkRuleInstance cls (Types.action r) (Types.operation r)
                None) as Hnone by (by destruct cls).
    rewrite Hnone.
    intros [= <-]. unfold response_rule. cbv zeta.
    cbn [OpenApi.actual_instance OpenApi.rule_actual_instance
         OpenApi.operation OpenApi.criteria OpenApi.action].
    rewrite Hresp, Hrcls. intros Hr. pose proof Hr as Hr'.
    eapply response_rule_class_ok_inv in Hr' as (Ha & Ho & _ & Hcase);
      [|exact Hrcls].
    destruct Hcase as [[_ Hc']|(allowed & cs0 & _ & [=] & _)].
    unfold request_rule. by rewrite Ho, Hreq, Hcls, Hc', Ha, Hnone.
Qed.

(** X8: when rules (a signEvmHash rule having no criteria, as the objects of
    its class) are transformed to the wire format and the wire rules are
    transformed back, transforming the returned rules yields the same wire
    rules again. *)
Theorem X8_wire_stable :
  ∀ rules wire rules',
    Forall (λ r, Types.operation r = "signEvmHash" → Types.criteria r = None)
           rules →
    RequestTransformer.map_request_rules_to_openapi_format rules = Ok wire →
    ResponseTransformer.map_openapi_rules_to_response_format wire = Ok rules' →
    RequestTransformer.map_request_rules_to_openapi_format rules' = Ok wire.
Proof.
  intros rules wire rules' Hall. rewrite !to_wire_mapM, from_wire_mapM.
  revert wire rules'. induction Hall as [|r rules Hr _ IH];
    intros wire rules'; simpl.
  - intros [= <-]. simpl. by intros [= <-].
  - destruct (request_rule r) as [w|] eqn:Hw; simpl; [|discriminate].
    destruct (mapM request_rule rules) as [ws|]; simpl; [|discriminate].
    intros [= <-]. simpl.
    destruct (response_rule w) as [r'|] eqn:Hr'; simpl; [|discriminate].
    destruct (mapM response_rule ws) as [rs'|] eqn:Hrs'; simpl; [|discriminate].
    intros [= <-]. simpl.
    rewrite (rule_there_back_there r w r') by done. simpl.
    by rewrite (IH ws rs').
Qed.

(** X8 at the rule with an empty parameter list. *)
Lemma X8_wire_stable_witness :
  to_wire [empty_params_rule_back]
  = Ok [OpenApi.mkRule
          (OpenApi.mkRuleInstance OpenApi.SendEvmTransactionRule
             "accept" "sendEvmTransaction"
             (Some [OpenApi.SendEvmTransactionCriteriaInner
                      (OpenApi.EvmDataCriterion "evmData"
                         (OpenApi.mkEvmDataCriterionAbi
                            (Types.KnownAbiType "erc20"))
                         [OpenApi.mkEvmDataCondition "transfer" None])]))].
Proof.
  apply (X8_wire_stable [empty_params_rule]).
  - repeat constructor. simpl. discriminate.
  - reflexivity.
  - reflexivity.
Defined.

(** ** The address patterns *)

Lemma at_dollar_spec rest :
  Py.at_dollar rest = true ↔ rest = [] ∨ rest = [0xA%N].
Proof.
  unfold Py.at_dollar. destruct rest as [|c [|c' rest]].
  - split; [by left|done].
  - rewrite N.eqb_eq. split.
    + intros ->. by right.
    + intros [H|H]; [discriminate H|by injection H].
  - split; [discriminate|]. intros [H|H]; discriminate H.
Qed.

Lemma pattern_body_spec (p : N → bool) (n : nat) (cs : list N) :
  bool_decide (length (take n cs) = n) && forallb p (take n cs)
  && Py.at_dollar (drop n cs) = true
  ↔ ∃ body, length body = n ∧ Forall (λ c, p c = true) body
            ∧ (cs = body ∨ cs = body ++ [0xA%N]).
Proof.
  rewrite !andb_true_iff, bool_decide_eq_true, forallb_true_Forall,
    at_dollar_spec. split.
  - intros [[Hlen Hall] Hend]. exists (take n cs). repeat split; [done..|].
    rewrite <- (take_drop n cs) at 1 3. destruct Hend as [->| ->];
      [left; by rewrite app_nil_r|by right].
  - intros (body & Hlen & Hall & [->| ->]).
    + rewrite firstn_all2, skipn_all2 by lia. by repeat split; [..|left].
    + rewrite take_app_length', drop_app_length' by done.
      by repeat split; [..|right].
Qed.

(** X9: the pattern of the EVM address validators matches exactly the strings
    made of "0x", forty characters of [0-9a-fA-F] and, optionally, one final
    newline. *)
Theorem X9_evm_address_pattern :
  ∀ s,
    Py.match_evm_address s = true
    ↔ ∃ body, length body = 40
              ∧ Forall (λ c, Py.is_hex_char c = true) body
              ∧ (codepoints s = [0x30; 0x78]%N ++ body
                 ∨ codepoints s = [0x30; 0x78]%N ++ body ++ [0xA%N]).
Proof.
  intros [cs]. unfold Py.match_evm_address. simpl.
  destruct cs as [|c0 [|c1 rest]].
  - split; [discriminate|]. by intros (body & _ & _ & [|]).
  - split; [discriminate|]. intros (body & _ & _ & [[=]|[=]]).
  - rewrite <- !andb_assoc, andb_true_iff, (andb_true_iff (c1 =? _)%N),
      !N.eqb_eq, !andb_assoc, pattern_body_spec. split.
    + intros (-> & -> & body & Hlen & Hall & Hrest). exists body.
      repeat split; [done..|]. by destruct Hrest as [->| ->]; [left|right].
    + intros (body & Hlen & Hall & [[= -> -> ->]|[= -> -> ->]]);
        (repeat split; [done..|]); exists body; repeat split; auto.
Qed.

(** X9 at an address with a final newline. *)
Lemma X9_evm_address_pattern_witness :
  Py.match_evm_address (example_address +++ Str [0xA%N]) = true.
Proof.
  apply X9_evm_address_pattern.
  exists (drop 2 (codepoints example_address)).
  split; [reflexivity|]. split; [|right; reflexivity].
  apply forallb_true_Forall. reflexivity.
Defined.

(** X10: the pattern of the Solana address validator matches exactly the
    strings made of 32 to 44 characters of the Base58 alphabet and,
    optionally, one final newline. *)
Theorem X10_solana_address_pattern :
  ∀ s,
    Py.match_sol_address s = true
    ↔ ∃ body, 32 ≤ length body ≤ 44
              ∧ Forall (λ c, Py.is_base58_char c = true) body
              ∧ (codepoints s = body ∨ codepoints s = body ++ [0xA%N]).
Proof.
  intros [cs]. unfold Py.match_sol_address. cbn [codepoints].
  rewrite existsb_exists. split.
  - intros (n & Hn%in_seq & (body & Hlen & Hall & Hcs)%pattern_body_spec).
    exists body. split; [lia|]. by split.
  - intros (body & Hlen & Hall & Hcs). exists (length body). split.
    + apply in_seq. lia.
    + apply pattern_body_spec. by exists body.
Qed.

(** X10 at a string with a final newline and at the alphabet. *)
Lemma X10_solana_address_pattern_witness :
  Py.match_sol_address
    ("HpabPRRCFbBKSuJr5PdkVvQc85FyxyTWkFM2obBRSvHT" +++ Str [0xA%N]) = true.
Proof.
  apply X10_solana_address_pattern.
  exists (codepoints "HpabPRRCFbBKSuJr5PdkVvQc85FyxyTWkFM2obBRSvHT").
  split; [simpl; lia|]. split; [|right; reflexivity].
  apply forallb_true_Forall. reflexivity.
Defined.

(** ** Construction of the other models *)

Lemma validate_address_format_first before address after :
  forallb Py.match_sol_address before = true →
  Py.match_sol_address address = false →
  Types.validate_address_format (before ++ address :: after)
  = Raise (ValidationError "addresses"
             ("Invalid address format: " +++ address)).
Proof.
  intros Hbefore Ha. unfold Types.validate_address_format.
  assert (Types.validate_address_format_loop (before ++ address :: after)
          = Raise (ValidationError "addresses"
                     ("Invalid address format: " +++ address))) as ->; [|done].
  induction before as [|b before IH]; simpl in *.
  - by rewrite Ha.
  - apply andb_prop in Hbefore as [-> Hbefore]. simpl. auto.
Qed.

(** X11: constructing a SolanaAddressCriterion returns the object with the
    given addresses and operator exactly when every address matches the
    Base58 pattern and the operator is "in" or "not in", however many
    addresses there are; otherwise it raises, and when an address does not
    match, the error names the first such address. *)
Theorem X11_solana_address_criterion :
  (∀ addresses operator c,
     Types.SolanaAddressCriterion_init addresses operator = Ok c
     ↔ c = Types.SolanaAddressCriterion addresses operator
       ∧ Forall (λ a, Py.match_sol_address a = true) addresses
       ∧ operator ∈ ["in"; "not in"])
  ∧ (∀ before address after operator,
       Forall (λ a, Py.match_sol_address a = true) before →
       Py.match_sol_address address = false →
       Types.SolanaAddressCriterion_init (before ++ address :: after) operator
       = Raise (ValidationError "addresses"
                  ("Invalid address format: " +++ address)))
  ∧ (∀ n address operator,
       Py.match_sol_address address = true → operator ∈ ["in"; "not in"] →
       Types.SolanaAddressCriterion_init (replicate n address) operator
       = Ok (Types.SolanaAddressCriterion (replicate n address) operator)).
Proof.
  assert (∀ addresses operator,
            Forall (λ a, Py.match_sol_address a = true) addresses →
            operator ∈ ["in"; "not in"] →
            Types.SolanaAddressCriterion_init addresses operator
            = Ok (Types.SolanaAddressCriterion addresses operator)) as Hok.
  { intros addresses operator Hall%forallb_true_Forall Hop.
    apply SolanaAddressCriterion_init_valid. simpl.
    by rewrite Hall, bool_decide_elem_of. }
  split; [|split].
  - intros addresses operator c. split.
    + intros [-> Hv]%SolanaAddressCriterion_init_ok_inv. split; [done|].
      simpl in Hv. apply andb_prop in Hv as [Ha Hop%bool_decide_eq_true].
      split; [by apply forallb_true_Forall|done].
    + intros (-> & Hall & Hop). by apply Hok.
  - intros before address after operator Hall%forallb_true_Forall Ha.
    unfold Types.SolanaAddressCriterion_init.
    by rewrite validate_address_format_first.
  - intros n address operator Ha Hop. apply Hok; [|done].
    apply Forall_forall. by intros a [-> _]%elem_of_replicate.
Qed.

(** X11 at 301 copies of a well-formed address, which are accepted, and at a
    list whose second address has a zero. *)
Lemma X11_solana_address_criterion_witness :
  Types.SolanaAddressCriterion_init
    (replicate 301 "HpabPRRCFbBKSuJr5PdkVvQc85FyxyTWkFM2obBRSvHT") "in"
  = Ok (Types.SolanaAddressCriterion
          (replicate 301 "HpabPRRCFbBKSuJr5PdkVvQc85FyxyTWkFM2obBRSvHT") "in")
  ∧ Types.SolanaAddressCriterion_init
      (["HpabPRRCFbBKSuJr5PdkVvQc85FyxyTWkFM2obBRSvHT"]
       ++ "0pabPRRCFbBKSuJr5PdkVvQc85FyxyTWkFM2obBRSvHT" :: ["bad"]) "in"
    = Raise (ValidationError "addresses"
               "Invalid address format: 0pabPRRCFbBKSuJr5PdkVvQc85FyxyTWkFM2obBRSvHT").
Proof.
  destruct X11_solana_address_criterion as (_ & Hb & Hc). split.
  - apply Hc; [reflexivity|list_member].
  - apply (Hb ["HpabPRRCFbBKSuJr5PdkVvQc85FyxyTWkFM2obBRSvHT"]
              "0pabPRRCFbBKSuJr5PdkVvQc85FyxyTWkFM2obBRSvHT" ["bad"] "in");
      [repeat constructor|reflexivity].
Defined.

(** X12: an EvmTypedAddressCondition and a
    SignEvmTypedDataVerifyingContractCriterion are constructed, with the
    given values unchanged, exactly when there are at most 300 addresses,
    each matches the EVM address pattern, and the operator is "in" or
    "not in": the checks of EvmAddressCriterion. *)
Theorem X12_typed_data_addresses :
  (∀ addresses operator path c,
     Types.EvmTypedAddressCondition_init addresses operator path = Ok c
     ↔ c = Types.EvmTypedAddressCondition addresses operator path
       ∧ length addresses ≤ 300
       ∧ Forall (λ a, Py.match_evm_address a = true) addresses
       ∧ operator ∈ ["in"; "not in"])
  ∧ (∀ addresses operator c,
       Types.SignEvmTypedDataVerifyingContractCriterion_init addresses operator
       = Ok c
       ↔ c = Types.SignEvmTypedDataVerifyingContractCriterion addresses operator
         ∧ length addresses ≤ 300
         ∧ Forall (λ a, Py.match_evm_address a = true) addresses
         ∧ operator ∈ ["in"; "not in"])
  ∧ (∀ addresses operator path,
       (∃ c, Types.EvmAddressCriterion_init addresses operator = Ok c)
       ↔ (∃ c, Types.EvmTypedAddressCondition_init addresses operator path
               = Ok c))
  ∧ (∀ addresses operator,
       (∃ c, Types.EvmAddressCriterion_init addresses operator = Ok c)
       ↔ (∃ c, Types.SignEvmTypedDataVerifyingContractCriterion_init
                 addresses operator = Ok c)).
Proof.
  assert (∀ addresses,
            Types.addresses_valid addresses = true
            ↔ length addresses ≤ 300
              ∧ Forall (λ a, Py.match_evm_address a = true) addresses) as Hv.
  { intros addresses. unfold Types.addresses_valid.
    by rewrite andb_true_iff, bool_decide_eq_true, forallb_true_Forall. }
  assert (∀ {A} (mk : list str → str → A) addresses operator c,
            (v ← Types.validate_addresses_length addresses;
             v ← Types.validate_addresses_format v;
             op' ← Types.literal "operator" ["in"; "not in"] operator;
             mret (mk v op')) = Ok c
            ↔ c = mk addresses operator
              ∧ length addresses ≤ 300
              ∧ Forall (λ a, Py.match_evm_address a = true) addresses
              ∧ operator ∈ ["in"; "not in"]) as Hinit.
  { intros A mk addresses operator c. split.
    - intros (-> & Hvalid%Hv & Hop)%addresses_init_ok_inv. tauto.
    - intros (-> & Hlen & Hall & Hop).
      assert (Types.addresses_valid addresses = true) as Hvalid
        by (by apply Hv).
      apply addresses_valid_checks in Hvalid.
      destruct (Types.validate_addresses_length addresses) as [v|];
        simpl in *; [|discriminate].
      rewrite Hvalid. simpl. by rewrite literal_ok. }
  split; [|split; [|split]].
  - intros addresses operator path c.
    apply (Hinit _ (λ a o, Types.EvmTypedAddressCondition a o path)).
  - intros addresses operator c.
    apply (Hinit _ Types.SignEvmTypedDataVerifyingContractCriterion).
  - intros addresses operator path. split; intros [c Hc].
    + apply (Hinit _ Types.EvmAddressCriterion) in Hc as (_ & H).
      eexists. apply (Hinit _ (λ a o, Types.EvmTypedAddressCondition a o path)).
      by split.
    + apply (Hinit _ (λ a o, Types.EvmTypedAddressCondition a o path)) in Hc
        as (_ & H).
      eexists. apply (Hinit _ Types.EvmAddressCriterion). by split.
  - intros addresses operator. split; intros [c Hc].
    + apply (Hinit _ Types.EvmAddressCriterion) in Hc as (_ & H).
      eexists.
      apply (Hinit _ Types.SignEvmTypedDataVerifyingContractCriterion).
      by split.
    + apply (Hinit _ Types.SignEvmTypedDataVerifyingContractCriterion) in Hc
        as (_ & H).
      eexists. apply (Hinit _ Types.EvmAddressCriterion). by split.
Qed.

(** X12 at one well-formed address. *)
Lemma X12_typed_data_addresses_witness :
  Types.EvmTypedAddressCondition_init [example_address] "in" "to"
  = Ok (Types.EvmTypedAddressCondition [example_address] "in" "to").
Proof.
  destruct X12_typed_data_addresses as (Ha & _). apply Ha.
  split; [done|]. split; [simpl; lia|].
  split; [by repeat constructor|list_member].
Defined.

(** ** The request transformer on valid rules *)

(** The element types of the [criteria] annotation of a rule class are the
    classes whose tags the legality table has for its operation. *)
Lemma rule_class_admits operation allowed c :
  (operation, allowed) ∈ Types.rule_classes →
  allowed c = true ↔ Types.type c ∈ legality_table operation.
Proof.
  intros Hcls. unfold Types.rule_classes in Hcls.
  repeat (apply elem_of_cons in Hcls as [[= -> ->]|Hcls]);
    [..|by apply elem_of_nil in Hcls];
    destruct c; split; intros H;
    lazymatch type of H with
    | _ = true =>
        vm_compute in H;
        first [ discriminate H
              | apply (bool_decide_unpack _); vm_compute; exact I ]
    | _ =>
        first [ reflexivity
              | apply (bool_decide_pack _) in H; vm_compute in H; destruct H ]
    end.
Qed.

(** X13: for a valid rule (an object of one of the six rule classes) the
    membership tests of the request transformer succeed: the operation is a
    key of the criterion table and of the rule table, and the type of every
    criterion is a key of the operation's criterion table.  The [criteria]
    annotation of a rule class admits exactly the criterion classes whose
    tags the legality table has for the operation of the class. *)
Theorem X13_valid_rules_dispatch :
  (∀ rule,
     Types.Rule_valid rule = true →
     ∃ criteria_builders rule_cls,
       RequestTransformer.openapi_criterion_mapping !! Types.operation rule
       = Some criteria_builders
       ∧ RequestTransformer.openapi_rule_mapping !! Types.operation rule
         = Some rule_cls
       ∧ ∀ criteria,
           Types.criteria rule = Some criteria →
           Forall (λ c, is_Some (criteria_builders !! Types.type c)) criteria)
  ∧ (∀ operation allowed c,
       (operation, allowed) ∈ Types.rule_classes →
       allowed c = true ↔ Types.type c ∈ legality_table operation).
Proof.
  split; [|apply rule_class_admits].
  intros [action operation [cs|]]; unfold Types.Rule_valid;
    cbn [Types.action Types.operation Types.criteria].
  - intros [Ha%bool_decide_eq_true [Hcls Hv]%andb_prop]%andb_prop.
    apply existsb_true_elem in Hcls
      as ([op allowed] & Hcls & [->%bool_decide_eq_true Hal]%andb_prop).
    simpl in *.
    destruct (rule_class_tables _ _ Hcls)
      as (builders & constructors & cls & Hreq & Hcl & _).
    exists builders, cls. split; [done|]. split; [done|].
    intros criteria [= <-]. apply forallb_true_Forall in Hal.
    eapply Forall_impl; [exact Hal|]. intros c Hc. simpl in Hc.
    apply (rule_class_admits _ _ _ Hcls) in Hc.
    apply legality_table_request in Hc as [build Hin].
    apply request_entries_spec in Hin as (builders' & Hreq' & Hty).
    rewrite Hreq in Hreq'. injection Hreq' as <-. eauto.
  - intros [Ha%bool_decide_eq_true ->%bool_decide_eq_true]%andb_prop.
    exists ∅, OpenApi.SignEvmHashRule.
    unfold RequestTransformer.openapi_criterion_mapping,
      RequestTransformer.openapi_rule_mapping. table_lookup.
    split; [done|]. split; [done|]. discriminate.
Qed.

(** X13 at the typed-data rule of the scenario. *)
Lemma X13_valid_rules_dispatch_witness :
  ∃ criteria_builders rule_cls,
    RequestTransformer.openapi_criterion_mapping !! "signEvmTypedData"
    = Some criteria_builders
    ∧ RequestTransformer.openapi_rule_mapping !! "signEvmTypedData"
      = Some rule_cls
    ∧ ∀ criteria,
        Some [Types.SignEvmTypedDataFieldCriterion example_types
                (typed_data_conditions example_address)]
        = Some criteria →
        Forall (λ c, is_Some (criteria_builders !! Types.type c)) criteria.
Proof.
  apply (proj1 X13_valid_rules_dispatch
           (typed_data_rule "accept" example_address example_types)).
  vm_compute. reflexivity.
Defined.

(** ** Comparison operators *)

(** X14: an EvmTypedNumericalCondition is constructed, with its values
    unchanged, exactly when the value is a non-empty string of digits and the
    operator is one of ">", "<", ">=", "<=", "=="; a value that is not made of
    digits is reported before the operator is looked at.  Whatever it accepts,
    EthValueCriterion accepts as well, and the converse fails for "!=" only.
    An EvmDataParameterCondition has the same five operators but takes any
    string as its value. *)
Theorem X14_numerical_conditions :
  (∀ value operator path c,
     Types.EvmTypedNumericalCondition_init value operator path = Ok c
     ↔ c = Types.EvmTypedNumericalCondition value operator path
       ∧ Py.isdigit value = true
       ∧ operator ∈ [">"; "<"; ">="; "<="; "=="])
  ∧ (∀ value operator path,
       Py.isdigit value = false →
       Types.EvmTypedNumericalCondition_init value operator path
       = Raise (ValidationError "value" "value must contain only digits"))
  ∧ (∀ value operator path,
       returns (Types.EvmTypedNumericalCondition_init value operator path)
       ↔ returns (Types.EthValueCriterion_init value operator)
         ∧ operator ≠ "!=")
  ∧ (∀ name operator value c,
       Types.EvmDataParameterCondition_init name operator value = Ok c
       ↔ c = Types.EvmDataParameterCondition name operator value
         ∧ operator ∈ [">"; "<"; ">="; "<="; "=="]).
Proof.
  assert (∀ value operator path c,
     Types.EvmTypedNumericalCondition_init value operator path = Ok c
     ↔ c = Types.EvmTypedNumericalCondition value operator path
       ∧ Py.isdigit value = true
       ∧ operator ∈ [">"; "<"; ">="; "<="; "=="]) as Hnum.
  { intros value operator path c.
    unfold Types.EvmTypedNumericalCondition_init, Types.validate_value.
    destruct (Py.isdigit value); simpl.
    - destruct (Types.literal _ _ operator) as [op'|] eqn:Hop; simpl.
      + apply literal_ok_inv in Hop as [-> Hop]. split.
        * by intros [= <-].
        * by intros (-> & _).
      + split; [discriminate|]. intros (_ & _ & Hin).
        by rewrite literal_ok in Hop.
    - split; [discriminate|]. by intros (_ & [=] & _). }
  assert (∀ value operator,
     returns (Types.EthValueCriterion_init value operator)
     ↔ Py.isdigit value = true
       ∧ operator ∈ [">"; "<"; ">="; "<="; "=="; "!="]) as Heth.
  { intros value operator. split.
    - intros [c [-> Hv]%EthValueCriterion_init_ok_inv]. simpl in Hv.
      by apply andb_prop in Hv as [Hd Hop%bool_decide_eq_true].
    - intros [Hd Hop]. eexists. apply EthValueCriterion_init_valid. simpl.
      by rewrite Hd, bool_decide_elem_of. }
  split; [exact Hnum|]. split; [|split].
  - intros value operator path Hd.
    unfold Types.EvmTypedNumericalCondition_init, Types.validate_value.
    by rewrite Hd.
  - intros value operator path. rewrite Heth. split.
    + intros [c (_ & Hd & Hop)%Hnum]. split; [split; [done|]|].
      * rewrite !elem_of_cons in Hop. rewrite !elem_of_cons. tauto.
      * intros ->. rewrite !elem_of_cons, elem_of_nil in Hop.
        destruct Hop as [?|[?|[?|[?|[?|[]]]]]]; discriminate.
    + intros [[Hd Hop] Hne]. eexists. apply Hnum. split; [done|].
      split; [done|]. rewrite !elem_of_cons, elem_of_nil in Hop.
      rewrite !elem_of_cons. tauto.
  - intros name operator value c.
    unfold Types.EvmDataParameterCondition_init, Types.validate_operator_enum.
    case_bool_decide as Hop; simpl.
    + split; [discriminate|]. intros (_ & Hin). destruct Hop.
      rewrite !elem_of_cons in Hin. rewrite !elem_of_cons. tauto.
    + split.
      * intros [= <-]. split; [done|].
        rewrite !elem_of_cons in Hop. rewrite !elem_of_cons. tauto.
      * by intros (-> & _).
Qed.

(** X14 at a value with a letter, and at a parameter condition whose value is
    not a number. *)
Lemma X14_numerical_conditions_witness :
  Types.EvmTypedNumericalCondition_init "12a" "!=" "amount"
  = Raise (ValidationError "value" "value must contain only digits")
  ∧ Types.EvmDataParameterCondition_init "to" "==" "twelve"
    = Ok (Types.EvmDataParameterCondition "to" "==" "twelve").
Proof.
  destruct X14_numerical_conditions as (_ & Hb & _ & Hd). split.
  - by apply Hb.
  - apply Hd. split; [done|list_member].
Defined.

(** ** Lists of rules *)

(** X15: both transformers treat the rules of a list independently and keep
    their order: the result for a concatenation is the concatenation of the
    results, the error of the first part coming first, and the empty list is
    mapped to the empty list. *)
Theorem X15_concatenation :
  (∀ rules1 rules2,
     RequestTransformer.map_request_rules_to_openapi_format (rules1 ++ rules2)
     = wire1 ← to_wire rules1; wire2 ← to_wire rules2; mret (wire1 ++ wire2))
  ∧ (∀ wire1 wire2,
       ResponseTransformer.map_openapi_rules_to_response_format
         (wire1 ++ wire2)
       = rules1 ← from_wire wire1; rules2 ← from_wire wire2;
         mret (rules1 ++ rules2))
  ∧ to_wire [] = Ok []
  ∧ from_wire [] = Ok [].
Proof.
  split; [|split; [|split]].
  - intros rules1 rules2. rewrite !to_wire_mapM. apply mapM_result_app.
  - intros wire1 wire2. rewrite !from_wire_mapM. apply mapM_result_app.
  - by rewrite to_wire_mapM.
  - by rewrite from_wire_mapM.
Qed.
